(** * manual_xml_tool.py: protocol core of the TQS LM operator tool

    A shallow embedding of the non-GUI logic of [manual_xml_tool.py]
    (envelope building, version negotiation, response parsing, order-data
    and serial-number block construction) together with the properties
    stated about it.

    Conventions of the embedding
    - A Python [str] is a [string]; a character is an [ascii] read as the
      code point 0..255 (the Latin-1 range of Unicode).  The character
      classes used by the program ([str.strip], [str.isdigit], [int()],
      [str.lower], and the regex classes \s and \d) are given on that range.
    - A raised exception is the [Raise] case of [Res].
    - [xml.etree.ElementTree], [zlib], the clock and the TCP socket are
      outside the repository: the parser, the compressor, [iso_now]'s clock
      and the server are parameters of the definitions that use them.
    - Python's [id(element)] is the position of the element in its tree. *)

From Stdlib Require Import ZArith Ascii String List Lia Bool.
From Stdlib Require Import Numbers.DecimalString Sorting.Sorted.
From Stdlib Require Numbers.DecimalPos.
From stdpp Require Import base option list gmap strings sorting.

Local Open Scope Z_scope.

(* ===================================================================== *)
(** * Part I: the program                                                 *)
(* ===================================================================== *)

(** ** Exceptions *)

Inductive Exn : Type :=
| ParseError    (* xml.etree.ElementTree.ParseError *)
| ValueError    (* int() on a non-numeric text *)
| IndexError    (* list index out of range *)
| TypeError     (* a value of the wrong type *)
| OverflowError (* an int that does not fit a C int *)
| OSError.      (* socket errors *)

Inductive Res (A : Type) : Type :=
| Ok (a : A)
| Raise (e : Exn).
Arguments Ok {A} a.
Arguments Raise {A} e.

Definition res_bind {A B} (r : Res A) (k : A -> Res B) : Res B :=
  match r with
  | Ok a => k a
  | Raise e => Raise e
  end.

Declare Scope res_scope.
Delimit Scope res_scope with res.
Notation "'let?' x := r 'in' k" := (res_bind r (fun x => k))
  (at level 10, x pattern, r at level 100, k at level 200) : res_scope.

(** ** Python string primitives *)

Module Py.

Definition code (c : ascii) : Z := Z.of_nat (nat_of_ascii c).
Definition chr (z : Z) : ascii := ascii_of_nat (Z.to_nat z).

(** [str.isspace] on one character: the code points below 256 for which
    [Py_UNICODE_ISSPACE] holds. *)
Definition isspace (c : ascii) : bool :=
  let n := code c in
  ((9 <=? n) && (n <=? 13)) || ((28 <=? n) && (n <=? 32))
  || (n =? 133) || (n =? 160).

(** ASCII decimal digit: what [int()] and the regex class \d accept. *)
Definition isdecimal (c : ascii) : bool :=
  let n := code c in (48 <=? n) && (n <=? 57).

(** [str.isdigit] on one character: the decimals and the superscript
    digits U+00B2, U+00B3, U+00B9. *)
Definition isdigit_char (c : ascii) : bool :=
  let n := code c in
  isdecimal c || (n =? 178) || (n =? 179) || (n =? 185).

Fixpoint forallb_str (p : ascii -> bool) (s : string) : bool :=
  match s with
  | EmptyString => true
  | String c s' => p c && forallb_str p s'
  end.

(** [s.isdigit()]: non-empty and made of digit characters only. *)
Definition isdigit (s : string) : bool :=
  match s with
  | EmptyString => false
  | _ => forallb_str isdigit_char s
  end.

Fixpoint lstrip (s : string) : string :=
  match s with
  | String c s' => if isspace c then lstrip s' else s
  | EmptyString => EmptyString
  end.

(** [rstrip] drops the trailing run of whitespace. *)
Fixpoint rstrip (s : string) : string :=
  match s with
  | EmptyString => EmptyString
  | String c s' =>
      match rstrip s' with
      | EmptyString => if isspace c then EmptyString else String c EmptyString
      | r => String c r
      end
  end.

(** [s.strip()] *)
Definition strip (s : string) : string := rstrip (lstrip s).

(** [str.lower] on one character of the range. *)
Definition lower_char (c : ascii) : ascii :=
  let n := code c in
  if ((65 <=? n) && (n <=? 90))
     || ((192 <=? n) && (n <=? 222) && negb (n =? 215))
  then chr (n + 32) else c.

Fixpoint lower (s : string) : string :=
  match s with
  | EmptyString => EmptyString
  | String c s' => String (lower_char c) (lower s')
  end.

(** [s.startswith(p)] *)
Fixpoint startswith (p s : string) : bool :=
  match p, s with
  | EmptyString, _ => true
  | String a p', String b s' => if Ascii.eqb a b then startswith p' s' else false
  | String _ _, EmptyString => false
  end.

(** [s[len(p):]] when [s] starts with [p]. *)
Fixpoint drop_prefix (p s : string) : option string :=
  match p, s with
  | EmptyString, _ => Some s
  | String a p', String b s' => if Ascii.eqb a b then drop_prefix p' s' else None
  | String _ _, EmptyString => None
  end.

(** [p in s] *)
Fixpoint contains (p s : string) : bool :=
  startswith p s ||
  match s with
  | EmptyString => false
  | String _ s' => contains p s'
  end.

(** [s.replace(c, by)] for a one-character pattern. *)
Fixpoint replace_char (c : ascii) (by_ : string) (s : string) : string :=
  match s with
  | EmptyString => EmptyString
  | String a s' =>
      if Ascii.eqb a c then by_ +:+ replace_char c by_ s'
      else String a (replace_char c by_ s')
  end.

(** [s.partition(c)] for a one-character separator: the text before the
    first [c] and, when [c] occurs, the text after it. *)
Fixpoint split_once (c : ascii) (s : string) : string * option string :=
  match s with
  | EmptyString => (EmptyString, None)
  | String a s' =>
      if Ascii.eqb a c then (EmptyString, Some s')
      else let '(h, t) := split_once c s' in (String a h, t)
  end.

(** [sep.join(parts)] *)
Fixpoint join (sep : string) (parts : list string) : string :=
  match parts with
  | [] => EmptyString
  | [p] => p
  | p :: rest => p +:+ sep +:+ join sep rest
  end.

(** [str(n)] for an [int]. *)
Definition str (n : Z) : string := NilEmpty.string_of_int (Z.to_int n).

(** [f"{n:02d}"]: decimal, zero-padded to width two (the sign counts). *)
Definition fmt_02d (n : Z) : string :=
  if (0 <=? n) && (n <? 10) then String "0"%char (str n) else str n.

(** [bool(s)] for a [str]. *)
Definition truthy (s : string) : bool :=
  match s with EmptyString => false | _ => true end.

(** [a or b] on strings. *)
Definition or_else (a b : string) : string := if truthy a then a else b.

(** The digits of an [int()] literal after the sign: decimal digits with
    single underscores allowed between digits.  [acc] is the value read
    so far, [prev_digit] tells whether the previous character was a
    digit. *)
Fixpoint int_digits (acc : Z) (prev_digit : bool) (s : string) : option Z :=
  match s with
  | EmptyString => if prev_digit then Some acc else None
  | String c s' =>
      if isdecimal c then int_digits (10 * acc + (code c - 48)) true s'
      else if Ascii.eqb c "_"%char then
        if prev_digit then int_digits acc false s' else None
      else None
  end.

(** [int(s)] for a [str] in base ten: surrounding whitespace is dropped,
    one sign is allowed. *)
Definition int (s : string) : Res Z :=
  let body :=
    match strip s with
    | String "-" r => option_map Z.opp (int_digits 0 false r)
    | String "+" r => int_digits 0 false r
    | r => int_digits 0 false r
    end in
  match body with
  | Some n => Ok n
  | None => Raise ValueError
  end.

End Py.

Local Open Scope res_scope.

(** ** Loops inside [try: ... except Exception: pass] *)

(** A loop that appends to a list which survives the [except]: the items
    gathered before an exception are kept, the rest of the loop is lost. *)
Fixpoint collect {A B} (step : A -> Res (option B)) (l : list A) : list B :=
  match l with
  | [] => []
  | a :: l' =>
      match step a with
      | Raise _ => []
      | Ok None => collect step l'
      | Ok (Some b) => b :: collect step l'
      end
  end.

(** A loop threading an accumulator; an exception leaves the loop. *)
Fixpoint foldM {A S} (step : S -> A -> Res S) (s : S) (l : list A) : Res S :=
  match l with
  | [] => Ok s
  | a :: l' => let? s' := step s a in foldM step s' l'
  end.

(** [next((x for x in l if p(x)), None)], also the [for ... if ...: break]
    search: the first element satisfying [p]. *)
Fixpoint find_first {A} (p : A -> Res bool) (l : list A) : Res (option A) :=
  match l with
  | [] => Ok None
  | a :: l' => let? b := p a in if b then Ok (Some a) else find_first p l'
  end.

(** ** The element tree of xml.etree.ElementTree *)

#[warnings="-register-all"]
Inductive Element : Type :=
| Elem (tag : string) (attrib : gmap string string) (text : option string)
       (children : list Element).

Definition el_tag (e : Element) : string := let 'Elem t _ _ _ := e in t.
Definition el_attrib (e : Element) : gmap string string :=
  let 'Elem _ a _ _ := e in a.
Definition el_text (e : Element) : option string := let 'Elem _ _ x _ := e in x.
Definition el_children (e : Element) : list Element :=
  let 'Elem _ _ _ cs := e in cs.

(** [(el.text or "")] *)
Definition text_or_empty (e : Element) : string := default EmptyString (el_text e).

(** The identity of an element: the child indices leading to it. *)
Abbreviation Path := (list nat).

(** [e.iter()] in document order, every element with its identity;
    [p] is the identity of [e] itself. *)
Fixpoint iter_at (p : Path) (e : Element) : list (Path * Element) :=
  (p, e) ::
  (fix go (i : nat) (cs : list Element) : list (Path * Element) :=
     match cs with
     | [] => []
     | c :: cs' => iter_at (p ++ [i]) c ++ go (S i) cs'
     end) 0%nat (el_children e).

Definition iter (e : Element) : list Element := (iter_at [] e).*2.

(** [strip_ns]: [tag.split("}", 1)[1] if tag.startswith("{") else tag]. *)
Definition strip_ns (tag : string) : Res string :=
  if Py.startswith "{" tag then
    match Py.split_once "}" tag with
    | (_, Some rest) => Ok rest
    | (_, None) => Raise IndexError
    end
  else Ok tag.

(** [strip_ns(e.tag) == name] *)
Definition local_is (name : string) (e : Element) : Res bool :=
  let? t := strip_ns (el_tag e) in Ok (String.eqb t name).

(** ** xml_escape *)

Definition xml_escape (s : string) : string :=
  if negb (Py.truthy s) then ""
  else
    Py.replace_char "'" "&apos;"
      (Py.replace_char "034" "&quot;"
         (Py.replace_char ">" "&gt;"
            (Py.replace_char "<" "&lt;"
               (Py.replace_char "&" "&amp;" s)))).

(** [xml_escape(None)] and [xml_escape(s)] for an optional string. *)
Definition xml_escape_opt (s : option string) : string :=
  match s with
  | None => ""
  | Some s => xml_escape s
  end.

(** ** build_sns_payload_for_level *)

(** [s.encode("utf-8")] on the code points below 256, as byte values. *)
Fixpoint utf8_encode (s : string) : list ascii :=
  match s with
  | EmptyString => []
  | String c s' =>
      let n := Py.code c in
      if n <? 128 then c :: utf8_encode s'
      else Py.chr (192 + n / 64) :: Py.chr (128 + n mod 64) :: utf8_encode s'
  end.

(** The inverse of [utf8_encode]: [bytes.decode("utf-8")] restricted to the
    one- and two-byte sequences of code points below 256. *)
Fixpoint utf8_decode (b : list ascii) : option string :=
  match b with
  | [] => Some EmptyString
  | c :: b' =>
      let n := Py.code c in
      if n <? 128 then String c <$> utf8_decode b'
      else
        match b' with
        | d :: b'' =>
            let m := Py.code d in
            if ((n =? 194) || (n =? 195)) && (128 <=? m) && (m <? 192)
            then String (Py.chr ((n - 192) * 64 + (m - 128))) <$> utf8_decode b''
            else None
        | [] => None
        end
  end.

Module Base64.

(** A group of six bits, most significant first. *)
Inductive sextet : Type := Sextet (b5 b4 b3 b2 b1 b0 : bool).

Definition sextet_value (s : sextet) : Z :=
  let 'Sextet b5 b4 b3 b2 b1 b0 := s in
  32 * Z.b2z b5 + 16 * Z.b2z b4 + 8 * Z.b2z b3
  + 4 * Z.b2z b2 + 2 * Z.b2z b1 + Z.b2z b0.

(** The standard alphabet: A-Z, a-z, 0-9, +, /. *)
Definition alphabet (v : Z) : ascii :=
  if v <? 26 then Py.chr (65 + v)
  else if v <? 52 then Py.chr (97 + (v - 26))
  else if v <? 62 then Py.chr (48 + (v - 52))
  else if v =? 62 then "+"%char else "/"%char.

Definition enc_sextet (s : sextet) : ascii := alphabet (sextet_value s).

Definition sextet_of_value (v : Z) : sextet :=
  Sextet (Z.testbit v 5) (Z.testbit v 4) (Z.testbit v 3)
         (Z.testbit v 2) (Z.testbit v 1) (Z.testbit v 0).

Definition dec_char (c : ascii) : option sextet :=
  let n := Py.code c in
  if (65 <=? n) && (n <=? 90) then Some (sextet_of_value (n - 65))
  else if (97 <=? n) && (n <=? 122) then Some (sextet_of_value (n - 97 + 26))
  else if (48 <=? n) && (n <=? 57) then Some (sextet_of_value (n - 48 + 52))
  else if n =? 43 then Some (sextet_of_value 62)
  else if n =? 47 then Some (sextet_of_value 63)
  else None.

(** [base64.b64encode]: three bytes give four characters; a final group
    of one or two bytes is padded with [=]. *)
Fixpoint b64encode (b : list ascii) : string :=
  match b with
  | [] => ""
  | [Ascii a0 a1 a2 a3 a4 a5 a6 a7] =>
      String (enc_sextet (Sextet a7 a6 a5 a4 a3 a2))
        (String (enc_sextet (Sextet a1 a0 false false false false)) "==")
  | [Ascii a0 a1 a2 a3 a4 a5 a6 a7; Ascii c0 c1 c2 c3 c4 c5 c6 c7] =>
      String (enc_sextet (Sextet a7 a6 a5 a4 a3 a2))
        (String (enc_sextet (Sextet a1 a0 c7 c6 c5 c4))
           (String (enc_sextet (Sextet c3 c2 c1 c0 false false)) "="))
  | Ascii a0 a1 a2 a3 a4 a5 a6 a7 :: Ascii c0 c1 c2 c3 c4 c5 c6 c7
      :: Ascii d0 d1 d2 d3 d4 d5 d6 d7 :: rest =>
      String (enc_sextet (Sextet a7 a6 a5 a4 a3 a2))
        (String (enc_sextet (Sextet a1 a0 c7 c6 c5 c4))
           (String (enc_sextet (Sextet c3 c2 c1 c0 d7 d6))
              (String (enc_sextet (Sextet d5 d4 d3 d2 d1 d0))
                 (b64encode rest))))
  end.

(** [base64.b64decode] on padded groups of four characters. *)
Fixpoint b64decode (s : string) : option (list ascii) :=
  match s with
  | EmptyString => Some []
  | String w (String x (String y (String z rest))) =>
      match dec_char w, dec_char x with
      | Some (Sextet a7 a6 a5 a4 a3 a2), Some (Sextet a1 a0 c7 c6 c5 c4) =>
          let first := Ascii a0 a1 a2 a3 a4 a5 a6 a7 in
          if Ascii.eqb y "="%char then
            if Ascii.eqb z "="%char then
              match rest with EmptyString => Some [first] | _ => None end
            else None
          else
            match dec_char y with
            | Some (Sextet c3 c2 c1 c0 d7 d6) =>
                let second := Ascii c0 c1 c2 c3 c4 c5 c6 c7 in
                if Ascii.eqb z "="%char then
                  match rest with
                  | EmptyString => Some [first; second]
                  | _ => None
                  end
                else
                  match dec_char z with
                  | Some (Sextet d5 d4 d3 d2 d1 d0) =>
                      cons first <$>
                        (cons second <$>
                           (cons (Ascii d0 d1 d2 d3 d4 d5 d6 d7)
                              <$> b64decode rest))
                  | None => None
                  end
            | None => None
            end
      | _, _ => None
      end
  | _ => None
  end.

End Base64.

(** The serial numbers ["01"] .. ["10"]:
    [[f"{i:02d}" for i in range(1, 11)]]. *)
Definition sns_nums : list string := Py.fmt_02d <$> [1; 2; 3; 4; 5; 6; 7; 8; 9; 10].

(** The uncompressed document of the serial-number block. *)
Definition sns_inner (level_id : Z) : string :=
  "<lvl><id>" +:+ Py.str level_id +:+ "</id>"
  +:+ Py.join "" ((fun n => "<sn><no>" +:+ n +:+ "</no></sn>") <$> sns_nums)
  +:+ "</lvl>".

Section Sns.
(** [zlib.compress] at its default level. *)
Variable zlib_compress : list ascii -> list ascii.

Definition build_sns_payload_for_level (level_id : Z) : string * Z :=
  let raw := utf8_encode (sns_inner level_id) in
  let comp := zlib_compress raw in
  (Base64.b64encode comp, Z.of_nat (length raw)).
End Sns.

(** ** Response parsing *)

(** A Python value stored in a field record. *)
Inductive Constraint : Type :=
  MkConstraint (c_type : option Z) (c_value : option string).

Definition c_type (c : Constraint) : option Z := let 'MkConstraint t _ := c in t.
Definition c_value (c : Constraint) : option string :=
  let 'MkConstraint _ v := c in v.

Inductive Value : Type :=
| VNone
| VInt (n : Z)
| VStr (s : string)
| VBool (b : bool)
| VConstraints (cs : list Constraint).

(** [bool(v)] *)
Definition value_truthy (v : Value) : bool :=
  match v with
  | VNone => false
  | VInt n => negb (n =? 0)
  | VStr s => Py.truthy s
  | VBool b => b
  | VConstraints cs => match cs with [] => false | _ => true end
  end.

Definition VOptStr (s : option string) : Value :=
  match s with
  | None => VNone
  | Some s => VStr s
  end.

(** A field record: the [dict] appended to [rows]. *)
Abbreviation Row := (gmap string Value).

(** What the loop over the direct children of a node has seen. *)
Record Direct : Type := MkDirect {
  name_text : option string;
  disp_text : option string;
  writable : option string;
  preset : option string
}.

Definition no_direct : Direct := MkDirect None None None None.

Definition scan_child (d : Direct) (ch : Element) : Res Direct :=
  let? local := strip_ns (el_tag ch) in
  let t := Py.strip (text_or_empty ch) in
  if String.eqb local "name" then
    Ok (MkDirect (Some t) (disp_text d) (writable d) (preset d))
  else if String.eqb local "display-name" then
    Ok (MkDirect (name_text d) (Some t) (writable d) (preset d))
  else if String.eqb local "writable" then
    Ok (MkDirect (name_text d) (disp_text d) (Some t) (preset d))
  else if String.eqb local "value-set-by-article" || String.eqb local "preset"
          || String.eqb local "default-value" then
    Ok (MkDirect (name_text d) (disp_text d) (writable d) (Some t))
  else Ok d.

(** [writable.lower() not in ("0", "false", "no")] *)
Definition writable_flag (w : option string) : bool :=
  match w with
  | None => true
  | Some w =>
      let l := Py.lower w in
      negb (String.eqb l "0" || String.eqb l "false" || String.eqb l "no")
  end.

(** The level id read from the children of an aggregation-level element:
    the first [id] child whose stripped text [isdigit()], else 1. *)
Fixpoint level_id (chs : list Element) : Res Z :=
  match chs with
  | [] => Ok 1
  | ch :: rest =>
      let? local := strip_ns (el_tag ch) in
      if String.eqb local "id" && Py.isdigit (Py.strip (text_or_empty ch))
      then Py.int (Py.strip (text_or_empty ch))
      else level_id rest
  end.

(** [for sub in agg.iter(): level_map[id(sub)] = lvl] *)
Definition mark_subtree (p : Path) (agg : Element) (lvl : Z)
    (level_map : gmap Path Z) : gmap Path Z :=
  foldl (fun m q => <[q.1 := lvl]> m) level_map (iter_at p agg).

(** One round of the loop over [response.iter()] that fills [level_map]. *)
Definition level_step (level_map : gmap Path Z) (pa : Path * Element)
    : Res (gmap Path Z) :=
  let? is_agg := local_is "aggregation-level" pa.2 in
  if is_agg then
    let? lvl := level_id (el_children pa.2) in
    Ok (mark_subtree pa.1 pa.2 lvl level_map)
  else Ok level_map.

Definition build_level_map (response : Element) : Res (gmap Path Z) :=
  foldM level_step ∅ (iter_at [] response).

(** One round of the second loop over [response.iter()]: the record of the
    node, or nothing when it is not a field. *)
Definition field_step (level_map : gmap Path Z) (pn : Path * Element)
    : Res (option Row) :=
  let? d := foldM scan_child no_direct (el_children pn.2) in
  match name_text d, disp_text d with
  | Some n, Some dn =>
      let lvl := default 1 (level_map !! pn.1) in
      Ok (Some (<["level" := VInt lvl]>
                (<["name" := VStr n]>
                 (<["display" := VStr dn]>
                  (<["writable" := VBool (writable_flag (writable d))]>
                   (<["preset" := VOptStr (preset d)]> ∅))))))
  | _, _ => Ok None
  end.

(** The body of [parse_article_fields] once the text is parsed: [rows] as
    it stands when the function returns. *)
Definition fields_of_tree (root : Element) : list Row :=
  match find_first (local_is "response") (iter root) with
  | Ok (Some response) =>
      match build_level_map response with
      | Ok level_map => collect (field_step level_map) (iter_at [] response)
      | Raise _ => []
      end
  | Ok None => []
  | Raise _ => []
  end.

(** The body of [parse_article_names] once the text is parsed. *)
Definition article_step (el : Element) : Res (option string) :=
  let? is_article := local_is "article" el in
  if is_article then
    let? nm := find_first (local_is "name") (el_children el) in
    match nm with
    | Some nm =>
        if Py.truthy (Py.strip (text_or_empty nm))
        then Ok (Some (Py.strip (text_or_empty nm)))
        else Ok None
    | None => Ok None
    end
  else Ok None.

Definition names_of_tree (root : Element) : list string :=
  collect article_step (iter root).

Section Parsing.
(** [ET.fromstring]: the element tree of a text, or [ParseError]. *)
Variable fromstring : string -> Res Element.

Definition parse_tnt_meta (xml_text : string)
    : Res (string * string * string * Element) :=
  let? root := fromstring xml_text in
  let ns :=
    if Py.startswith "{" (el_tag root) then
      match el_tag root with
      | String _ rest => (Py.split_once "}" rest).1
      | EmptyString => EmptyString
      end
    else Py.or_else (default "" (el_attrib root !! "xmlns"))
                    "http://www.wipotec.com" in
  let tnt_version := Py.or_else (default "" (el_attrib root !! "version")) "" in
  let dbv := Py.or_else (default "" (el_attrib root !! "dbVersion")) "" in
  Ok (ns, tnt_version, dbv, root).

Definition parse_article_names (xml_text : string) : list string :=
  match fromstring xml_text with
  | Ok root => names_of_tree root
  | Raise _ => []
  end.

Definition parse_article_fields (xml_text : string) : list Row :=
  match fromstring xml_text with
  | Ok root => fields_of_tree root
  | Raise _ => []
  end.
End Parsing.

(** ** The input widgets of the order builder *)

Inductive Validator : Type :=
| NoValidator
| RegexValidator (pattern : string)
| IntValidator (lo hi : Z).

(** A [QLineEdit]: its validator, its placeholder and the text typed in. *)
Record LineEdit : Type := MkLineEdit {
  le_validator : Validator;
  le_placeholder : string;
  le_text : string
}.

(** A child row of [fieldsView]: columns 0 to 3 and the widget of column 4. *)
Record ChildItem : Type := MkChildItem {
  ci_level : string;
  ci_name : string;
  ci_display : string;
  ci_writable : string;
  ci_widget : option LineEdit
}.

(** A top-level row of [fieldsView]. *)
Record TopItem : Type := MkTopItem {
  ti_level : string;
  ti_children : list ChildItem
}.

(** ** _make_editor_for_constraints *)

Module Re.

(** The longest prefix of [s] made of characters satisfying [p], and the
    rest: a greedy [p+] or [p*] followed by something [p] excludes. *)
Fixpoint span (p : ascii -> bool) (s : string) : string * string :=
  match s with
  | EmptyString => (EmptyString, EmptyString)
  | String c s' =>
      if p c then let '(h, t) := span p s' in (String c h, t)
      else (EmptyString, s)
  end.

(** [-?\d+] at the start of [s]: the matched text and the rest. *)
Definition signed_digits (s : string) : option (string * string) :=
  match s with
  | String "-" r =>
      match span Py.isdecimal r with
      | (EmptyString, _) => None
      | (d, t) => Some (String "-" d, t)
      end
  | _ =>
      match span Py.isdecimal s with
      | (EmptyString, _) => None
      | (d, t) => Some (d, t)
      end
  end.

(** [re.match(r"\(\s*(-?\d+)\s+(-?\d+)\s*\)", s)]: the two groups. *)
Definition match_interval (s : string) : option (string * string) :=
  match s with
  | String "(" r0 =>
      match signed_digits (Py.lstrip r0) with
      | Some (g1, r1) =>
          match r1 with
          | String c _ =>
              if Py.isspace c then
                match signed_digits (Py.lstrip r1) with
                | Some (g2, r2) =>
                    if Py.startswith ")" (Py.lstrip r2) then Some (g1, g2)
                    else None
                | None => None
                end
              else None
          | EmptyString => None
          end
      | None => None
      end
  | _ => None
  end.

(** [re.search(r"<concerning>([^<]+)</concerning>", s)]: group 1 of the
    leftmost match. *)
Fixpoint search_concerning (s : string) : option string :=
  let here :=
    match Py.drop_prefix "<concerning>" s with
    | Some r =>
        match span (fun c => negb (Ascii.eqb c "<")) r with
        | (EmptyString, _) => None
        | (g, t) => if Py.startswith "</concerning>" t then Some g else None
        end
    | None => None
    end in
  match here with
  | Some g => Some g
  | None =>
      match s with
      | EmptyString => None
      | String _ s' => search_concerning s'
      end
  end.

End Re.

(** A C [int], the argument type of [QIntValidator]. *)
Definition c_int (n : Z) : Res Z :=
  if (-2147483648 <=? n) && (n <=? 2147483647) then Ok n
  else Raise OverflowError.

(** [c.get("type") == k and c.get("value")] *)
Definition has_type_and_value (k : Z) (c : Constraint) : bool :=
  bool_decide (c_type c = Some k) && Py.truthy (default "" (c_value c)).

Definition _make_editor_for_constraints (constraints : list Constraint)
    : Res LineEdit :=
  let rx_vals := omap c_value (filter (fun c => has_type_and_value 27 c) constraints) in
  match rx_vals with
  | rx :: _ => Ok (MkLineEdit (RegexValidator rx) ("regex: " +:+ rx) "")
  | [] =>
      let fallback :=
        if existsb (fun c => bool_decide (c_type c = Some 10)) constraints
        then MkLineEdit NoValidator "vereist (GS1/IFA)" ""
        else MkLineEdit NoValidator "value" "" in
      match filter (fun c => has_type_and_value 25 c) constraints with
      | rng :: _ =>
          match Re.match_interval (default "" (c_value rng)) with
          | Some (g1, g2) =>
              let? lo := Py.int g1 in
              let? hi := Py.int g2 in
              let? lo' := c_int lo in
              let? hi' := c_int hi in
              Ok (MkLineEdit (IntValidator lo' hi')
                    ("int " +:+ Py.str lo +:+ ".." +:+ Py.str hi) "")
          | None => Ok fallback
          end
      | [] => Ok fallback
      end
  end.

(** [f.get("constraints", [])], the argument [populate_fields_tree] gives
    to the editor factory for a writable field. *)
Definition constraints_arg (f : Row) : Res (list Constraint) :=
  match f !! "constraints" with
  | None => Ok []
  | Some (VConstraints cs) => Ok cs
  | Some _ => Raise TypeError
  end.

Definition editor_for_field (f : Row) : Res LineEdit :=
  let? cs := constraints_arg f in _make_editor_for_constraints cs.

(** ** build_order_data_xml_from_tree *)

(** The text of the editor of a child row, or [""] when column 4 holds no
    [QLineEdit]. *)
Definition entered_value (it : ChildItem) : string :=
  match ci_widget it with
  | Some ed => Py.strip (le_text ed)
  | None => ""
  end.

(** [filled.setdefault(lvl, []).append((name, val))] *)
Definition filled_append (lvl : Z) (nv : string * string)
    (filled : gmap Z (list (string * string))) : gmap Z (list (string * string)) :=
  <[lvl := default [] (filled !! lvl) ++ [nv]]> filled.

Definition order_child_step (lvl : Z) (filled : gmap Z (list (string * string)))
    (it : ChildItem) : gmap Z (list (string * string)) :=
  if negb (Py.startswith "y" (Py.lower (ci_writable it))) then filled
  else
    let val := entered_value it in
    if String.eqb val "" then filled
    else filled_append lvl (ci_name it, val) filled.

Definition order_top_step
    (st : gset Z * gmap Z (list (string * string))) (parent : TopItem)
    : gset Z * gmap Z (list (string * string)) :=
  match Py.int (ti_level parent) with
  | Raise _ => st
  | Ok lvl => ({[lvl]} ∪ st.1, foldl (order_child_step lvl) st.2 (ti_children parent))
  end.

(** [sorted(s)] for a set of integers. *)
Definition sorted_levels (s : gset Z) : list Z := merge_sort Z.le (elements s).

Definition element_lines (nv : string * string) : list string :=
  [ "      <element>";
    "        <name>" +:+ xml_escape nv.1 +:+ "</name>";
    "        <value>" +:+ xml_escape nv.2 +:+ "</value>";
    "      </element>" ].

Definition level_lines (filled : gmap Z (list (string * string))) (lvl : Z)
    : list string :=
  [ "  <aggregation-level>";
    "    <id>" +:+ Py.str lvl +:+ "</id>";
    "    <data-field-values>" ]
  ++ concat (element_lines <$> default [] (filled !! lvl))
  ++ [ "    </data-field-values>"; "  </aggregation-level>" ].

Definition build_order_data_xml_from_tree (fieldsView : list TopItem)
    : string * list Z :=
  let '(all_levels, filled) := foldl order_top_step (∅, ∅) fieldsView in
  let all_levels := if bool_decide (all_levels = ∅) then {[0]} else all_levels in
  let parts :=
    ["<order-data>"]
    ++ concat (level_lines filled <$> sorted_levels all_levels)
    ++ ["</order-data>"] in
  (Py.join (String "010" "") parts, sorted_levels all_levels).

(** ** The tool: protocol context, log and transport *)

Section Tool.
(** The connection and the clock: everything [client_or_new()],
    [TQSClient.connect] and the socket reads hide.  [exchange env w] is
    [sendall(env)] followed by the receive loop; [clock] is what
    [datetime.now()] reads. *)
Variable W : Type.
Variable clock : W -> string * W.
Variable exchange : string -> W -> Res string * W.
Variable fromstring : string -> Res Element.

Record Tool : Type := MkTool {
  world : W;
  edRaw : list string;          (* the texts appended to the raw log *)
  edAgent : string;
  edIface : string;
  edDB : string;
  edNS : string;
  listArticles : list string;
  current_fields : list Row;
  sent : list string            (* ghost: the inner requests given to send_inner *)
}.

Definition M (A : Type) : Type := Tool -> Res A * Tool.

Definition ret {A} (a : A) : M A := fun t => (Ok a, t).
Definition bind {A B} (m : M A) (k : A -> M B) : M B :=
  fun t => match m t with
           | (Ok a, t') => k a t'
           | (Raise e, t') => (Raise e, t')
           end.
(** [try: m except Exception: h] *)
Definition try_except {A} (m : M A) (h : Exn -> M A) : M A :=
  fun t => match m t with
           | (Ok a, t') => (Ok a, t')
           | (Raise e, t') => h e t'
           end.
Definition gets {A} (f : Tool -> A) : M A := fun t => (Ok (f t), t).
Definition modify (f : Tool -> Tool) : M unit := fun t => (Ok tt, f t).

Notation "x <- m ;; k" := (bind m (fun x => k))
  (at level 100, m at next level, right associativity).
Notation "m ;;; k" := (bind m (fun _ => k))
  (at level 100, right associativity).

Definition set_world (w : W) (t : Tool) : Tool :=
  MkTool w (edRaw t) (edAgent t) (edIface t) (edDB t) (edNS t)
         (listArticles t) (current_fields t) (sent t).
Definition set_edRaw (l : list string) (t : Tool) : Tool :=
  MkTool (world t) l (edAgent t) (edIface t) (edDB t) (edNS t)
         (listArticles t) (current_fields t) (sent t).
Definition set_edIface (s : string) (t : Tool) : Tool :=
  MkTool (world t) (edRaw t) (edAgent t) s (edDB t) (edNS t)
         (listArticles t) (current_fields t) (sent t).
Definition set_edDB (s : string) (t : Tool) : Tool :=
  MkTool (world t) (edRaw t) (edAgent t) (edIface t) s (edNS t)
         (listArticles t) (current_fields t) (sent t).
Definition set_edNS (s : string) (t : Tool) : Tool :=
  MkTool (world t) (edRaw t) (edAgent t) (edIface t) (edDB t) s
         (listArticles t) (current_fields t) (sent t).
Definition set_listArticles (l : list string) (t : Tool) : Tool :=
  MkTool (world t) (edRaw t) (edAgent t) (edIface t) (edDB t) (edNS t)
         l (current_fields t) (sent t).
Definition set_current_fields (l : list Row) (t : Tool) : Tool :=
  MkTool (world t) (edRaw t) (edAgent t) (edIface t) (edDB t) (edNS t)
         (listArticles t) l (sent t).
Definition set_sent (l : list string) (t : Tool) : Tool :=
  MkTool (world t) (edRaw t) (edAgent t) (edIface t) (edDB t) (edNS t)
         (listArticles t) (current_fields t) l.

Definition iso_now : M string :=
  fun t => let '(s, w) := clock (world t) in (Ok s, set_world w t).

Definition current_ns (t : Tool) : string :=
  Py.or_else (Py.strip (edNS t)) "http://www.wipotec.com".
Definition iface_ver (t : Tool) : string :=
  Py.or_else (Py.strip (edIface t)) "1.15".
Definition db_ver (t : Tool) : option string :=
  let v := Py.strip (edDB t) in if Py.truthy v then Some v else None.
Definition agent (t : Tool) : string :=
  Py.or_else (Py.strip (edAgent t)) "MW".

(** The envelope for a given timestamp. *)
Definition envelope (t : Tool) (timestamp inner_xml : string) : string :=
  let db_attr :=
    match db_ver t with
    | Some v => " dbVersion=" +:+ String "034" (xml_escape v) +:+ String "034" ""
    | None => ""
    end in
  "<tnt version=" +:+ String "034" (xml_escape (iface_ver t)) +:+ String "034" db_attr
  +:+ " xmlns=" +:+ String "034" (xml_escape (current_ns t)) +:+ String "034" ""
  +:+ " xmlns:xsi=" +:+ String "034" "http://www.w3.org/2001/XMLSchema-instance"
  +:+ String "034" ">"
  +:+ "<header><agent>" +:+ xml_escape (agent t) +:+ "</agent><timestamp>"
  +:+ timestamp +:+ "</timestamp></header>"
  +:+ inner_xml
  +:+ "</tnt>".

Definition build_tnt (inner_xml : string) : M string :=
  ts <- iso_now ;;
  t <- gets id ;;
  ret (envelope t ts inner_xml).

Definition append_raw (text : string) : M unit :=
  modify (fun t => set_edRaw (edRaw t ++ [text]) t).

Definition nl : string := String "010" "".

(** The slot connected to [TQSClient.received].  [parse_article_list] and
    [populate_fields_view] are not defined anywhere: reaching either
    raises, and the [except] of the slot swallows it. *)
Definition on_received (xml_text : string) : M unit :=
  ts <- iso_now ;;
  append_raw ("<<< RECV @ " +:+ ts +:+ nl +:+ xml_text +:+ nl) ;;;
  if Py.contains "<article>" xml_text
     && (Py.contains "get-article-list-response" xml_text
         || Py.contains "get-" xml_text)
  then ret tt
  else
    let fields := parse_article_fields fromstring xml_text in
    match fields with
    | [] => ret tt
    | _ => modify (set_current_fields fields)
    end.

(** [TQSClient.send_and_recv] on the client of the tool. *)
Definition send_and_recv (env : string) : M string :=
  text <- (fun t => let '(r, w) := exchange env (world t) in (r, set_world w t)) ;;
  on_received text ;;;
  ret text.

Definition send_inner (inner_xml : string) : M string :=
  modify (fun t => set_sent (sent t ++ [inner_xml]) t) ;;;
  env <- build_tnt inner_xml ;;
  ts <- iso_now ;;
  append_raw (">>> SENT @ " +:+ ts +:+ nl +:+ env +:+ nl) ;;;
  resp <- send_and_recv env ;;
  ts' <- iso_now ;;
  append_raw ("<<< RECV @ " +:+ ts' +:+ nl +:+ resp +:+ nl) ;;;
  ret resp.

(** ** negotiate_and_send *)

(** The [for ver in candidates] loop; [tried] and [last_resp] are the
    local variables of the function. *)
Fixpoint negotiate_loop (body_builder : string -> string)
    (candidates tried : list string) (last_resp : string) : M string :=
  match candidates with
  | [] => ret last_resp
  | ver :: rest =>
      let tried := tried ++ [ver] in
      last_resp <- send_inner (body_builder ver) ;;
      if Py.contains "version-error" last_resp then
        match Re.search_concerning last_resp with
        | Some g =>
            let want := Py.strip g in
            if Py.truthy want && negb (bool_decide (want ∈ tried)) then
              last_resp <- send_inner (body_builder want) ;;
              if Py.contains "version-error" last_resp
              then negotiate_loop body_builder rest tried last_resp
              else ret last_resp
            else negotiate_loop body_builder rest tried last_resp
        | None => negotiate_loop body_builder rest tried last_resp
        end
      else ret last_resp
  end.

Definition negotiate_and_send (xsi_type : string) (candidates : list string)
    (body_builder : string -> string) : M string :=
  negotiate_loop body_builder candidates [] "".

(** ** Request handlers *)

Definition request_tag (xsi_type v : string) (close : string) : string :=
  "<request xsi:type=" +:+ String "034" xsi_type +:+ String "034" ""
  +:+ " version=" +:+ String "034" v +:+ String "034" ""
  +:+ " id=" +:+ String "034" "1" +:+ String "034" close.

Definition query_version_candidates : list string := ["1.0"; "1.1"; "2.0"].
Definition query_version_builder (v : string) : string :=
  request_tag "query-version-request" v " />".

Definition on_query_version : M unit :=
  resp <- negotiate_and_send "query-version-request"
            query_version_candidates query_version_builder ;;
  match parse_tnt_meta fromstring resp with
  | Ok (ns, tnt_v, dbv, _) =>
      (if Py.truthy tnt_v then modify (set_edIface tnt_v) else ret tt) ;;;
      (if Py.truthy dbv then modify (set_edDB dbv) else ret tt) ;;;
      (if Py.truthy ns then modify (set_edNS ns) else ret tt)
  | Raise _ => ret tt
  end.

Definition get_articles_candidates : list string := ["2.0"; "1.1"; "1.0"].
Definition get_articles_builder (v : string) : string :=
  request_tag "get-article-list-request" v " />".

(** The text of the exception and the traceback in the log line of the
    [except] branch are not modelled: the line is its fixed prefix. *)
Definition on_get_articles : M unit :=
  try_except
    (resp <- negotiate_and_send "get-article-list-request"
               get_articles_candidates get_articles_builder ;;
     modify (set_listArticles (parse_article_names fromstring resp)))
    (fun _ => append_raw "# Get-article-list failed: ").

Definition create_order_candidates : list string := ["2.0"; "1.2"; "1.1"; "1.0"].
Definition import_order_candidates : list string := ["2.0"; "1.2"; "1.1"; "1.0"].
Definition start_order_candidates : list string := ["2.0"; "1.1"; "1.0"].

Definition create_order_builder (order_name current_article order_data_xml
    sns_xml v : string) : string :=
  request_tag "create-order-request" v ">" +:+ nl
  +:+ "  <order-name>" +:+ xml_escape order_name +:+ "</order-name>" +:+ nl
  +:+ "  <article-name>" +:+ xml_escape current_article +:+ "</article-name>" +:+ nl
  +:+ order_data_xml +:+ nl
  +:+ "  " +:+ sns_xml +:+ nl
  +:+ "</request>".

Definition start_order_builder (order_name v : string) : string :=
  request_tag "start-order-request" v ">" +:+ nl
  +:+ "  <order-name>" +:+ xml_escape order_name +:+ "</order-name>" +:+ nl
  +:+ "</request>".

Definition on_start_order_named (order_name : string) : M unit :=
  try_except
    (negotiate_and_send "start-order-request" start_order_candidates
       (start_order_builder order_name) ;;; ret tt)
    (fun _ => append_raw "# Start order failed: ").

End Tool.

Arguments MkTool {W}.
Arguments ret {W A}.
Arguments bind {W A B}.
Arguments try_except {W A}.
Arguments gets {W A}.
Arguments modify {W}.
Arguments set_world {W}.
Arguments set_edRaw {W}.
Arguments set_edIface {W}.
Arguments set_edDB {W}.
Arguments set_edNS {W}.
Arguments set_listArticles {W}.
Arguments set_current_fields {W}.
Arguments set_sent {W}.
Arguments current_ns {W}.
Arguments iface_ver {W}.
Arguments db_ver {W}.
Arguments agent {W}.
Arguments envelope {W}.
Arguments iso_now {W}.
Arguments build_tnt {W}.
Arguments append_raw {W}.
Arguments on_received {W}.
Arguments send_and_recv {W}.
Arguments send_inner {W}.
Arguments negotiate_loop {W}.
Arguments negotiate_and_send {W}.
Arguments on_query_version {W}.
Arguments on_get_articles {W}.
Arguments on_start_order_named {W}.
Arguments world {W}.
Arguments edRaw {W}.
Arguments edAgent {W}.
Arguments edIface {W}.
Arguments edDB {W}.
Arguments edNS {W}.
Arguments listArticles {W}.
Arguments current_fields {W}.
Arguments sent {W}.

(** The logical request types of the tool. *)
Inductive RequestType : Type :=
| QueryVersion | GetArticleList | GetArticleFields
| CreateOrder | ImportOrder | StartOrder.

(** The candidate list each handler gives to [negotiate_and_send].
    [on_get_fields] sends its request, fixed at version 1.0, through
    [self.send_req] and never calls the negotiator. *)
Definition candidates_of (r : RequestType) : option (list string) :=
  match r with
  | QueryVersion => Some query_version_candidates
  | GetArticleList => Some get_articles_candidates
  | GetArticleFields => None
  | CreateOrder => Some create_order_candidates
  | ImportOrder => Some import_order_candidates
  | StartOrder => Some start_order_candidates
  end.


(* ===================================================================== *)
(** * Part I, continued: the rest of the order builder and the client     *)
(* ===================================================================== *)

(** ** build_sns_block_if_checked *)

Section SnsBlockIfChecked.
(** [zlib.compress] at its default level. *)
Variable zlib_compress : list ascii -> list ascii.

Definition build_sns_block_if_checked (chkIncludeSN : bool) (levels : list Z)
    : string :=
  if negb chkIncludeSN then ""
  else
    let target_level := default 0 (List.find (fun lvl => 0 <? lvl) levels) in
    let '(b64, uncl) := build_sns_payload_for_level zlib_compress target_level in
    "<sns compression=" +:+ String "034" "DEFLATE" +:+ String "034" ""
    +:+ " uncompressed-length=" +:+ String "034" (Py.str uncl)
    +:+ String "034" ">" +:+ b64 +:+ "</sns>".
End SnsBlockIfChecked.

(** ** populate_fields_tree *)

(** [f.get(key, dflt)] *)
Definition row_get (key : string) (dflt : Value) (f : Row) : Value :=
  default dflt (f !! key).

(** [int(v)] *)
Definition value_int (v : Value) : Res Z :=
  match v with
  | VInt n => Ok n
  | VBool b => Ok (Z.b2z b)
  | VStr s => Py.int s
  | VNone => Raise TypeError
  | VConstraints _ => Raise TypeError
  end.

(** The text a Qt setter receives: a [str], or [None] for the null text;
    any other value is refused. *)
Definition qt_text (v : Value) : Res string :=
  match v with
  | VStr s => Ok s
  | VNone => Ok ""
  | _ => Raise TypeError
  end.

(** [f.get("writable") and not f.get("preset")] *)
Definition is_required (f : Row) : bool :=
  value_truthy (row_get "writable" VNone f)
  && negb (value_truthy (row_get "preset" VNone f)).

(** [by_level.setdefault(int(f.get("level", 0)), []).append(f)] *)
Definition group_step (by_level : gmap Z (list Row)) (f : Row)
    : Res (gmap Z (list Row)) :=
  let? lvl := value_int (row_get "level" (VInt 0) f) in
  Ok (<[lvl := default [] (by_level !! lvl) ++ [f]]> by_level).

(** The child row made for the field [f] of level [lvl]: the row as it
    stands when the body of the loop is left, normally or by an exception. *)
Definition make_child (lvl : Z) (f : Row) : Res unit * ChildItem :=
  let it0 := MkChildItem (Py.str lvl) "" "" "" None in
  match qt_text (row_get "name" (VStr "") f) with
  | Raise e => (Raise e, it0)
  | Ok name =>
      let it1 := MkChildItem (Py.str lvl) name "" "" None in
      match qt_text (row_get "display" (VStr "") f) with
      | Raise e => (Raise e, it1)
      | Ok display =>
          let w := value_truthy (row_get "writable" (VBool false) f) in
          let it3 := MkChildItem (Py.str lvl) name display
                       (if w then "yes" else "no") None in
          if w then
            match editor_for_field f with
            | Ok editor =>
                (Ok tt, MkChildItem (Py.str lvl) name display "yes" (Some editor))
            | Raise e => (Raise e, it3)
            end
          else
            match qt_text (row_get "preset" (VStr "") f) with
            | Ok _ => (Ok tt, it3)
            | Raise e => (Raise e, it3)
            end
      end
  end.

(** [for f in by_level[lvl]]: the children of one top-level row. *)
Fixpoint add_children (lvl : Z) (fs : list Row) (kids : list ChildItem)
    : Res unit * list ChildItem :=
  match fs with
  | [] => (Ok tt, kids)
  | f :: fs' =>
      let '(r, it) := make_child lvl f in
      match r with
      | Ok _ => add_children lvl fs' (kids ++ [it])
      | Raise e => (Raise e, kids ++ [it])
      end
  end.

(** [for lvl in sorted(by_level.keys())]: the top-level rows. *)
Fixpoint add_levels (by_level : gmap Z (list Row)) (lvls : list Z)
    (tree : list TopItem) : Res unit * list TopItem :=
  match lvls with
  | [] => (Ok tt, tree)
  | lvl :: rest =>
      let '(r, kids) := add_children lvl (default [] (by_level !! lvl)) [] in
      let tree' := tree ++ [MkTopItem (Py.str lvl) kids] in
      match r with
      | Ok _ => add_levels by_level rest tree'
      | Raise e => (Raise e, tree')
      end
  end.

(** [populate_fields_tree]: the outcome and the rows of [fieldsView] when
    the method is left. *)
Definition populate_fields_tree (chkRequiredOnly : bool) (fields : list Row)
    : Res unit * list TopItem :=
  let fields :=
    if chkRequiredOnly then filter (fun f => is_required f) fields else fields in
  match foldM group_step ∅ fields with
  | Raise e => (Raise e, [])
  | Ok by_level => add_levels by_level (sorted_levels (dom by_level)) []
  end.

(** ** The order handlers *)

(** [s.replace(old, new)] for a non-empty [old]; [skip] counts the
    characters of a replaced occurrence still to pass over. *)
Fixpoint replace_from (skip : nat) (old new s : string) : string :=
  match s with
  | EmptyString => EmptyString
  | String c s' =>
      match skip with
      | S k => replace_from k old new s'
      | O =>
          if Py.startswith old s
          then new +:+ replace_from (String.length old - 1) old new s'
          else String c (replace_from 0 old new s')
      end
  end.

Definition str_replace (old new s : string) : string := replace_from 0 old new s.

(** The widgets and attributes of the order builder. *)
Record OrderUI : Type := MkOrderUI {
  edOrderName : string;
  current_article : option string;
  last_created_order : option string;
  fieldsView : list TopItem;
  chkIncludeSN : bool;
  edXML : string
}.

Definition set_last_created_order (o : option string) (ui : OrderUI) : OrderUI :=
  MkOrderUI (edOrderName ui) (current_article ui) o (fieldsView ui)
            (chkIncludeSN ui) (edXML ui).

(** [self.current_article] when it is set and not empty. *)
Definition article_or_none (ui : OrderUI) : option string :=
  match current_article ui with
  | Some art => if Py.truthy art then Some art else None
  | None => None
  end.

(** The success marker of the order requests. *)
Definition ok_marker : string := "<return-value>ok</return-value>".

Section OrderHandlers.
Variable W : Type.
Variable clock : W -> string * W.
Variable exchange : string -> W -> Res string * W.
Variable fromstring : string -> Res Element.
Variable zlib_compress : list ascii -> list ascii.

Definition import_order_builder (order_name current_article order_data_xml
    sns_xml v : string) : string :=
  let indented :=
    str_replace "</order-data>" "    </order-data>"
      (str_replace "<order-data>" "    <order-data>" order_data_xml) in
  request_tag "import-order-request" v ">" +:+ nl
  +:+ "  <order version=" +:+ String "034" "2.0" +:+ String "034" ">" +:+ nl
  +:+ "    <name>" +:+ xml_escape order_name +:+ "</name>" +:+ nl
  +:+ "    <article-name>" +:+ xml_escape current_article +:+ "</article-name>"
  +:+ nl
  +:+ indented +:+ nl
  +:+ "    " +:+ sns_xml +:+ nl
  +:+ "  </order>" +:+ nl
  +:+ "</request>".

(** The common body of [on_send_create_order] and [on_send_import_order]:
    they differ in the request type, the builder and the log line. *)
Definition send_order (xsi_type : string) (candidates : list string)
    (builder : string -> string -> string -> string -> string -> string)
    (failure_line : string) (ui : OrderUI) : M W OrderUI :=
  match article_or_none ui with
  | None => ret ui
  | Some art =>
      let order_name := Py.or_else (Py.strip (edOrderName ui)) "TestOrder001" in
      let '(order_data_xml, levels) :=
        build_order_data_xml_from_tree (fieldsView ui) in
      let sns_xml :=
        build_sns_block_if_checked zlib_compress (chkIncludeSN ui) levels in
      try_except
        (bind (negotiate_and_send clock exchange fromstring xsi_type
                 candidates
                 (builder order_name art order_data_xml sns_xml))
              (fun resp =>
                 ret (set_last_created_order
                        (if Py.contains ok_marker resp then Some order_name
                         else None) ui)))
        (fun _ => bind (append_raw failure_line) (fun _ => ret ui))
  end.

Definition on_send_create_order : OrderUI -> M W OrderUI :=
  send_order "create-order-request" create_order_candidates
    create_order_builder "# Create order failed: ".

Definition on_send_import_order : OrderUI -> M W OrderUI :=
  send_order "import-order-request" import_order_candidates
    import_order_builder "# Import order failed: ".

(** [self.edOrderName.text().strip() or self.last_created_order or ""] *)
Definition start_order_name (ui : OrderUI) : string :=
  let typed := Py.strip (edOrderName ui) in
  if Py.truthy typed then typed
  else match last_created_order ui with
       | Some remembered => Py.or_else remembered ""
       | None => ""
       end.

Definition on_start_order (ui : OrderUI) : M W unit :=
  let order_name := start_order_name ui in
  if negb (Py.truthy order_name) then ret tt
  else on_start_order_named clock exchange fromstring order_name.

Definition on_send_manual (ui : OrderUI) : M W unit :=
  let inner := Py.strip (edXML ui) in
  if negb (Py.startswith "<request" inner) then ret tt
  else
    try_except
      (bind (send_inner clock exchange fromstring inner) (fun _ => ret tt))
      (fun _ => append_raw "# Manual send failed: ").
End OrderHandlers.

Arguments send_order {W}.
Arguments on_send_create_order {W}.
Arguments on_send_import_order {W}.
Arguments on_start_order {W}.
Arguments on_send_manual {W}.

(** ** TQSClient.send_and_recv: the receive loop *)

(** What one call of [sock.recv] gives: bytes (none when the peer has
    closed), a timeout, or another socket error. *)
Inductive RecvEvent : Type :=
| Received (b : string)
| TimedOut
| Failed (e : Exn).

(** The [while True] loop over a socket that will deliver [events] and
    then time out; [acc] is [b"".join(chunks)].  The result is the bytes
    gathered and what the socket has still to deliver. *)
Fixpoint recv_loop (events : list RecvEvent) (acc : string)
    : Res string * list RecvEvent :=
  match events with
  | [] => (Ok acc, [])
  | TimedOut :: rest => (Ok acc, rest)
  | Failed e :: rest => (Raise e, rest)
  | Received b :: rest =>
      if negb (Py.truthy b) then (Ok acc, rest)
      else if Py.contains "</tnt>" (acc +:+ b) then (Ok (acc +:+ b), rest)
      else recv_loop rest (acc +:+ b)
  end.
(* ===================================================================== *)
(** * Part II: vocabulary of the specification                            *)
(* ===================================================================== *)

(** ** Escaped text *)

(** The replacement of one character by the escaping of the envelope. *)
Definition escape_char (c : ascii) : string :=
  if Ascii.eqb c "&" then "&amp;"
  else if Ascii.eqb c "<" then "&lt;"
  else if Ascii.eqb c ">" then "&gt;"
  else if Ascii.eqb c "034" then "&quot;"
  else if Ascii.eqb c "'" then "&apos;"
  else String c "".

Fixpoint escape_chars (s : string) : string :=
  match s with
  | EmptyString => EmptyString
  | String c s' => escape_char c +:+ escape_chars s'
  end.

(** A text is well escaped when it has no [<], [>], double or single quote,
    and each [&] opens one of the five entity references. *)
Fixpoint well_escaped (s : string) : bool :=
  match s with
  | EmptyString => true
  | String c s' =>
      (if Ascii.eqb c "&" then
         Py.startswith "amp;" s' || Py.startswith "lt;" s'
         || Py.startswith "gt;" s' || Py.startswith "quot;" s'
         || Py.startswith "apos;" s'
       else negb (Ascii.eqb c "<" || Ascii.eqb c ">" || Ascii.eqb c "034"
                  || Ascii.eqb c "'"))
      && well_escaped s'
  end.


(** The double quote as a text. *)
Definition dq : string := String "034" "".

(** No occurrence of the character [c] in [s]. *)
Definition lacks (c : ascii) (s : string) : bool :=
  Py.forallb_str (fun a => negb (Ascii.eqb a c)) s.

(** ** Protocol versions *)

(** A version ["M.N"] as the pair of its numbers. *)
Definition version_key (v : string) : option (Z * Z) :=
  match Py.split_once "." v with
  | (major, Some minor) =>
      match Py.int major, Py.int minor with
      | Ok a, Ok b => Some (a, b)
      | _, _ => None
      end
  | (_, None) => None
  end.

(** [a] is a strictly lower protocol version than [b]. *)
Definition version_ltb (a b : string) : bool :=
  match version_key a, version_key b with
  | Some (a1, a2), Some (b1, b2) => (a1 <? b1) || ((a1 =? b1) && (a2 <? b2))
  | _, _ => false
  end.

(** Highest version first: each candidate is strictly higher than the next. *)
Fixpoint highest_first (l : list string) : bool :=
  match l with
  | a :: (b :: _) as rest => version_ltb b a && highest_first rest
  | _ => true
  end.

(** Lowest version first. *)
Fixpoint lowest_first (l : list string) : bool :=
  match l with
  | a :: (b :: _) as rest => version_ltb a b && lowest_first rest
  | _ => true
  end.

(** ** Constraint elements, as the specification describes them *)

(** The stripped text of the first direct child of [e] whose local tag is
    [name]. *)
Definition child_text (name : string) (e : Element) : option string :=
  match find_first (local_is name) (el_children e) with
  | Ok (Some ch) => Some (Py.strip (text_or_empty ch))
  | _ => None
  end.

(** Following the specification (section 4.5), not the source: a
    constraint element carries a [type] code and a [value]. *)
Definition spec_constraint_of (e : Element) : option Constraint :=
  match child_text "type" e, child_text "value" e with
  | Some ty, Some v =>
      match Py.int ty with
      | Ok k => Some (MkConstraint (Some k) (Some v))
      | Raise _ => None
      end
  | _, _ => None
  end.

(** Following the specification (section 4.5), not the source: the
    constraint list of a field holds the constraint elements of the
    field's subtree, in document order. *)
Definition spec_constraints (field : Element) : list Constraint :=
  omap spec_constraint_of (iter field).

(** The keys of the records built by [parse_article_fields]. *)
Definition row_keys : gset string :=
  {["level"; "name"; "display"; "writable"; "preset"]}.

(** ** Sample documents *)

Definition leaf (tag text : string) : Element := Elem tag ∅ (Some text) [].
Definition node (tag : string) (children : list Element) : Element :=
  Elem tag ∅ None children.

(** A field that declares a regular-expression constraint. *)
Definition gtin_field : Element :=
  node "field"
    [ leaf "name" "gtin"; leaf "display-name" "GTIN";
      node "constraint" [leaf "type" "27"; leaf "value" "[0-9]+"] ].

Definition gtin_response : Element :=
  node "tnt" [ node "response" [ gtin_field ] ].

(** A parser whose result is the tree [doc]: [ET.fromstring] at a text
    that denotes [doc]. *)
Definition parser_of (doc : Element) (xml_text : string) : Res Element := Ok doc.

(** A parser that rejects its input, as [ET.fromstring] does for a text
    that is not well-formed XML. *)
Definition rejecting_parser (xml_text : string) : Res Element := Raise ParseError.

(** ** Effects of a computation of the tool *)

(** [keeps f m]: running [m] leaves the component [f] of the tool as it
    was, whether [m] returns or raises. *)
Definition keeps {W A B} (f : Tool W → B) (m : M W A) : Prop :=
  ∀ t r t', m t = (r, t') → f t' = f t.

(** ** Sample servers *)

(** A clock that stands still. *)
Definition fixed_clock (w : nat) : string * nat := ("2024-05-01T12:00:00+02:00", w).

Definition version_error_reply (v : string) : string :=
  "<tnt><response><version-error><concerning>" +:+ v
  +:+ "</concerning></version-error></response></tnt>".

Definition accepted_reply : string :=
  "<tnt><response><article><name>Widget-A</name></article></response></tnt>".

(** A server that accepts the get-article-list request of version 1.1 and
    answers every other request with a version-error naming 1.1.  Its
    state counts the requests received. *)
Definition server_wanting_1_1 (env : string) (w : nat) : Res string * nat :=
  (Ok (if Py.contains (get_articles_builder "1.1" +:+ "</tnt>") env
       then accepted_reply else version_error_reply "1.1"), S w).

(** A server that answers every request with a version-error naming 1.1. *)
Definition server_rejecting_all (env : string) (w : nat) : Res string * nat :=
  (Ok (version_error_reply "1.1"), S w).

(** The tool as it starts. *)
Definition tool0 : Tool nat :=
  MkTool 0%nat [] "MW" "1.15" "" "http://www.wipotec.com" [] [] [].

(** ** The serial-number document *)

(** The ten entries of the serial-number block, 01 to 10. *)
Definition ten_entries : string :=
  "<sn><no>01</no></sn><sn><no>02</no></sn><sn><no>03</no></sn>"
  +:+ "<sn><no>04</no></sn><sn><no>05</no></sn><sn><no>06</no></sn>"
  +:+ "<sn><no>07</no></sn><sn><no>08</no></sn><sn><no>09</no></sn>"
  +:+ "<sn><no>10</no></sn>".

(** A compressor that stores its input as it is, and its inverse. *)
Definition store_compress (b : list ascii) : list ascii := b.
Definition store_decompress (b : list ascii) : option (list ascii) := Some b.

(** ** The field catalog shown in [fieldsView] *)

(** The level of a top-level row, when its first column is an integer. *)
Definition top_level (parent : TopItem) : option Z :=
  match Py.int (ti_level parent) with
  | Ok lvl => Some lvl
  | Raise _ => None
  end.

(** The levels present in the catalog, as listed. *)
Definition catalog_levels (tree : list TopItem) : list Z := omap top_level tree.

(** The (name, value) pair of a child row that is writable and filled. *)
Definition item_pair (it : ChildItem) : option (string * string) :=
  if Py.startswith "y" (Py.lower (ci_writable it))
     && negb (String.eqb (entered_value it) "")
  then Some (ci_name it, entered_value it)
  else None.

(** The filled pairs of level [lvl], in the order of the catalog. *)
Definition filled_at (tree : list TopItem) (lvl : Z) : list (string * string) :=
  concat ((fun parent =>
             if bool_decide (top_level parent = Some lvl)
             then omap item_pair (ti_children parent) else []) <$> tree).

(** The block of one aggregation level holding [pairs]. *)
Definition level_block (pairs : list (string * string)) (lvl : Z) : list string :=
  [ "  <aggregation-level>";
    "    <id>" +:+ Py.str lvl +:+ "</id>";
    "    <data-field-values>" ]
  ++ concat ((fun nv =>
                [ "      <element>";
                  "        <name>" +:+ xml_escape nv.1 +:+ "</name>";
                  "        <value>" +:+ xml_escape nv.2 +:+ "</value>";
                  "      </element>" ]) <$> pairs)
  ++ [ "    </data-field-values>"; "  </aggregation-level>" ].

(** A catalog with levels 2 and 1, a filled field only at level 1. *)
Definition sample_catalog : list TopItem :=
  [ MkTopItem "2"
      [ MkChildItem "2" "batch" "Batch" "yes" (Some (MkLineEdit NoValidator "value" "")) ];
    MkTopItem "1"
      [ MkChildItem "1" "qty" "Quantity" "yes" (Some (MkLineEdit NoValidator "value" " 7 "));
        MkChildItem "1" "color" "Color" "no" None ] ].

(** ** Positions in a tree and enclosing markers *)

(** The elements below the children [cs] of the element at [p], the first
    child having index [i]: the tail of [iter_at]. *)
Fixpoint iter_children (p : Path) (i : nat) (cs : list Element)
    : list (Path * Element) :=
  match cs with
  | [] => []
  | c :: cs' => iter_at (p ++ [i]) c ++ iter_children p (S i) cs'
  end.

(** The element reached from [e] along the child indices [p]. *)
Fixpoint node_at (e : Element) (p : Path) : option Element :=
  match p with
  | [] => Some e
  | i :: p' =>
      match el_children e !! i with
      | Some c => node_at c p'
      | None => None
      end
  end.

(** The level id an element declares when it is an aggregation-level
    marker. *)
Definition marker_level (e : Element) : option Z :=
  match local_is "aggregation-level" e with
  | Ok true =>
      match level_id (el_children e) with
      | Ok lvl => Some lvl
      | Raise _ => None
      end
  | _ => None
  end.

(** The level id of the nearest aggregation-level marker enclosing the
    element at position [p] of [e]: the deepest marker on the way from [e]
    down to that element, the element itself included. *)
Fixpoint nearest_level (e : Element) (p : Path) : option Z :=
  match p with
  | [] => marker_level e
  | i :: p' =>
      match el_children e !! i with
      | Some c =>
          match nearest_level c p' with
          | Some lvl => Some lvl
          | None => marker_level e
          end
      | None => None
      end
  end.

(** ** Fields and articles, read off the tree *)

(** The local tag of [ch] is [name]. *)
Definition has_local (name : string) (ch : Element) : bool :=
  match strip_ns (el_tag ch) with
  | Ok t => String.eqb t name
  | Raise _ => false
  end.

(** Every tag of the tree has a local part, as every tag made by the XML
    parser has. *)
Definition tag_ok (e : Element) : bool :=
  match strip_ns (el_tag e) with
  | Ok _ => true
  | Raise _ => false
  end.

Definition tree_tags_ok (e : Element) : bool := forallb tag_ok (iter e).

(** The stripped text of the last element of [cs] that satisfies [p]. *)
Fixpoint last_text (p : Element → bool) (cs : list Element) : option string :=
  match cs with
  | [] => None
  | c :: cs' =>
      match last_text p cs' with
      | Some t => Some t
      | None => if p c then Some (Py.strip (text_or_empty c)) else None
      end
  end.

Definition is_preset_tag (ch : Element) : bool :=
  has_local "value-set-by-article" ch || has_local "preset" ch
  || has_local "default-value" ch.

(** The record of the element at [pn.1], decided by the presence of direct
    children with the local tags [name] and [display-name] alone. *)
Definition field_of (level_map : gmap Path Z) (pn : Path * Element) : option Row :=
  let cs := el_children pn.2 in
  match last_text (has_local "name") cs,
        last_text (has_local "display-name") cs with
  | Some n, Some dn =>
      Some (<["level" := VInt (default 1 (level_map !! pn.1))]>
            (<["name" := VStr n]>
             (<["display" := VStr dn]>
              (<["writable" :=
                   VBool (writable_flag (last_text (has_local "writable") cs))]>
               (<["preset" := VOptStr (last_text is_preset_tag cs)]> ∅)))))
  | _, _ => None
  end.

(** The name collected for an element: it is an [article] whose first
    [name] child has a text that is not blank. *)
Definition article_name_of (el : Element) : option string :=
  if has_local "article" el then
    match List.find (has_local "name") (el_children el) with
    | Some nm =>
        if Py.truthy (Py.strip (text_or_empty nm))
        then Some (Py.strip (text_or_empty nm)) else None
    | None => None
    end
  else None.

(** A response whose only field has an empty [name] and a [display-name]
    without text, next to an article whose [name] is blank. *)
Definition blank_response : Element :=
  node "tnt"
    [ node "response"
        [ node "field" [ leaf "name" ""; node "display-name" [] ];
          node "article" [ leaf "name" "  " ] ] ].

(** A level-2 marker inside a level-1 marker, a field in each, and a field
    outside both. *)
Definition nested_levels : Element :=
  node "response"
    [ node "aggregation-level"
        [ leaf "id" "1";
          node "field" [ leaf "name" "outer"; leaf "display-name" "Outer" ];
          node "aggregation-level"
            [ leaf "id" "2";
              node "field" [ leaf "name" "inner"; leaf "display-name" "Inner" ] ] ];
      node "field" [ leaf "name" "free"; leaf "display-name" "Free" ] ].

Definition nested_response : Element := node "tnt" [ nested_levels ].

(** A server that answers every request with a version-error naming 1.5, a
    version outside the candidate list. *)
Definition server_naming_1_5 (env : string) (w : nat) : Res string * nat :=
  (Ok (version_error_reply "1.5"), S w).

(* ===================================================================== *)
(** * Vocabulary for further properties                                   *)
(* ===================================================================== *)

(** ** Runs of the negotiator *)

(** The protocol context and the article list of the tool. *)
Definition protocol_context {W} (t : Tool W)
    : string * string * string * string * list string :=
  (edAgent t, edIface t, edDB t, edNS t, listArticles t).

(** The log line written before a request is sent. *)
Definition sent_line (ts env : string) : string :=
  ">>> SENT @ " +:+ ts +:+ nl +:+ env +:+ nl.

(** The log line written for a response received. *)
Definition recv_line (ts resp : string) : string :=
  "<<< RECV @ " +:+ ts +:+ nl +:+ resp +:+ nl.

(** [current_fields] after the slot [on_received] has seen [resp]. *)
Definition fields_after {W} (fromstring : string → Res Element)
    (resp : string) (t : Tool W) : list Row :=
  if Py.contains "<article>" resp
     && (Py.contains "get-article-list-response" resp || Py.contains "get-" resp)
  then current_fields t
  else match parse_article_fields fromstring resp with
       | [] => current_fields t
       | fields => fields
       end.

(** A response that cannot trigger a forced retry when [first] is among
    the versions tried: it names no version, a blank one, or [first]. *)
Definition no_new_version (first resp : string) : bool :=
  match Re.search_concerning resp with
  | None => true
  | Some g => String.eqb (Py.strip g) "" || String.eqb (Py.strip g) first
  end.

(** A server that answers every request with a version-error that names
    no version. *)
Definition server_plain_error (env : string) (w : nat) : Res string * nat :=
  (Ok "<tnt><response><version-error/></response></tnt>", S w).

(** A connection that fails on every exchange. *)
Definition server_down (env : string) (w : nat) : Res string * nat :=
  (Raise OSError, w).

(** ** Decimal texts *)

(** The number a sequence of decimal digits denotes after the digits that
    gave [acc], most significant digit first. *)
Fixpoint digits_value (acc : Z) (d : Decimal.uint) : Z :=
  match d with
  | Decimal.Nil => acc
  | Decimal.D0 l => digits_value (10 * acc + 0) l
  | Decimal.D1 l => digits_value (10 * acc + 1) l
  | Decimal.D2 l => digits_value (10 * acc + 2) l
  | Decimal.D3 l => digits_value (10 * acc + 3) l
  | Decimal.D4 l => digits_value (10 * acc + 4) l
  | Decimal.D5 l => digits_value (10 * acc + 5) l
  | Decimal.D6 l => digits_value (10 * acc + 6) l
  | Decimal.D7 l => digits_value (10 * acc + 7) l
  | Decimal.D8 l => digits_value (10 * acc + 8) l
  | Decimal.D9 l => digits_value (10 * acc + 9) l
  end.

(** ** Constraint lists *)

(** The text of an interval constraint for the bounds [lo] and [hi]. *)
Definition interval_text (lo hi : Z) : string :=
  "(" +:+ Py.str lo +:+ " " +:+ Py.str hi +:+ ")".

(** A C [int]. *)
Definition in_c_int (n : Z) : Prop := -2147483648 ≤ n ≤ 2147483647.

(** A field with a regular expression, an interval and a GS1 marker. *)
Definition mixed_constraints : list Constraint :=
  [ MkConstraint (Some 25) (Some "(0 9999)");
    MkConstraint (Some 27) (Some "");
    MkConstraint (Some 10) None;
    MkConstraint (Some 27) (Some "[A-Z]{3}");
    MkConstraint (Some 27) (Some "[0-9]+") ].

(** A malformed interval followed by a well-formed one. *)
Definition two_intervals : list Constraint :=
  [ MkConstraint (Some 25) (Some "0..9");
    MkConstraint (Some 25) (Some "(0 9)");
    MkConstraint (Some 10) (Some "") ].

(** ** Reading escaped text back *)

(** The text an escaped text stands for: each of the five entity
    references is read as its character.  [skip] counts the characters of
    a reference still to pass over. *)
Fixpoint unescape_from (skip : nat) (s : string) : string :=
  match s with
  | EmptyString => EmptyString
  | String c s' =>
      match skip with
      | S k => unescape_from k s'
      | O =>
          if Ascii.eqb c "&" then
            if Py.startswith "amp;" s' then String "&" (unescape_from 4 s')
            else if Py.startswith "lt;" s' then String "<" (unescape_from 3 s')
            else if Py.startswith "gt;" s' then String ">" (unescape_from 3 s')
            else if Py.startswith "quot;" s' then String "034" (unescape_from 5 s')
            else if Py.startswith "apos;" s' then String "'" (unescape_from 5 s')
            else String c (unescape_from 0 s')
          else String c (unescape_from 0 s')
      end
  end.

Definition xml_unescape (s : string) : string := unescape_from 0 s.

(** ** Documents with a level id that is a digit but no decimal *)

(** A marker whose id is the superscript two: [isdigit()] accepts it,
    [int()] does not. *)
Definition superscript_response : Element :=
  node "tnt"
    [ node "response"
        [ node "field" [ leaf "name" "qty"; leaf "display-name" "Quantity" ];
          node "aggregation-level" [ leaf "id" (String "178" "") ] ] ].

(** ** The serial-number element *)

(** The [sns] element around a payload and its uncompressed length. *)
Definition sns_element (payload : string * Z) : string :=
  "<sns compression=" +:+ dq +:+ "DEFLATE" +:+ dq
  +:+ " uncompressed-length=" +:+ dq +:+ Py.str payload.2 +:+ dq +:+ ">"
  +:+ payload.1 +:+ "</sns>".

(** ** Sample order forms *)

(** An order form with a typed name and a selected article. *)
Definition order_form : OrderUI :=
  MkOrderUI " Order-7 " (Some "Widget-A") (Some "Order-6") sample_catalog true
            " <request xsi:type='ping' /> ".

(** A server that accepts every request. *)
Definition server_ok (env : string) (w : nat) : Res string * nat :=
  (Ok ("<tnt><response>" +:+ ok_marker +:+ "</response></tnt>"), S w).

(** ** The tree shown for a list of field records *)

Definition level_of (f : Row) : Z :=
  match f !! "level" with Some (VInt lvl) => lvl | _ => 0 end.
Definition name_of (f : Row) : string :=
  match f !! "name" with Some (VStr s) => s | _ => "" end.
Definition display_of (f : Row) : string :=
  match f !! "display" with Some (VStr s) => s | _ => "" end.

(** The record has the shape of the records of [parse_article_fields]. *)
Definition parsed_row (f : Row) : Prop :=
  ∃ lvl n dn w p,
    f = <["level" := VInt lvl]>
          (<["name" := VStr n]>
           (<["display" := VStr dn]>
            (<["writable" := VBool w]>
             (<["preset" := VOptStr p]> ∅)))).

(** The editor of a field without constraints. *)
Definition plain_editor : LineEdit := MkLineEdit NoValidator "value" "".

(** The child row of a required field: writable, with an empty editor. *)
Definition required_child (lvl : Z) (f : Row) : ChildItem :=
  MkChildItem (Py.str lvl) (name_of f) (display_of f) "yes" (Some plain_editor).

(** The top-level row of level [lvl] for the required fields [req]. *)
Definition required_top (req : list Row) (lvl : Z) : TopItem :=
  MkTopItem (Py.str lvl)
    (required_child lvl <$> filter (fun f => level_of f = lvl) req).

(** The levels of the fields [req], each once, ascending. *)
Definition levels_of (req : list Row) : list Z :=
  sorted_levels (list_to_set (level_of <$> req)).

(** ** Stripped texts *)

(** The text has no whitespace at either end. *)
Definition stripped (s : string) : Prop := Py.strip s = s.

(** Every text kept by the scan of the direct children is stripped. *)
Definition direct_stripped (d : Direct) : Prop :=
  from_option stripped True (name_text d)
  ∧ from_option stripped True (disp_text d)
  ∧ from_option stripped True (writable d)
  ∧ from_option stripped True (preset d).

(** ** Adopting the values of a response *)

(** The text of a field of the form after a value of the response was
    offered to it: the value when it is not empty, the old text when it
    is. *)
Definition adopt (new old : string) : string :=
  if Py.truthy new then new else old.


(** ** The outcome of an order handler *)

(** What a handler that sends an order leaves behind, given the run [neg]
    of its negotiation from the tool [t]: the handler returns, the
    protocol context is the one of [t], the first request sent is
    [request] and at most seven follow, and the remembered name is
    [order_name] or nothing according to the ok marker of the response,
    or untouched, with [failure_line] logged, when the negotiation
    raised. *)
Definition order_outcome {W} (run : Res OrderUI * Tool W)
    (neg : Res string * Tool W) (request order_name failure_line : string)
    (ui : OrderUI) (t : Tool W) : Prop :=
  ∃ ui' t' more,
    run = (Ok ui', t')
    ∧ protocol_context t' = protocol_context t
    ∧ sent t' = sent t ++ request :: more
    ∧ (length more ≤ 7)%nat
    ∧ match neg.1 with
      | Ok resp =>
          t' = neg.2
          ∧ ui' = set_last_created_order
                    (if Py.contains ok_marker resp then Some order_name
                     else None) ui
      | Raise _ => ui' = ui ∧ edRaw t' = edRaw neg.2 ++ [failure_line]
      end.

(* ===================================================================== *)
(** * Part III: properties                                                *)
(* ===================================================================== *)

(** ** Strings *)

Lemma app_cons_str (x : ascii) (a b : string) :
  String x a +:+ b = String x (a +:+ b).
Proof. reflexivity. Qed.

Lemma app_nil_l_str (s : string) : "" +:+ s = s.
Proof. reflexivity. Qed.

Lemma app_nil_r_str (s : string) : s +:+ "" = s.
Proof. induction s as [|c s IH]; [done | by rewrite app_cons_str, IH]. Qed.

Lemma app_assoc_str (a b c : string) : (a +:+ b) +:+ c = a +:+ (b +:+ c).
Proof.
  induction a as [|x a IH]; [done | by rewrite !app_cons_str, IH].
Qed.

Lemma eqb_ascii_refl (c : ascii) : Ascii.eqb c c = true.
Proof. apply Ascii.eqb_refl. Qed.

(** ** xml_escape *)

(** The five replacements in sequence amount to escaping character by
    character: the [&] written by a later step is never escaped again. *)
Lemma xml_escape_charwise (s : string) : xml_escape s = escape_chars s.
Proof.
  destruct s as [|c0 s0]; [done|].
  unfold xml_escape. cbn [Py.truthy negb].
  generalize (String c0 s0). clear c0 s0.
  induction s as [|c s IH]; [done|].
  cbn [escape_chars]. rewrite <- IH. clear IH.
  destruct c as [[] [] [] [] [] [] [] []]; reflexivity.
Qed.

Lemma well_escaped_escape_chars (s : string) : well_escaped (escape_chars s) = true.
Proof.
  induction s as [|c s IH]; [done|].
  cbn [escape_chars].
  destruct c as [[] [] [] [] [] [] [] []]; cbn; exact IH.
Qed.

Lemma xml_escape_well_escaped (s : string) : well_escaped (xml_escape s) = true.
Proof. rewrite xml_escape_charwise. apply well_escaped_escape_chars. Qed.

Lemma well_escaped_lacks (c : ascii) (s : string) :
  c = "<"%char ∨ c = ">"%char ∨ c = "034"%char ∨ c = "'"%char →
  well_escaped s = true → lacks c s = true.
Proof.
  intros Hc. induction s as [|a s IH]; [done|].
  cbn [well_escaped lacks Py.forallb_str].
  intros [Ha Hs]%andb_prop. fold (lacks c s). rewrite (IH Hs), andb_true_r.
  destruct (Ascii.eqb_spec a c) as [-> | ?]; [|done].
  destruct Hc as [-> | [-> | [-> | ->]]]; done.
Qed.

(** A text without [c] followed by [c] is cut exactly at that [c]. *)
Lemma split_once_lacks (c : ascii) (s rest : string) :
  lacks c s = true →
  Py.split_once c (s +:+ String c rest) = (s, Some rest).
Proof.
  induction s as [|a s IH]; cbn [lacks Py.forallb_str].
  - intros _. rewrite app_nil_l_str. cbn [Py.split_once].
    by rewrite eqb_ascii_refl.
  - intros [Ha Hs]%andb_prop. rewrite app_cons_str. cbn [Py.split_once].
    destruct (Ascii.eqb a c); [done|]. by rewrite (IH Hs).
Qed.

Lemma span_lacks (c : ascii) (s rest : string) :
  lacks c s = true →
  Re.span (fun a => negb (Ascii.eqb a c)) (s +:+ String c rest)
  = (s, String c rest).
Proof.
  induction s as [|a s IH]; cbn [lacks Py.forallb_str].
  - intros _. rewrite app_nil_l_str. cbn [Re.span].
    by rewrite eqb_ascii_refl.
  - intros [Ha Hs]%andb_prop. rewrite app_cons_str. cbn [Re.span].
    rewrite Ha. by rewrite (IH Hs).
Qed.

(** ** The envelope *)

Section Envelope.
Context {W : Type} (clock : W → string * W).

(** C7. The envelope built by [build_tnt] is the fixed frame of the
    protocol around the escaped interface version, the escaped dbVersion
    (when set), the escaped namespace and the escaped agent, followed by
    the caller's inner request verbatim.  Escaping replaces every
    ampersand, angle bracket and quote of a value by its entity, so an escaped value holds no
    [<], no [>], no quote, and no [&] other than the start of an entity;
    an attribute value therefore ends exactly at the quote written by
    the builder and the agent text at the builder's closing tag. *)
Theorem build_tnt_escapes_context (t : Tool W) (inner_xml : string) :
  let ts := (clock (world t)).1 in
  let db_attr :=
    match db_ver t with
    | Some v => " dbVersion=" +:+ dq +:+ xml_escape v +:+ dq
    | None => ""
    end in
  build_tnt clock inner_xml t
  = (Ok ("<tnt version=" +:+ dq +:+ xml_escape (iface_ver t) +:+ dq
         +:+ db_attr
         +:+ " xmlns=" +:+ dq +:+ xml_escape (current_ns t) +:+ dq
         +:+ " xmlns:xsi=" +:+ dq
         +:+ "http://www.w3.org/2001/XMLSchema-instance" +:+ dq +:+ ">"
         +:+ "<header><agent>" +:+ xml_escape (agent t)
         +:+ "</agent><timestamp>" +:+ ts +:+ "</timestamp></header>"
         +:+ inner_xml
         +:+ "</tnt>"),
     set_world (clock (world t)).2 t)
  ∧ (∀ v : string,
       xml_escape v = escape_chars v
       ∧ well_escaped (xml_escape v) = true
       ∧ lacks "<" (xml_escape v) = true
       ∧ lacks "034" (xml_escape v) = true
       ∧ (∀ rest, Py.split_once "034" (xml_escape v +:+ dq +:+ rest)
                  = (xml_escape v, Some rest))
       ∧ (∀ rest, Re.span (fun a => negb (Ascii.eqb a "<"))
                    (xml_escape v +:+ "</agent>" +:+ rest)
                  = (xml_escape v, "</agent>" +:+ rest))).
Proof.
  split.
  - unfold build_tnt, iso_now, bind, gets, ret.
    destruct (clock (world t)) as [ts w]. cbn [fst snd].
    change (envelope (id (set_world w t)) ts inner_xml)
      with (envelope t ts inner_xml).
    unfold envelope. destruct (db_ver t) as [v|]; reflexivity.
  - intros v.
    pose proof (xml_escape_well_escaped v) as Hw.
    assert (lacks "<" (xml_escape v) = true) as Hlt
      by (apply well_escaped_lacks; auto).
    assert (lacks "034" (xml_escape v) = true) as Hq
      by (apply well_escaped_lacks; auto).
    repeat split; auto using xml_escape_charwise.
    + intros rest. by apply (split_once_lacks "034").
    + intros rest. by apply (span_lacks "<" _ ("/agent>" +:+ rest)).
Qed.
End Envelope.

(** ** Loops under [try] *)

Lemma collect_elem {A B} (step : A → Res (option B)) (l : list A) (b : B) :
  b ∈ collect step l → ∃ a, a ∈ l ∧ step a = Ok (Some b).
Proof.
  induction l as [|a l IH]; cbn [collect].
  - intros H. by apply elem_of_nil in H.
  - destruct (step a) as [[b'|]|e] eqn:Hs.
    + intros [-> | H]%elem_of_cons.
      * exists a. split; [apply elem_of_cons; by left | done].
      * destruct (IH H) as (a' & ? & ?). exists a'.
        split; [apply elem_of_cons; by right | done].
    + intros H. destruct (IH H) as (a' & ? & ?). exists a'.
      split; [apply elem_of_cons; by right | done].
    + intros H. by apply elem_of_nil in H.
Qed.

(** When no round raises, the loop keeps exactly the items its rounds
    produce, in order. *)
Lemma collect_total {A B} (step : A → Res (option B)) (f : A → option B)
    (l : list A) :
  (∀ a, a ∈ l → step a = Ok (f a)) → collect step l = omap f l.
Proof.
  induction l as [|a l IH]; [done|].
  intros H. cbn [collect].
  rewrite (H a) by (apply elem_of_cons; by left).
  cbn [omap list_omap]. rewrite IH.
  - by destruct (f a).
  - intros a' Ha'. apply H. apply elem_of_cons. by right.
Qed.

(** ** Candidate versions *)

(** C6, as stated, fails: [on_query_version] hands the negotiator its
    candidates lowest version first. *)
Lemma query_version_candidates_lowest_first :
  candidates_of QueryVersion = Some ["1.0"; "1.1"; "2.0"]
  ∧ highest_first ["1.0"; "1.1"; "2.0"] = false
  ∧ ¬ (∀ r, r ≠ GetArticleFields →
         ∃ cs, candidates_of r = Some cs ∧ highest_first cs = true).
Proof.
  split; [done|]. split; [by vm_compute|].
  intros H. destruct (H QueryVersion) as (cs & Hcs & Hhf); [done|].
  injection Hcs as <-. by vm_compute in Hhf.
Qed.

(** C6, amended.  The candidates handed to the negotiator for
    get-article-list, create-order, import-order and start-order run from
    the highest version, 2.0, strictly down to the oldest, 1.0; those for
    query-version are 1.0, 1.1, 2.0, lowest first. *)
Theorem candidates_order (r : RequestType) (cs : list string) :
  candidates_of r = Some cs →
  match r with
  | QueryVersion => cs = ["1.0"; "1.1"; "2.0"] ∧ lowest_first cs = true
  | _ => highest_first cs = true ∧ head cs = Some "2.0" ∧ last cs = Some "1.0"
  end.
Proof.
  destruct r; cbn [candidates_of]; intros [= <-]; by vm_compute.
Qed.

Lemma candidates_order_witness :
  highest_first ["2.0"; "1.2"; "1.1"; "1.0"] = true
  ∧ head ["2.0"; "1.2"; "1.1"; "1.0"] = Some "2.0"
  ∧ last ["2.0"; "1.2"; "1.1"; "1.0"] = Some "1.0".
Proof.
  apply (candidates_order CreateOrder ["2.0"; "1.2"; "1.1"; "1.0"]).
  reflexivity.
Defined.

(** ** Response metadata *)

Lemma or_else_empty (s : string) : Py.or_else s "" = s.
Proof. by destruct s. Qed.

(** C3, as stated, fails: a text the XML parser rejects makes
    [parse_tnt_meta] raise the parser's error to its caller. *)
Lemma parse_tnt_meta_raises_on_malformed :
  parse_tnt_meta rejecting_parser "<tnt" = Raise ParseError
  ∧ ¬ (∀ (fromstring : string → Res Element) (xml_text : string),
         ∃ r, parse_tnt_meta fromstring xml_text = Ok r).
Proof.
  split; [done|].
  intros H. by destruct (H rejecting_parser "<tnt") as [r Hr].
Qed.

Section Metadata.
Context {W : Type} (clock : W → string * W)
        (exchange : string → W → Res string * W)
        (fromstring : string → Res Element).

(** C3, amended.  [parse_tnt_meta] has no handler of its own: it raises
    to its caller exactly the error of the XML parser, and otherwise
    returns the namespace, the version and the dbVersion of the root,
    an absent attribute giving the empty text.  Its caller
    [on_query_version] catches the error: when the negotiated response
    cannot be parsed the handler returns normally and leaves the tool as
    negotiation left it. *)
Theorem parse_tnt_meta_raises_to_caller (xml_text : string) (t : Tool W) :
  match fromstring xml_text with
  | Raise e => parse_tnt_meta fromstring xml_text = Raise e
  | Ok root =>
      ∃ ns,
        parse_tnt_meta fromstring xml_text
        = Ok (ns, default "" (el_attrib root !! "version"),
              default "" (el_attrib root !! "dbVersion"), root)
        ∧ (Py.startswith "{" (el_tag root) = false →
           ns = Py.or_else (default "" (el_attrib root !! "xmlns"))
                           "http://www.wipotec.com")
  end
  ∧ match negotiate_and_send clock exchange fromstring "query-version-request"
            query_version_candidates query_version_builder t with
    | (Ok resp, t') =>
        match fromstring resp with
        | Raise _ => on_query_version clock exchange fromstring t = (Ok tt, t')
        | Ok _ => True
        end
    | (Raise e, t') =>
        on_query_version clock exchange fromstring t = (Raise e, t')
    end.
Proof.
  split.
  - unfold parse_tnt_meta. destruct (fromstring xml_text) as [root|e]; [|done].
    cbn [res_bind]. rewrite !or_else_empty. eexists. split; [reflexivity|].
    by intros ->.
  - unfold on_query_version, bind.
    destruct (negotiate_and_send _ _ _ _ _ _ t) as [[resp|e] t']; [|done].
    unfold parse_tnt_meta.
    by destruct (fromstring resp).
Qed.
End Metadata.

(** ** Field records and constraints *)

Lemma field_step_row (level_map : gmap Path Z) (pn : Path * Element) (row : Row) :
  field_step level_map pn = Ok (Some row) →
  ∃ n dn w p,
    row = <["level" := VInt (default 1 (level_map !! pn.1))]>
            (<["name" := VStr n]>
             (<["display" := VStr dn]>
              (<["writable" := VBool w]>
               (<["preset" := VOptStr p]> ∅)))).
Proof.
  unfold field_step.
  destruct (foldM scan_child no_direct (el_children pn.2)) as [d|e]; [|done].
  cbn [res_bind].
  destruct (name_text d) as [n|]; [|done].
  destruct (disp_text d) as [dn|]; [|done].
  intros [= <-]. by eexists _, _, _, _.
Qed.

Lemma fields_of_tree_row (root : Element) (row : Row) :
  row ∈ fields_of_tree root →
  ∃ level_map pn, field_step level_map pn = Ok (Some row).
Proof.
  unfold fields_of_tree.
  destruct (find_first _ _) as [[response|]|e];
    try (intros H; by apply elem_of_nil in H).
  destruct (build_level_map response) as [m|e];
    try (intros H; by apply elem_of_nil in H).
  intros (pn & _ & Hpn)%collect_elem. by exists m, pn.
Qed.


Lemma fields_of_tree_no_constraints (root : Element) (row : Row) :
  row ∈ fields_of_tree root →
  dom row = row_keys
  ∧ row !! "constraints" = None
  ∧ constraints_arg row = Ok []
  ∧ editor_for_field row = Ok (MkLineEdit NoValidator "value" "").
Proof.
  intros (m & pn & Hrow)%fields_of_tree_row.
  destruct (field_step_row _ _ _ Hrow) as (n & dn & w & p & ->).
  assert (Hnone : (<["level" := VInt (default 1 (m !! pn.1))]>
            (<["name" := VStr n]>
             (<["display" := VStr dn]>
              (<["writable" := VBool w]>
               (<["preset" := VOptStr p]> (∅ : Row)))))) !! "constraints" = None).
  { by rewrite !lookup_insert_ne, lookup_empty. }
  split.
  { rewrite !dom_insert_L, dom_empty_L. unfold row_keys. set_solver. }
  split; [done|].
  unfold editor_for_field, constraints_arg. by rewrite Hnone.
Qed.



(** ** Negotiation *)

Section Negotiation.
Context {W : Type} (clock : W → string * W)
        (exchange : string → W → Res string * W)
        (fromstring : string → Res Element).

Lemma keeps_ret {A B} (f : Tool W → B) (a : A) : keeps f (ret a).
Proof. by intros t r t' [= _ <-]. Qed.

Lemma keeps_bind {A B C} (f : Tool W → C) (m : M W A) (k : A → M W B) :
  keeps f m → (∀ a, keeps f (k a)) → keeps f (bind m k).
Proof.
  intros Hm Hk t r t'. unfold bind.
  destruct (m t) as [[a|e] t1] eqn:Hmt.
  - intros Hkt. rewrite (Hk a _ _ _ Hkt). by eapply Hm.
  - intros [= _ <-]. by eapply Hm.
Qed.

Lemma keeps_modify {B} (f : Tool W → B) (g : Tool W → Tool W) :
  (∀ t, f (g t) = f t) → keeps f (modify g).
Proof. intros Hg t r t' [= _ <-]. apply Hg. Qed.

Lemma keeps_sent_iso_now : keeps (W:=W) sent (iso_now clock).
Proof.
  intros t r t'. unfold iso_now. destruct (clock (world t)) as [ts w].
  by intros [= _ <-].
Qed.

Lemma keeps_sent_append_raw (text : string) : keeps (W:=W) sent (append_raw text).
Proof. by apply keeps_modify. Qed.

Lemma keeps_sent_on_received (xml_text : string) :
  keeps (W:=W) sent (on_received clock fromstring xml_text).
Proof.
  unfold on_received.
  apply keeps_bind; [apply keeps_sent_iso_now | intros ts].
  apply keeps_bind; [apply keeps_sent_append_raw | intros _].
  destruct (_ && _); [apply keeps_ret|].
  destruct (parse_article_fields fromstring xml_text);
    [apply keeps_ret | by apply keeps_modify].
Qed.

Lemma keeps_sent_send_and_recv (env : string) :
  keeps (W:=W) sent (send_and_recv clock exchange fromstring env).
Proof.
  unfold send_and_recv. apply keeps_bind.
  - intros t r t'. destruct (exchange env (world t)) as [r0 w].
    by intros [= _ <-].
  - intros text. apply keeps_bind; [apply keeps_sent_on_received|].
    intros _. apply keeps_ret.
Qed.

(** Every call of [send_inner] adds its request to the requests sent,
    whether the exchange succeeds or raises. *)
Lemma send_inner_sent (inner_xml : string) (t t' : Tool W) (r : Res string) :
  send_inner clock exchange fromstring inner_xml t = (r, t') →
  sent t' = sent t ++ [inner_xml].
Proof.
  unfold send_inner. unfold bind at 1, modify at 1. intros Hrun.
  change (sent t ++ [inner_xml])
    with (sent (set_sent (sent t ++ [inner_xml]) t)).
  revert Hrun. apply keeps_bind.
  { unfold build_tnt. apply keeps_bind; [apply keeps_sent_iso_now|].
    intros ts. apply keeps_bind; [by intros ? ? ? [= _ <-]|].
    intros t0. apply keeps_ret. }
  intros env. apply keeps_bind; [apply keeps_sent_iso_now | intros ts].
  apply keeps_bind; [apply keeps_sent_append_raw | intros _].
  apply keeps_bind; [apply keeps_sent_send_and_recv | intros resp].
  apply keeps_bind; [apply keeps_sent_iso_now | intros ts'].
  apply keeps_bind; [apply keeps_sent_append_raw | intros _].
  apply keeps_ret.
Qed.

End Negotiation.


(** C5: the code at the failing input.  Against a server that answers
    every request with a version-error naming 1.1, negotiation over the
    candidates 2.0, 1.1, 1.0 sends the 1.1 request twice: once as the
    retry forced by the first answer, and once more when the loop reaches
    the candidate 1.1, because the forced version was never added to
    [tried] and the loop does not consult [tried] for its candidates. *)
Lemma negotiate_sends_version_twice :
  ∃ t',
    negotiate_and_send fixed_clock server_rejecting_all rejecting_parser
      "get-article-list-request" get_articles_candidates get_articles_builder tool0
    = (Ok (version_error_reply "1.1"), t')
    ∧ sent t' = [ get_articles_builder "2.0"; get_articles_builder "1.1";
                  get_articles_builder "1.1"; get_articles_builder "1.0" ]
    ∧ ¬ NoDup (sent t').
Proof.
  eexists. split; [vm_compute; reflexivity|]. split; [reflexivity|].
  cbn [sent]. intros Hnd.
  apply NoDup_cons in Hnd as [_ Hnd]. apply NoDup_cons in Hnd as [Hnotin _].
  apply Hnotin. apply elem_of_cons. by left.
Qed.

(** ** The serial-number block *)

Lemma utf8_encode_cons (c : ascii) (s : string) :
  utf8_encode (String c s) = utf8_encode (String c "") ++ utf8_encode s.
Proof.
  cbn [utf8_encode]. destruct (Py.code c <? 128); by rewrite ?app_nil_r.
Qed.

Lemma utf8_decode_char (c : ascii) (bs : list ascii) :
  utf8_decode (utf8_encode (String c "") ++ bs) = String c <$> utf8_decode bs.
Proof. destruct c as [[] [] [] [] [] [] [] []]; reflexivity. Qed.

Lemma utf8_round_trip (s : string) : utf8_decode (utf8_encode s) = Some s.
Proof.
  induction s as [|c s IH]; [done|].
  by rewrite utf8_encode_cons, utf8_decode_char, IH.
Qed.

Lemma list_ind3 {A} (P : list A → Prop) :
  P [] → (∀ a, P [a]) → (∀ a b, P [a; b]) →
  (∀ a b c l, P l → P (a :: b :: c :: l)) → ∀ l, P l.
Proof.
  intros H0 H1 H2 H3. fix IH 1.
  intros [|a [|b [|c l]]]; [apply H0 | apply H1 | apply H2 | apply H3, IH].
Qed.

Lemma dec_char_enc_sextet (s : Base64.sextet) :
  Base64.dec_char (Base64.enc_sextet s) = Some s.
Proof. destruct s as [[] [] [] [] [] []]; reflexivity. Qed.

Lemma enc_sextet_not_pad (s : Base64.sextet) :
  Ascii.eqb (Base64.enc_sextet s) "=" = false.
Proof. destruct s as [[] [] [] [] [] []]; reflexivity. Qed.

Lemma b64_round_trip (b : list ascii) :
  Base64.b64decode (Base64.b64encode b) = Some b.
Proof.
  induction b as [| a | a c | a c d rest IH] using list_ind3.
  - reflexivity.
  - destruct a as [a0 a1 a2 a3 a4 a5 a6 a7].
    cbn [Base64.b64encode Base64.b64decode].
    by rewrite !dec_char_enc_sextet.
  - destruct a as [a0 a1 a2 a3 a4 a5 a6 a7].
    destruct c as [c0 c1 c2 c3 c4 c5 c6 c7].
    cbn [Base64.b64encode Base64.b64decode].
    by rewrite !dec_char_enc_sextet, enc_sextet_not_pad.
  - destruct a as [a0 a1 a2 a3 a4 a5 a6 a7].
    destruct c as [c0 c1 c2 c3 c4 c5 c6 c7].
    destruct d as [d0 d1 d2 d3 d4 d5 d6 d7].
    cbn [Base64.b64encode Base64.b64decode].
    by rewrite !dec_char_enc_sextet, !enc_sextet_not_pad, IH.
Qed.

Lemma sns_inner_shape (level_id : Z) :
  sns_inner level_id
  = "<lvl><id>" +:+ Py.str level_id +:+ "</id>" +:+ ten_entries +:+ "</lvl>".
Proof. reflexivity. Qed.

Section SnsBlock.
Variable zlib_compress : list ascii → list ascii.
Variable zlib_decompress : list ascii → option (list ascii).
Hypothesis zlib_round_trip : ∀ b, zlib_decompress (zlib_compress b) = Some b.

(** C8.  For every level id the generator returns a pair [(b64, n)] such
    that base64-decoding [b64] and decompressing the result gives bytes
    that are the UTF-8 encoding of the document made of the level-id
    element, exactly the ten entries 01 to 10, and the closing tag; [n] is
    the number of those bytes.  (zlib is a parameter: all that is used of
    it is that decompression undoes compression.) *)
Theorem sns_payload_round_trip (level_id : Z) :
  ∃ comp raw,
    Base64.b64decode (build_sns_payload_for_level zlib_compress level_id).1
    = Some comp
    ∧ zlib_decompress comp = Some raw
    ∧ utf8_decode raw
      = Some ("<lvl><id>" +:+ Py.str level_id +:+ "</id>"
              +:+ ten_entries +:+ "</lvl>")
    ∧ length sns_nums = 10%nat
    ∧ sns_nums = ["01"; "02"; "03"; "04"; "05"; "06"; "07"; "08"; "09"; "10"]
    ∧ (build_sns_payload_for_level zlib_compress level_id).2
      = Z.of_nat (length raw).
Proof.
  exists (zlib_compress (utf8_encode (sns_inner level_id))),
         (utf8_encode (sns_inner level_id)).
  unfold build_sns_payload_for_level. cbn [fst snd].
  split; [apply b64_round_trip|].
  split; [apply zlib_round_trip|].
  split; [by rewrite utf8_round_trip, sns_inner_shape|].
  done.
Qed.
End SnsBlock.

Lemma sns_payload_round_trip_witness :
  ∃ comp raw,
    Base64.b64decode (build_sns_payload_for_level store_compress 2).1 = Some comp
    ∧ store_decompress comp = Some raw
    ∧ utf8_decode raw
      = Some ("<lvl><id>" +:+ Py.str 2 +:+ "</id>" +:+ ten_entries +:+ "</lvl>")
    ∧ length sns_nums = 10%nat
    ∧ sns_nums = ["01"; "02"; "03"; "04"; "05"; "06"; "07"; "08"; "09"; "10"]
    ∧ (build_sns_payload_for_level store_compress 2).2 = Z.of_nat (length raw).
Proof.
  apply (sns_payload_round_trip store_compress store_decompress).
  intros b. reflexivity.
Defined.

(** ** The order-data fragment *)

Lemma order_child_step_pair (lvl : Z) (filled : gmap Z (list (string * string)))
    (it : ChildItem) :
  order_child_step lvl filled it
  = match item_pair it with
    | Some nv => filled_append lvl nv filled
    | None => filled
    end.
Proof.
  unfold order_child_step, item_pair.
  destruct (Py.startswith "y" (Py.lower (ci_writable it))); [|done].
  cbn [negb andb]. by destruct (String.eqb (entered_value it) "").
Qed.

(** The inner loop appends the filled pairs of the children to the entry
    of [lvl] and touches no other level. *)
Lemma foldl_order_child_step (lvl l : Z) (items : list ChildItem)
    (filled : gmap Z (list (string * string))) :
  default [] (foldl (order_child_step lvl) filled items !! l)
  = default [] (filled !! l)
    ++ (if bool_decide (lvl = l) then omap item_pair items else []).
Proof.
  revert filled. induction items as [|it items IH]; intros filled.
  - cbn [foldl]. destruct (bool_decide (lvl = l)); by rewrite app_nil_r.
  - cbn [foldl]. rewrite IH, order_child_step_pair.
    cbn [omap list_omap]. destruct (item_pair it) as [nv|]; [|done].
    unfold filled_append. case_bool_decide as Hl.
    + subst l. rewrite lookup_insert_eq. cbn [default]. unfold id.
      by rewrite <- app_assoc.
    + by rewrite lookup_insert_ne.
Qed.

Lemma foldl_order_top_step (tree : list TopItem) (levels : gset Z)
    (filled : gmap Z (list (string * string))) :
  (foldl order_top_step (levels, filled) tree).1
  = list_to_set (catalog_levels tree) ∪ levels
  ∧ ∀ l, default [] ((foldl order_top_step (levels, filled) tree).2 !! l)
         = default [] (filled !! l) ++ filled_at tree l.
Proof.
  revert levels filled. induction tree as [|parent tree IH]; intros levels filled.
  - cbn. split; [set_solver|]. intros l. by rewrite app_nil_r.
  - assert (Hcat : catalog_levels (parent :: tree)
                   = match top_level parent with
                     | Some lvl => lvl :: catalog_levels tree
                     | None => catalog_levels tree
                     end) by reflexivity.
    assert (Hfill : ∀ l, filled_at (parent :: tree) l
                   = (if bool_decide (top_level parent = Some l)
                      then omap item_pair (ti_children parent) else [])
                     ++ filled_at tree l) by reflexivity.
    cbn [foldl]. unfold order_top_step at 2 4. rewrite Hcat.
    unfold top_level in *.
    destruct (Py.int (ti_level parent)) as [lvl|e].
    + destruct (IH ({[lvl]} ∪ levels)
                  (foldl (order_child_step lvl) filled (ti_children parent)))
        as [IH1 IH2].
      cbn [fst snd]. split.
      * rewrite IH1. cbn [list_to_set]. set_solver.
      * intros l. rewrite IH2, foldl_order_child_step, Hfill, <- app_assoc.
        f_equal. f_equal. repeat case_bool_decide; congruence.
    + destruct (IH levels filled) as [IH1 IH2]. split; [done|].
      intros l. rewrite IH2, Hfill. by rewrite bool_decide_eq_false_2.
Qed.

Lemma StronglySorted_le_NoDup_lt (l : list Z) :
  StronglySorted Z.le l → NoDup l → StronglySorted Z.lt l.
Proof.
  induction 1 as [|x l Hs IH Hx]; [constructor|].
  intros [Hnotin Hnd]%NoDup_cons. constructor; [by apply IH|].
  apply Forall_forall. intros y Hy.
  pose proof (proj1 (Forall_forall _ _) Hx y Hy) as Hle.
  assert (x ≠ y) by (intros ->; by apply Hnotin, list_elem_of_In).
  lia.
Qed.

Lemma sorted_levels_spec (s : gset Z) :
  StronglySorted Z.lt (sorted_levels s) ∧ ∀ l, l ∈ sorted_levels s ↔ l ∈ s.
Proof.
  unfold sorted_levels. split.
  - apply StronglySorted_le_NoDup_lt.
    + apply (StronglySorted_merge_sort Z.le).
    + rewrite merge_sort_Permutation. apply NoDup_elements.
  - intros l. rewrite merge_sort_Permutation. apply elem_of_elements.
Qed.

Lemma level_lines_block (filled : gmap Z (list (string * string))) (lvl : Z) :
  level_lines filled lvl = level_block (default [] (filled !! lvl)) lvl.
Proof. reflexivity. Qed.

Lemma filled_at_no_levels (tree : list TopItem) (l : Z) :
  catalog_levels tree = [] → filled_at tree l = [].
Proof.
  induction tree as [|parent tree IH]; [done|].
  unfold catalog_levels, filled_at.
  cbn [omap list_omap fmap list_fmap concat].
  fold (catalog_levels tree). fold (filled_at tree l).
  destruct (top_level parent) as [lvl|]; [done|].
  intros Hcat. rewrite (IH Hcat). by rewrite bool_decide_eq_false_2.
Qed.


(** A catalog with the levels 2 and 1 and one filled field, at level 1:
    both levels get a block, level 1 first, and the block of level 2 is
    empty. *)
Example order_data_sample :
  build_order_data_xml_from_tree sample_catalog
  = (Py.join nl
       [ "<order-data>";
         "  <aggregation-level>"; "    <id>1</id>"; "    <data-field-values>";
         "      <element>"; "        <name>qty</name>";
         "        <value>7</value>"; "      </element>";
         "    </data-field-values>"; "  </aggregation-level>";
         "  <aggregation-level>"; "    <id>2</id>"; "    <data-field-values>";
         "    </data-field-values>"; "  </aggregation-level>";
         "</order-data>" ],
     [1; 2]).
Proof. by vm_compute. Qed.

(** ** Element trees *)

Lemma Element_ind_children (P : Element → Prop) :
  (∀ tag attrib text cs, Forall P cs → P (Elem tag attrib text cs)) →
  ∀ e, P e.
Proof.
  intros Hstep. fix IH 1. intros [tag attrib text cs].
  apply Hstep. induction cs as [|c cs IHcs]; constructor; [apply IH | apply IHcs].
Qed.

Lemma iter_at_unfold (p : Path) (e : Element) :
  iter_at p e = (p, e) :: iter_children p 0 (el_children e).
Proof.
  destruct e as [tag attrib text cs]. cbn [iter_at el_children]. f_equal.
  generalize 0%nat. induction cs as [|c cs IH]; intros i; [done|].
  cbn [iter_children]. by rewrite <- IH.
Qed.

Lemma node_at_cons (e : Element) (i : nat) (r : Path) (n : Element) :
  node_at e (i :: r) = Some n ↔
  ∃ c, el_children e !! i = Some c ∧ node_at c r = Some n.
Proof.
  cbn [node_at]. destruct (el_children e !! i) as [c|].
  - split; [by exists c | by intros (? & [= <-] & ?)].
  - split; [done | by intros (? & ? & ?)].
Qed.

(** The identities listed by [iter_at] are exactly the positions of the
    tree, each with its element. *)
Lemma elem_of_iter_at (e : Element) :
  ∀ pre q n,
    (q, n) ∈ iter_at pre e ↔ ∃ r, q = pre ++ r ∧ node_at e r = Some n.
Proof.
  induction e as [tag attrib text cs IHcs] using Element_ind_children.
  assert (Hcs : ∀ pre i q n,
    (q, n) ∈ iter_children pre i cs ↔
    ∃ k c r, cs !! k = Some c ∧ q = pre ++ (i + k)%nat :: r
             ∧ node_at c r = Some n).
  { intros pre. induction IHcs as [|c cs Hc _ IH]; intros i q n.
    - cbn [iter_children]. rewrite elem_of_nil.
      split; [done | by intros (k & c & r & Hk & _)].
    - cbn [iter_children]. rewrite elem_of_app, Hc, IH. split.
      + intros [(r & -> & Hr) | (k & c' & r & Hk & -> & Hr)].
        * exists 0%nat, c, r. rewrite Nat.add_0_r, <- app_assoc. done.
        * exists (S k), c', r. by rewrite Nat.add_succ_r.
      + intros (k & c' & r & Hk & -> & Hr). destruct k as [|k].
        * left. injection Hk as <-. exists r.
          by rewrite Nat.add_0_r, <- app_assoc.
        * right. exists k, c', r. by rewrite Nat.add_succ_r. }
  intros pre q n. rewrite iter_at_unfold, elem_of_cons, Hcs.
  cbn [el_children]. split.
  - intros [[= -> ->] | (k & c & r & Hk & -> & Hr)].
    + exists []. by rewrite app_nil_r.
    + exists (k :: r). split; [done|]. apply node_at_cons. by exists c.
  - intros ([|k r] & -> & Hr).
    + left. injection Hr as <-. by rewrite app_nil_r.
    + right. apply node_at_cons in Hr as (c & Hk & Hr). by exists k, c, r.
Qed.

(** ** The level map *)

Lemma foldM_app {A S} (step : S → A → Res S) (s : S) (l1 l2 : list A) :
  foldM step s (l1 ++ l2)
  = res_bind (foldM step s l1) (fun s' => foldM step s' l2).
Proof.
  revert s. induction l1 as [|a l1 IH]; intros s; [done|].
  cbn [app foldM]. destruct (step s a) as [s'|e]; [apply IH | done].
Qed.

Lemma res_bind_ok {A B} (r : Res A) (k : A → Res B) (b : B) :
  res_bind r k = Ok b → ∃ a, r = Ok a ∧ k a = Ok b.
Proof. destruct r as [a|e]; [by exists a | done]. Qed.

Lemma foldl_insert_lookup (lvl : Z) (l : list (Path * Element))
    (m : gmap Path Z) (q : Path) :
  foldl (fun m x => <[x.1 := lvl]> m) m l !! q
  = if bool_decide (q ∈ l.*1) then Some lvl else m !! q.
Proof.
  revert m. induction l as [|[p n] l IH]; intros m.
  - cbn. by rewrite bool_decide_eq_false_2 by apply not_elem_of_nil.
  - cbn [foldl fmap list_fmap fst]. rewrite IH.
    destruct (decide (q = p)) as [-> | Hne].
    + rewrite lookup_insert_eq.
      rewrite (bool_decide_eq_true_2 (p ∈ p :: l.*1))
        by (apply elem_of_cons; by left).
      by destruct (bool_decide (p ∈ l.*1)).
    + rewrite lookup_insert_ne by done.
      rewrite (bool_decide_ext (q ∈ p :: l.*1) (q ∈ l.*1)); [done|].
      rewrite elem_of_cons. naive_solver.
Qed.

(** Marking the subtree of a marker sets the level of every position of
    the subtree and of no other. *)
Lemma mark_subtree_inside (pre r : Path) (agg n : Element) (lvl : Z)
    (m : gmap Path Z) :
  node_at agg r = Some n →
  mark_subtree pre agg lvl m !! (pre ++ r) = Some lvl.
Proof.
  intros Hr. unfold mark_subtree. rewrite foldl_insert_lookup.
  rewrite bool_decide_eq_true_2; [done|].
  apply list_elem_of_fmap. exists (pre ++ r, n). split; [done|].
  apply elem_of_iter_at. by exists r.
Qed.

Lemma mark_subtree_outside (pre q : Path) (agg : Element) (lvl : Z)
    (m : gmap Path Z) :
  (∀ r, q = pre ++ r → node_at agg r = None) →
  mark_subtree pre agg lvl m !! q = m !! q.
Proof.
  intros Hout. unfold mark_subtree. rewrite foldl_insert_lookup.
  rewrite bool_decide_eq_false_2; [done|].
  intros ([q' n] & -> & Hin)%list_elem_of_fmap.
  apply elem_of_iter_at in Hin as (r & -> & Hr).
  cbn [fst] in Hout. by rewrite (Hout r) in Hr.
Qed.

Lemma level_step_marker (m m' : gmap Path Z) (pre : Path) (e : Element) :
  level_step m (pre, e) = Ok m' →
  m' = match marker_level e with
       | Some lvl => mark_subtree pre e lvl m
       | None => m
       end.
Proof.
  unfold level_step, marker_level. cbn [fst snd].
  destruct (local_is "aggregation-level" e) as [[|]|err]; cbn [res_bind];
    [|by intros [= <-] | done].
  destruct (level_id (el_children e)) as [lvl|err]; cbn [res_bind];
    [by intros [= <-] | done].
Qed.

Lemma path_snoc_cons (pre : Path) (i : nat) (r : Path) :
  (pre ++ [i]) ++ r = pre ++ i :: r.
Proof. by rewrite <- app_assoc. Qed.

(** The pass over a subtree placed at [pre]: a position of the subtree
    ends with the level of the deepest marker at or above it inside the
    subtree, or keeps what the map held when the subtree has no such
    marker; positions outside the subtree are untouched. *)
Lemma level_pass_subtree (e : Element) :
  ∀ pre m0 m1,
    foldM level_step m0 (iter_at pre e) = Ok m1 →
    (∀ r n, node_at e r = Some n →
       m1 !! (pre ++ r)
       = from_option Some (m0 !! (pre ++ r)) (nearest_level e r))
    ∧ (∀ q, (∀ r, q = pre ++ r → node_at e r = None) → m1 !! q = m0 !! q).
Proof.
  induction e as [tag attrib text cs IHcs] using Element_ind_children.
  assert (Hcs : ∀ pre i m0 m1,
    foldM level_step m0 (iter_children pre i cs) = Ok m1 →
    (∀ k c r n, cs !! k = Some c → node_at c r = Some n →
       m1 !! (pre ++ (i + k)%nat :: r)
       = from_option Some (m0 !! (pre ++ (i + k)%nat :: r)) (nearest_level c r))
    ∧ (∀ q, (∀ k c r, cs !! k = Some c → q = pre ++ (i + k)%nat :: r →
                      node_at c r = None) → m1 !! q = m0 !! q)).
  { intros pre. induction IHcs as [|c cs Hc _ IH]; intros i m0 m1.
    - cbn [iter_children foldM]. intros [= <-]. split; [|done].
      intros k c r n Hk. by rewrite lookup_nil in Hk.
    - cbn [iter_children]. rewrite foldM_app.
      intros (mid & Hmid & Hrest)%res_bind_ok.
      destruct (Hc _ _ _ Hmid) as [Hin Hout].
      destruct (IH _ _ _ Hrest) as [IHin IHout].
      split.
      + intros [|k] c' r n Hk Hr.
        * injection Hk as <-. rewrite IHout.
          -- rewrite <- path_snoc_cons, Nat.add_0_r. by eapply Hin.
          -- intros k' c'' r' _ Heq. apply app_inv_head in Heq.
             injection Heq as Heq _. lia.
        * cbn [lookup list_lookup] in Hk.
          replace (i + S k)%nat with (S i + k)%nat by lia.
          rewrite (IHin k c' r n Hk Hr). f_equal. apply Hout.
          intros r0 Heq. rewrite path_snoc_cons in Heq.
          apply app_inv_head in Heq. injection Heq as Heq _. lia.
      + intros q Hq. rewrite IHout.
        * apply Hout. intros r0 ->. apply (Hq 0%nat c r0); [done|].
          by rewrite path_snoc_cons, Nat.add_0_r.
        * intros k c' r Hk ->. apply (Hq (S k) c' r); [done|].
          by replace (i + S k)%nat with (S i + k)%nat by lia. }
  intros pre m0 m1. rewrite iter_at_unfold. cbn [foldM el_children].
  intros (m' & Hstep & Hrest)%res_bind_ok.
  apply level_step_marker in Hstep.
  destruct (Hcs _ _ _ _ Hrest) as [Hin Hout].
  set (e := Elem tag attrib text cs) in *.
  assert (Hm'_in : ∀ r n, node_at e r = Some n →
            m' !! (pre ++ r) = from_option Some (m0 !! (pre ++ r)) (marker_level e)).
  { intros r n Hr. rewrite Hstep. destruct (marker_level e) as [lvl|]; [|done].
    by eapply mark_subtree_inside. }
  assert (Hm'_out : ∀ q, (∀ r, q = pre ++ r → node_at e r = None) →
            m' !! q = m0 !! q).
  { intros q Hq. rewrite Hstep. destruct (marker_level e) as [lvl|]; [|done].
    by apply mark_subtree_outside. }
  split.
  - intros [|k r] n Hr.
    + cbn [nearest_level]. rewrite Hout.
      * by eapply Hm'_in.
      * intros k c r _ Heq. by apply app_inv_head in Heq.
    + pose proof Hr as Hr'.
      apply node_at_cons in Hr' as (c & Hk & Hc). cbn [el_children] in Hk.
      change (k :: r) with ((0 + k)%nat :: r).
      rewrite (Hin k c r n Hk Hc). cbn [nearest_level el_children Nat.add].
      rewrite Hk. destruct (nearest_level c r) as [lvl|]; [done|].
      cbn [from_option]. by eapply Hm'_in.
  - intros q Hq. rewrite Hout.
    + by apply Hm'_out.
    + intros k c r Hk ->. pose proof (Hq (k :: r) eq_refl) as Hn.
      cbn [node_at] in Hn. change (el_children e) with cs in Hn.
      by rewrite Hk in Hn.
Qed.

(** The level map holds, for every position of the response, the level of
    the nearest enclosing marker, and nothing else. *)
Lemma build_level_map_nearest (response : Element) (level_map : gmap Path Z) :
  build_level_map response = Ok level_map →
  ∀ p, level_map !! p
       = match node_at response p with
         | Some _ => nearest_level response p
         | None => None
         end.
Proof.
  unfold build_level_map. intros Hmap p.
  destruct (level_pass_subtree response [] ∅ level_map Hmap) as [Hin Hout].
  destruct (node_at response p) as [n|] eqn:Hp.
  - pose proof (Hin p n Hp) as Hl. cbn [app] in Hl.
    rewrite Hl, lookup_empty. by destruct (nearest_level response p).
  - rewrite Hout; [apply lookup_empty|]. by intros r ->.
Qed.

(** ** Field classification *)

Lemma has_local_ok (name : string) (ch : Element) :
  tag_ok ch = true → local_is name ch = Ok (has_local name ch).
Proof.
  unfold tag_ok, local_is, has_local.
  by destruct (strip_ns (el_tag ch)).
Qed.

Lemma find_first_find {A} (p : A → Res bool) (f : A → bool) (l : list A) :
  (∀ a, a ∈ l → p a = Ok (f a)) → find_first p l = Ok (List.find f l).
Proof.
  induction l as [|a l IH]; intros H; [done|].
  cbn [find_first List.find].
  rewrite (H a) by (apply elem_of_cons; by left). cbn [res_bind].
  destruct (f a); [done|]. apply IH. intros a' Ha'. apply H.
  apply elem_of_cons. by right.
Qed.

Lemma last_text_cons (p : Element → bool) (c : Element) (cs : list Element)
    (old : option string) :
  from_option Some old (last_text p (c :: cs))
  = from_option Some (if p c then Some (Py.strip (text_or_empty c)) else old)
      (last_text p cs).
Proof.
  cbn [last_text]. destruct (last_text p cs); [done|]. by destruct (p c).
Qed.

(** The loop over the direct children keeps, for each of the four kinds of
    child, the text of the last child of that kind. *)
Lemma scan_children_last (cs : list Element) (d : Direct) :
  forallb tag_ok cs = true →
  foldM scan_child d cs
  = Ok (MkDirect
          (from_option Some (name_text d) (last_text (has_local "name") cs))
          (from_option Some (disp_text d) (last_text (has_local "display-name") cs))
          (from_option Some (writable d) (last_text (has_local "writable") cs))
          (from_option Some (preset d) (last_text is_preset_tag cs))).
Proof.
  revert d. induction cs as [|c cs IH]; intros d.
  - intros _. by destruct d.
  - cbn [forallb]. intros [Hc Hcs]%andb_prop.
    rewrite !last_text_cons. cbn [foldM].
    unfold tag_ok in Hc.
    destruct (strip_ns (el_tag c)) as [t|] eqn:Ht; [|done].
    assert (Hhl : ∀ name, has_local name c = String.eqb t name).
    { intros name. unfold has_local. by rewrite Ht. }
    assert (Hpre : is_preset_tag c
                   = (String.eqb t "value-set-by-article"
                      || String.eqb t "preset" || String.eqb t "default-value")).
    { unfold is_preset_tag. by rewrite !Hhl. }
    unfold scan_child at 1. rewrite Ht, !Hhl, Hpre. cbn [res_bind].
    destruct (String.eqb_spec t "name") as [-> | Hn].
    { cbn [res_bind]. rewrite (IH _ Hcs). reflexivity. }
    destruct (String.eqb_spec t "display-name") as [-> | Hd].
    { cbn [res_bind]. rewrite (IH _ Hcs). reflexivity. }
    destruct (String.eqb_spec t "writable") as [-> | Hw].
    { cbn [res_bind]. rewrite (IH _ Hcs). reflexivity. }
    destruct (String.eqb t "value-set-by-article" || String.eqb t "preset"
              || String.eqb t "default-value").
    { cbn [res_bind]. rewrite (IH _ Hcs). reflexivity. }
    cbn [res_bind]. rewrite (IH _ Hcs). by destruct d.
Qed.

Lemma field_step_field_of (level_map : gmap Path Z) (pn : Path * Element) :
  forallb tag_ok (el_children pn.2) = true →
  field_step level_map pn = Ok (field_of level_map pn).
Proof.
  intros Hok. unfold field_step, field_of.
  rewrite (scan_children_last _ _ Hok). cbn [res_bind name_text disp_text
    writable preset no_direct from_option].
  destruct (last_text (has_local "name") (el_children pn.2)) as [n|];
    [|done].
  destruct (last_text (has_local "display-name") (el_children pn.2)) as [dn|];
    [|done].
  cbn [from_option].
  by destruct (last_text (has_local "writable") (el_children pn.2)),
              (last_text is_preset_tag (el_children pn.2)).
Qed.

(** ** Positions *)

Lemma node_at_app (e n : Element) (r r' : Path) :
  node_at e r = Some n → node_at e (r ++ r') = node_at n r'.
Proof.
  revert e. induction r as [|i r IH]; intros e.
  - by intros [= ->].
  - cbn [node_at app]. destruct (el_children e !! i) as [c|]; [apply IH | done].
Qed.

Lemma elem_of_iter (e n : Element) :
  n ∈ iter e ↔ ∃ r, node_at e r = Some n.
Proof.
  unfold iter. rewrite list_elem_of_fmap. split.
  - intros ([q n'] & -> & Hin). apply elem_of_iter_at in Hin as (r & _ & Hr).
    by exists r.
  - intros (r & Hr). exists (r, n). split; [done|].
    apply elem_of_iter_at. by exists r.
Qed.

Lemma iter_subtree (e n x : Element) : n ∈ iter e → x ∈ iter n → x ∈ iter e.
Proof.
  rewrite !elem_of_iter. intros (r & Hr) (r' & Hr').
  exists (r ++ r'). by rewrite (node_at_app _ _ _ _ Hr).
Qed.

Lemma iter_child (n c : Element) : c ∈ el_children n → c ∈ iter n.
Proof.
  intros (k & Hk)%list_elem_of_lookup. apply elem_of_iter. exists [k].
  cbn [node_at]. by rewrite Hk.
Qed.

(** An inner marker wins over an outer one: below the element at [p], the
    nearest marker is the nearest one found from that element down, and
    only when there is none the nearest one above. *)
Lemma nearest_level_inner_wins (e n x : Element) (p r : Path) :
  node_at e p = Some n → node_at n r = Some x →
  nearest_level e (p ++ r)
  = match nearest_level n r with
    | Some lvl => Some lvl
    | None => nearest_level e p
    end.
Proof.
  revert e. induction p as [|i p IH]; intros e.
  - intros [= ->] Hx. cbn [app]. destruct r as [|k r]; cbn [nearest_level].
    + by destruct (marker_level n).
    + apply node_at_cons in Hx as (c & Hk & _). rewrite Hk.
      destruct (nearest_level c r); [done|]. by destruct (marker_level n).
  - cbn [node_at app nearest_level].
    destruct (el_children e !! i) as [c|]; [|done].
    intros Hc Hx. rewrite (IH c Hc Hx).
    by destruct (nearest_level n r), (nearest_level c p).
Qed.

Lemma tree_tags_ok_elem (root n : Element) :
  tree_tags_ok root = true → n ∈ iter root → tag_ok n = true.
Proof.
  unfold tree_tags_ok. rewrite forallb_forall. intros H Hn.
  apply H. by apply list_elem_of_In.
Qed.

Lemma tree_tags_ok_children (root n : Element) :
  tree_tags_ok root = true → n ∈ iter root →
  forallb tag_ok (el_children n) = true.
Proof.
  intros Hok Hn. apply forallb_forall. intros c Hc%list_elem_of_In.
  apply (tree_tags_ok_elem root); [done|].
  apply (iter_subtree root n); [done | by apply iter_child].
Qed.

Lemma find_some_elem {A} (f : A → bool) (l : list A) (a : A) :
  List.find f l = Some a → a ∈ l.
Proof. intros [H _]%find_some. by apply list_elem_of_In. Qed.

(** ** Field extraction *)

Section FieldExtraction.
Variable fromstring : string → Res Element.


(** C10.  In a document whose tags all have a local part, field
    extraction returns, in document order, the record of every element of
    the response that has a direct child with local tag [name] and one
    with local tag [display-name], whatever their texts: the name and the
    display name of the record are the stripped texts of the last such
    children, the empty text when a child has none.  Article-list parsing
    instead collects the stripped text of the first [name] child of an
    [article] only when that text is not empty. *)
Theorem fields_classified_by_children (xml_text : string) (root : Element) :
  fromstring xml_text = Ok root →
  tree_tags_ok root = true →
  parse_article_fields fromstring xml_text
  = match List.find (has_local "response") (iter root) with
    | Some response =>
        match build_level_map response with
        | Ok level_map => omap (field_of level_map) (iter_at [] response)
        | Raise _ => []
        end
    | None => []
    end
  ∧ parse_article_names fromstring xml_text = omap article_name_of (iter root)
  ∧ (∀ s, s ∈ parse_article_names fromstring xml_text → s ≠ "").
Proof.
  intros Hparse Hok.
  assert (Hnames : parse_article_names fromstring xml_text
                   = omap article_name_of (iter root)).
  { unfold parse_article_names, names_of_tree. rewrite Hparse.
    apply collect_total. intros el Hel.
    unfold article_step, article_name_of.
    rewrite (has_local_ok "article" el) by by apply (tree_tags_ok_elem root).
    cbn [res_bind]. destruct (has_local "article" el); [|done].
    rewrite (find_first_find _ (has_local "name")).
    - cbn [res_bind]. destruct (List.find _ _) as [nm|]; [|done].
      by destruct (Py.truthy _).
    - intros c Hc. apply has_local_ok. apply (tree_tags_ok_elem root); [done|].
      apply (iter_subtree root el); [done | by apply iter_child]. }
  split; [|split; [done|]].
  - unfold parse_article_fields, fields_of_tree. rewrite Hparse.
    rewrite (find_first_find _ (has_local "response")).
    2:{ intros el Hel. apply has_local_ok. by apply (tree_tags_ok_elem root). }
    destruct (List.find _ _) as [response|] eqn:Hfind; [|done].
    destruct (build_level_map response) as [level_map|e]; [|done].
    apply collect_total. intros [p n] Hin. apply field_step_field_of.
    cbn [snd]. apply (tree_tags_ok_children root); [done|].
    apply (iter_subtree root response); [by eapply find_some_elem|].
    apply elem_of_iter. apply elem_of_iter_at in Hin as (r & _ & Hr).
    by exists r.
  - rewrite Hnames. intros s (el & _ & Hs)%list_elem_of_omap.
    unfold article_name_of in Hs.
    destruct (has_local "article" el); [|done].
    destruct (List.find _ _) as [nm|]; [|done].
    destruct (Py.strip (text_or_empty nm)) eqn:Ht; cbn [Py.truthy] in Hs;
      [done|]. by injection Hs as <-.
Qed.
End FieldExtraction.


(** The fields of the nested sample: the field below the inner marker has
    level 2, the one between the markers level 1, the one outside level 1. *)
Example nested_levels_resolved :
  (fun row : Row => (row !! "name", row !! "level"))
    <$> parse_article_fields (parser_of nested_response) "<tnt/>"
  = [ (Some (VStr "outer"), Some (VInt 1));
      (Some (VStr "inner"), Some (VInt 2));
      (Some (VStr "free"), Some (VInt 1)) ].
Proof. by vm_compute. Qed.

Lemma fields_classified_by_children_witness :
  parse_article_fields (parser_of blank_response) "<tnt/>"
  = match List.find (has_local "response") (iter blank_response) with
    | Some response =>
        match build_level_map response with
        | Ok level_map => omap (field_of level_map) (iter_at [] response)
        | Raise _ => []
        end
    | None => []
    end
  ∧ parse_article_names (parser_of blank_response) "<tnt/>"
    = omap article_name_of (iter blank_response)
  ∧ (∀ s, s ∈ parse_article_names (parser_of blank_response) "<tnt/>" → s ≠ "").
Proof.
  apply (fields_classified_by_children (parser_of blank_response)
           "<tnt/>" blank_response).
  - reflexivity.
  - vm_compute. reflexivity.
Defined.

(** The blank sample: the element with an empty [name] and a textless
    [display-name] is a field with empty name and display name, and the
    article with a blank [name] is not collected. *)
Example blank_children_still_a_field :
  (fun row : Row => (row !! "name", row !! "display"))
    <$> parse_article_fields (parser_of blank_response) "<tnt/>"
  = [ (Some (VStr ""), Some (VStr "")) ]
  ∧ parse_article_names (parser_of blank_response) "<tnt/>" = [].
Proof. by vm_compute. Qed.

(** The same defect with a version outside the candidate list: a server
    that keeps naming 1.5 is sent the 1.5 request after every candidate. *)
Example negotiate_repeats_forced_version :
  sent (negotiate_and_send fixed_clock server_naming_1_5 rejecting_parser
          "get-article-list-request" get_articles_candidates
          get_articles_builder tool0).2
  = [ get_articles_builder "2.0"; get_articles_builder "1.5";
      get_articles_builder "1.1"; get_articles_builder "1.5";
      get_articles_builder "1.0"; get_articles_builder "1.5" ].
Proof. by vm_compute. Qed.

(* ===================================================================== *)
(** * Part IV: further properties                                         *)
(* ===================================================================== *)

(** ** One exchange *)

Section Exchange.
Context {W : Type} (clock : W → string * W)
        (exchange : string → W → Res string * W)
        (fromstring : string → Res Element).

(** The complete effect of [send_inner]: the envelope is stamped by the
    first reading of the clock, the log line by the second; a failed
    exchange leaves one log line and raises; a successful one is logged
    twice, once by the slot of the client and once by [send_inner], and
    only the world, the log, the current fields and the requests sent
    change. *)
Lemma send_inner_run (inner_xml : string) (t : Tool W) :
  send_inner clock exchange fromstring inner_xml t
  = let '(ts1, w1) := clock (world t) in
    let '(ts2, w2) := clock w1 in
    let env := envelope t ts1 inner_xml in
    match exchange env w2 with
    | (Raise e, w3) =>
        (Raise e,
         MkTool w3 (edRaw t ++ [sent_line ts2 env]) (edAgent t) (edIface t)
           (edDB t) (edNS t) (listArticles t) (current_fields t)
           (sent t ++ [inner_xml]))
    | (Ok resp, w3) =>
        let '(ts3, w4) := clock w3 in
        let '(ts4, w5) := clock w4 in
        (Ok resp,
         MkTool w5
           (edRaw t ++ [sent_line ts2 env; recv_line ts3 resp; recv_line ts4 resp])
           (edAgent t) (edIface t) (edDB t) (edNS t) (listArticles t)
           (fields_after fromstring resp t) (sent t ++ [inner_xml]))
    end.
Proof.
  destruct t as [w raw ag ifc db ns arts cf snt].
  unfold send_inner, build_tnt, send_and_recv, on_received, append_raw,
    iso_now, bind, gets, ret, modify, fields_after, sent_line, recv_line.
  cbn [world edRaw edAgent edIface edDB edNS listArticles current_fields sent
       set_world set_edRaw set_sent set_current_fields id].
  destruct (clock w) as [ts1 w1].
  cbn [world edRaw edAgent edIface edDB edNS listArticles current_fields sent
       set_world set_edRaw set_sent set_current_fields id].
  destruct (clock w1) as [ts2 w2].
  cbn [world edRaw edAgent edIface edDB edNS listArticles current_fields sent
       set_world set_edRaw set_sent set_current_fields id].
  destruct (exchange _ w2) as [[resp|e] w3].
  - cbn [world edRaw edAgent edIface edDB edNS listArticles current_fields sent
         set_world set_edRaw set_sent set_current_fields id].
    destruct (clock w3) as [ts3 w4].
    cbn [world edRaw edAgent edIface edDB edNS listArticles current_fields sent
         set_world set_edRaw set_sent set_current_fields id].
    destruct (_ && _).
    + cbn [world edRaw edAgent edIface edDB edNS listArticles current_fields
           sent set_world set_edRaw set_sent set_current_fields id].
      destruct (clock w4) as [ts4 w5].
      cbn [world edRaw edAgent edIface edDB edNS listArticles current_fields
           sent set_world set_edRaw set_sent set_current_fields id].
      by rewrite <- !app_assoc.
    + destruct (parse_article_fields fromstring resp) as [|f fs];
        cbn [world edRaw edAgent edIface edDB edNS listArticles current_fields
             sent set_world set_edRaw set_sent set_current_fields id];
        destruct (clock w4) as [ts4 w5];
        cbn [world edRaw edAgent edIface edDB edNS listArticles current_fields
             sent set_world set_edRaw set_sent set_current_fields id];
        by rewrite <- !app_assoc.
  - reflexivity.
Qed.
End Exchange.

(** ** Runs of the negotiator *)

Section NegotiationRuns.
Context {W : Type} (clock : W → string * W)
        (exchange : string → W → Res string * W)
        (fromstring : string → Res Element).

Lemma send_inner_effect (inner_xml : string) (t t' : Tool W) (r : Res string) :
  send_inner clock exchange fromstring inner_xml t = (r, t') →
  protocol_context t' = protocol_context t
  ∧ sent t' = sent t ++ [inner_xml].
Proof.
  rewrite send_inner_run.
  destruct (clock (world t)) as [ts1 w1]. destruct (clock w1) as [ts2 w2].
  cbn zeta. destruct (exchange _ w2) as [[resp|e] w3].
  - destruct (clock w3) as [ts3 w4]. destruct (clock w4) as [ts4 w5].
    by intros [= <- <-].
  - by intros [= <- <-].
Qed.

(** The loop of the negotiator leaves the protocol context alone and adds
    at most two requests per candidate to the requests sent. *)
Lemma negotiate_loop_effect (body_builder : string → string)
    (candidates : list string) :
  ∀ (tried : list string) (last_resp : string) (t : Tool W),
    let run := negotiate_loop clock exchange fromstring body_builder
                 candidates tried last_resp t in
    protocol_context run.2 = protocol_context t
    ∧ ∃ new, sent run.2 = sent t ++ new
             ∧ (length new ≤ 2 * length candidates)%nat.
Proof.
  induction candidates as [|ver rest IH]; intros tried last_resp t.
  - cbn. split; [done|]. exists []. by rewrite app_nil_r.
  - cbn zeta. cbn [negotiate_loop]. unfold bind.
    destruct (send_inner _ _ _ (body_builder ver) t) as [[r1|e1] t1] eqn:H1;
      destruct (send_inner_effect _ _ _ _ H1) as [Hc1 Hs1]; cbn beta iota.
    2:{ cbn [snd]. split; [done|]. exists [body_builder ver].
        split; [done|]. cbn [length]. lia. }
    assert (Hrest : ∀ lr,
      let run := negotiate_loop clock exchange fromstring body_builder rest
                   (tried ++ [ver]) lr t1 in
      protocol_context run.2 = protocol_context t
      ∧ ∃ new, sent run.2 = sent t ++ new
               ∧ (length new ≤ 2 * length (ver :: rest))%nat).
    { intros lr. cbn zeta.
      destruct (IH (tried ++ [ver]) lr t1) as [Hc (new & Hs & Hl)].
      split; [by rewrite Hc|]. exists (body_builder ver :: new).
      rewrite Hs, Hs1, <- app_assoc. split; [done|]. cbn [length]. lia. }
    assert (Hstop : protocol_context t1 = protocol_context t
      ∧ ∃ new, sent t1 = sent t ++ new
               ∧ (length new ≤ 2 * length (ver :: rest))%nat).
    { split; [done|]. exists [body_builder ver]. split; [done|].
      cbn [length]. lia. }
    destruct (Py.contains "version-error" r1); [|exact Hstop].
    destruct (Re.search_concerning r1) as [g|]; [|apply Hrest].
    destruct (Py.truthy (Py.strip g) && _); [|apply Hrest].
    destruct (send_inner _ _ _ (body_builder (Py.strip g)) t1)
      as [[r2|e2] t2] eqn:H2;
      destruct (send_inner_effect _ _ _ _ H2) as [Hc2 Hs2]; cbn beta iota.
    2:{ cbn [snd]. split; [by rewrite Hc2|].
        exists [body_builder ver; body_builder (Py.strip g)].
        rewrite Hs2, Hs1, <- app_assoc. split; [done|]. cbn [length]. lia. }
    destruct (Py.contains "version-error" r2).
    + destruct (IH (tried ++ [ver]) r2 t2) as [Hc (new & Hs & Hl)].
      split; [by rewrite Hc, Hc2|].
      exists (body_builder ver :: body_builder (Py.strip g) :: new).
      rewrite Hs, Hs2, Hs1, <- !app_assoc. split; [done|]. cbn [length]. lia.
    + cbn [snd ret]. split; [by rewrite Hc2|].
      exists [body_builder ver; body_builder (Py.strip g)].
      rewrite Hs2, Hs1, <- app_assoc. split; [done|]. cbn [length]. lia.
Qed.

(** X1.  Negotiation terminates after at most two requests per candidate
    (a candidate and one forced retry), whatever the server answers, and
    with no candidate it sends nothing and returns the empty text. *)
Theorem negotiate_sends_at_most_two_per_candidate
    (xsi_type : string) (candidates : list string)
    (body_builder : string → string) (t : Tool W) :
  (∃ new,
     sent (negotiate_and_send clock exchange fromstring xsi_type candidates
             body_builder t).2 = sent t ++ new
     ∧ (length new ≤ 2 * length candidates)%nat)
  ∧ negotiate_and_send clock exchange fromstring xsi_type [] body_builder t
    = (Ok "", t).
Proof.
  split; [|done]. unfold negotiate_and_send.
  apply (negotiate_loop_effect body_builder candidates [] "" t).
Qed.

(** X2.  Negotiation never touches the protocol context or the article
    list: agent, interface version, dbVersion and namespace are the same
    after the run, whether it returns or raises. *)
Theorem negotiate_keeps_protocol_context
    (xsi_type : string) (candidates : list string)
    (body_builder : string → string) (t : Tool W) :
  protocol_context
    (negotiate_and_send clock exchange fromstring xsi_type candidates
       body_builder t).2
  = protocol_context t.
Proof.
  unfold negotiate_and_send.
  apply (negotiate_loop_effect body_builder candidates [] "" t).
Qed.

(** X3.  What one call of [send_inner] leaves in the raw log: a failed
    exchange leaves the line of the request only; a successful one leaves
    the line of the request and the response twice, because the slot of
    the client logs it and [send_inner] logs it again. *)
Theorem send_inner_logs_response_twice (inner_xml : string) (t : Tool W) :
  match send_inner clock exchange fromstring inner_xml t with
  | (Ok resp, t') =>
      ∃ ts1 ts2 ts3 ts4,
        edRaw t' = edRaw t ++ [sent_line ts2 (envelope t ts1 inner_xml);
                               recv_line ts3 resp; recv_line ts4 resp]
  | (Raise e, t') =>
      ∃ ts1 ts2,
        edRaw t' = edRaw t ++ [sent_line ts2 (envelope t ts1 inner_xml)]
        ∧ current_fields t' = current_fields t
  end.
Proof.
  rewrite send_inner_run.
  destruct (clock (world t)) as [ts1 w1]. destruct (clock w1) as [ts2 w2].
  cbn zeta. destruct (exchange _ w2) as [[resp|e] w3].
  - destruct (clock w3) as [ts3 w4]. destruct (clock w4) as [ts4 w5].
    by exists ts1, ts2, ts3, ts4.
  - by exists ts1, ts2.
Qed.
End NegotiationRuns.

Section ExhaustedNegotiation.
Context {W : Type} (clock : W → string * W)
        (exchange : string → W → Res string * W)
        (fromstring : string → Res Element).
Variable first : string.
Hypothesis server_rejects :
  ∀ env w, ∃ r w',
    exchange env w = (Ok r, w')
    ∧ Py.contains "version-error" r = true
    ∧ no_new_version first r = true.

Lemma send_inner_rejected (inner_xml : string) (t : Tool W) :
  ∃ r t',
    send_inner clock exchange fromstring inner_xml t = (Ok r, t')
    ∧ Py.contains "version-error" r = true
    ∧ no_new_version first r = true
    ∧ sent t' = sent t ++ [inner_xml].
Proof.
  destruct (send_inner clock exchange fromstring inner_xml t) as [r t'] eqn:Hrun.
  pose proof (send_inner_effect _ _ _ _ _ _ _ Hrun) as [_ Hsent].
  rewrite send_inner_run in Hrun.
  destruct (clock (world t)) as [ts1 w1]. destruct (clock w1) as [ts2 w2].
  cbn zeta in Hrun.
  destruct (server_rejects (envelope t ts1 inner_xml) w2)
    as (resp & w3 & Hex & Herr & Hno).
  rewrite Hex in Hrun.
  destruct (clock w3) as [ts3 w4]. destruct (clock w4) as [ts4 w5].
  injection Hrun as <- <-. eexists _, _. split; [reflexivity|]. done.
Qed.

Lemma negotiate_loop_exhausts (body_builder : string → string)
    (candidates : list string) :
  ∀ (tried : list string) (last_resp : string) (t : Tool W),
    first ∈ tried ∨ head candidates = Some first ∨ candidates = [] →
    ∃ r t',
      negotiate_loop clock exchange fromstring body_builder candidates tried
        last_resp t = (Ok r, t')
      ∧ sent t' = sent t ++ (body_builder <$> candidates)
      ∧ (if candidates is [] then r = last_resp
         else Py.contains "version-error" r = true).
Proof.
  induction candidates as [|ver rest IH]; intros tried last_resp t Htried.
  - exists last_resp, t. by rewrite app_nil_r.
  - cbn [negotiate_loop]. unfold bind.
    destruct (send_inner_rejected (body_builder ver) t)
      as (r1 & t1 & -> & Herr & Hno & Hs1).
    rewrite Herr.
    assert (Hin : first ∈ tried ++ [ver]).
    { apply elem_of_app. destruct Htried as [? | [[= ->] | ?]];
        [by left | right; apply elem_of_cons; by left | done]. }
    destruct (IH (tried ++ [ver]) r1 t1 (or_introl Hin))
      as (r & t' & Hloop & Hs & Hr).
    assert (Hgoal : ∃ r t',
      negotiate_loop clock exchange fromstring body_builder rest
        (tried ++ [ver]) r1 t1 = (Ok r, t')
      ∧ sent t' = sent t ++ (body_builder <$> ver :: rest)
      ∧ Py.contains "version-error" r = true).
    { exists r, t'. split; [done|]. split.
      - rewrite Hs, Hs1, <- app_assoc. done.
      - destruct rest; [by subst r | done]. }
    unfold no_new_version in Hno.
    destruct (Re.search_concerning r1) as [g|]; [|exact Hgoal].
    apply orb_prop in Hno as [Hblank | Hfirst].
    + apply String.eqb_eq in Hblank. rewrite Hblank. exact Hgoal.
    + apply String.eqb_eq in Hfirst. rewrite Hfirst.
      rewrite (bool_decide_eq_true_2 _ Hin), andb_false_r. exact Hgoal.
Qed.

End ExhaustedNegotiation.


Section FailingTransport.
Context {W : Type} (clock : W → string * W)
        (exchange : string → W → Res string * W)
        (fromstring : string → Res Element).
Variable err : Exn.
Hypothesis connection_fails : ∀ env w, (exchange env w).1 = Raise err.

(** X5.  A transport error is not retried: when every exchange fails,
    negotiation over a non-empty candidate list raises that error after
    handing over the first candidate only, and [on_get_articles] catches
    it, returns normally, keeps the article list and the protocol context
    and ends the log with its failure line. *)
Theorem transport_error_ends_negotiation
    (xsi_type ver : string) (rest : list string)
    (body_builder : string → string) (t : Tool W) :
  (∃ t',
     negotiate_and_send clock exchange fromstring xsi_type (ver :: rest)
       body_builder t = (Raise err, t')
     ∧ sent t' = sent t ++ [body_builder ver])
  ∧ ∃ t',
      on_get_articles clock exchange fromstring t = (Ok tt, t')
      ∧ protocol_context t' = protocol_context t
      ∧ last (edRaw t') = Some "# Get-article-list failed: ".
Proof.
  assert (Hneg : ∀ xsi ver rest bb,
    ∃ t', negotiate_and_send clock exchange fromstring xsi (ver :: rest) bb t
          = (Raise err, t')
          ∧ protocol_context t' = protocol_context t
          ∧ sent t' = sent t ++ [bb ver]).
  { intros xsi v rs bb. unfold negotiate_and_send. cbn [negotiate_loop].
    unfold bind.
    destruct (send_inner clock exchange fromstring (bb v) t) as [r t1] eqn:Hrun.
    destruct (send_inner_effect _ _ _ _ _ _ _ Hrun) as [Hc Hs].
    rewrite send_inner_run in Hrun.
    destruct (clock (world t)) as [ts1 w1]. destruct (clock w1) as [ts2 w2].
    cbn zeta in Hrun.
    pose proof (connection_fails (envelope t ts1 (bb v)) w2) as Hfail.
    destruct (exchange _ w2) as [[resp|e] w3]; cbn [fst] in Hfail; [done|].
    injection Hfail as ->. injection Hrun as <- <-. by eexists. }
  split.
  - destruct (Hneg xsi_type ver rest body_builder) as (t' & Hrun & _ & Hs).
    by exists t'.
  - unfold on_get_articles, try_except, bind, get_articles_candidates.
    destruct (Hneg "get-article-list-request" "2.0" ["1.1"; "1.0"]
                get_articles_builder) as (t' & -> & Hc & _).
    eexists. split; [reflexivity|]. split; [done|].
    cbn [edRaw set_edRaw]. by rewrite last_snoc.
Qed.
End FailingTransport.

Lemma transport_error_ends_negotiation_witness :
  (∃ t',
     negotiate_and_send fixed_clock server_down rejecting_parser
       "get-article-list-request" ("2.0" :: ["1.1"; "1.0"])
       get_articles_builder tool0 = (Raise OSError, t')
     ∧ sent t' = sent tool0 ++ [get_articles_builder "2.0"])
  ∧ ∃ t',
      on_get_articles fixed_clock server_down rejecting_parser tool0 = (Ok tt, t')
      ∧ protocol_context t' = protocol_context tool0
      ∧ last (edRaw t') = Some "# Get-article-list failed: ".
Proof.
  apply (transport_error_ends_negotiation fixed_clock server_down
           rejecting_parser OSError).
  intros env w. reflexivity.
Defined.

(** ** Decimal texts: [int(str(n))] *)

Lemma of_uint_acc_value (d : Decimal.uint) (acc : positive) :
  Z.pos (Pos.of_uint_acc d acc) = digits_value (Z.pos acc) d.
Proof.
  revert acc. induction d; intros acc; cbn [Pos.of_uint_acc digits_value];
    [done | rewrite IHd; f_equal; lia ..].
Qed.

Lemma of_uint_value (d : Decimal.uint) :
  Z.of_N (Pos.of_uint d) = digits_value 0 d.
Proof.
  induction d; cbn [Pos.of_uint digits_value]; [done | exact IHd | ..];
    cbn [Z.of_N]; by rewrite of_uint_acc_value.
Qed.

(** Reading the digits written for [d] gives the value of [d]. *)
Lemma int_digits_string_of_uint (d : Decimal.uint) (acc : Z) (prev : bool) :
  Py.int_digits acc prev (NilEmpty.string_of_uint d)
  = match d with
    | Decimal.Nil => if prev then Some acc else None
    | _ => Some (digits_value acc d)
    end.
Proof.
  revert acc prev.
  induction d; intros acc prev; [done | ..];
    cbn [NilEmpty.string_of_uint Py.int_digits digits_value];
    (change (Py.isdecimal _) with true; cbn iota; rewrite IHd;
     by destruct d).
Qed.

Lemma string_of_uint_digits (d : Decimal.uint) :
  Py.forallb_str Py.isdecimal (NilEmpty.string_of_uint d) = true.
Proof. induction d; [done | exact IHd ..]. Qed.

Lemma forallb_str_impl (p q : ascii → bool) (s : string) :
  (∀ c, p c = true → q c = true) →
  Py.forallb_str p s = true → Py.forallb_str q s = true.
Proof.
  intros Hpq. induction s as [|c s IH]; [done|].
  cbn [Py.forallb_str]. intros [Hc Hs]%andb_prop.
  by rewrite (Hpq c Hc), (IH Hs).
Qed.

Lemma isdecimal_not_space (c : ascii) :
  Py.isdecimal c = true → negb (Py.isspace c) = true.
Proof.
  unfold Py.isdecimal, Py.isspace. intros [H1 H2]%andb_prop.
  apply Z.leb_le in H1, H2.
  repeat match goal with
         | |- context [(?a <=? ?b)] => destruct (Z.leb_spec a b)
         | |- context [(?a =? ?b)] => destruct (Z.eqb_spec a b)
         end; cbn; try done; lia.
Qed.

(** Stripping a text without whitespace changes nothing. *)
Lemma strip_no_space (s : string) :
  Py.forallb_str (fun c => negb (Py.isspace c)) s = true → Py.strip s = s.
Proof.
  intros Hs. unfold Py.strip.
  assert (Hl : Py.lstrip s = s).
  { destruct s as [|c s]; [done|]. cbn [Py.forallb_str] in Hs.
    apply andb_prop in Hs as [Hc _]. cbn [Py.lstrip].
    by destruct (Py.isspace c). }
  rewrite Hl. clear Hl. induction s as [|c s IH]; [done|].
  cbn [Py.forallb_str] in Hs. apply andb_prop in Hs as [Hc Hs].
  cbn [Py.rstrip]. rewrite (IH Hs). destruct s; [|done].
  by destruct (Py.isspace c).
Qed.

(** The decimal text of an integer: an optional minus sign and a
    non-empty run of decimal digits that reads back as its magnitude. *)
Lemma str_shape (n : Z) :
  ∃ ds, Py.str n = (if n <? 0 then "-" else "") +:+ ds
        ∧ Py.forallb_str Py.isdecimal ds = true
        ∧ ds ≠ ""
        ∧ Py.int_digits 0 false ds = Some (Z.abs n).
Proof.
  unfold Py.str. destruct n as [|p|p]; cbn [Z.to_int NilEmpty.string_of_int].
  - exists "0". by vm_compute.
  - exists (NilEmpty.string_of_uint (Pos.to_uint p)).
    pose proof (DecimalPos.Unsigned.to_uint_nonnil p) as Hnn.
    pose proof (DecimalPos.Unsigned.of_to p) as Hof.
    apply (f_equal Z.of_N) in Hof. rewrite of_uint_value in Hof.
    split; [done|]. split; [apply string_of_uint_digits|]. split.
    + by destruct (Pos.to_uint p).
    + rewrite int_digits_string_of_uint. by destruct (Pos.to_uint p); rewrite ?Hof.
  - exists (NilEmpty.string_of_uint (Pos.to_uint p)).
    pose proof (DecimalPos.Unsigned.to_uint_nonnil p) as Hnn.
    pose proof (DecimalPos.Unsigned.of_to p) as Hof.
    apply (f_equal Z.of_N) in Hof. rewrite of_uint_value in Hof.
    split; [done|]. split; [apply string_of_uint_digits|]. split.
    + by destruct (Pos.to_uint p).
    + rewrite int_digits_string_of_uint. by destruct (Pos.to_uint p); rewrite ?Hof.
Qed.

Lemma int_of_digits (ds : string) :
  ds ≠ "" → Py.forallb_str Py.isdecimal ds = true →
  Py.int ds = match Py.int_digits 0 false ds with
              | Some n => Ok n
              | None => Raise ValueError
              end.
Proof.
  intros Hne Hds. unfold Py.int.
  rewrite strip_no_space
    by (eapply forallb_str_impl; [apply isdecimal_not_space | done]).
  destruct ds as [|c r]; [done|].
  cbn [Py.forallb_str] in Hds. apply andb_prop in Hds as [Hc _].
  destruct c as [[] [] [] [] [] [] [] []];
    first [ by vm_compute in Hc | reflexivity ].
Qed.

(** [int(str(n))] is [n]. *)
Lemma int_str (n : Z) : Py.int (Py.str n) = Ok n.
Proof.
  destruct (str_shape n) as (ds & Hstr & Hds & Hne & Hval).
  rewrite Hstr. destruct (Z.ltb_spec n 0) as [Hneg | Hpos].
  - unfold Py.int. rewrite strip_no_space.
    + change ("-" +:+ ds) with (String "-" ds). cbn iota.
      rewrite Hval. cbn [option_map]. f_equal. lia.
    + change ("-" +:+ ds) with (String "-" ds). cbn [Py.forallb_str].
      apply andb_true_intro. split; [done|].
      eapply forallb_str_impl; [apply isdecimal_not_space | done].
  - rewrite app_nil_l_str, (int_of_digits ds Hne Hds), Hval. f_equal. lia.
Qed.

(** ** Matching an interval text *)

Lemma span_all (p : ascii → bool) (ds rest : string) :
  Py.forallb_str p ds = true →
  (if rest is String c _ then p c = false else True) →
  Re.span p (ds +:+ rest) = (ds, rest).
Proof.
  intros Hds Hrest. induction ds as [|c ds IH].
  - rewrite app_nil_l_str. destruct rest as [|c rest]; [done|].
    cbn [Re.span]. by rewrite Hrest.
  - cbn [Py.forallb_str] in Hds. apply andb_prop in Hds as [Hc Hds].
    rewrite app_cons_str. cbn [Re.span]. by rewrite Hc, (IH Hds).
Qed.

Lemma signed_digits_str (n : Z) (rest : string) :
  (if rest is String c _ then Py.isdecimal c = false else True) →
  Re.signed_digits (Py.str n +:+ rest) = Some (Py.str n, rest).
Proof.
  intros Hrest. destruct (str_shape n) as (ds & -> & Hds & Hne & _).
  destruct (n <? 0).
  - change (("-" +:+ ds) +:+ rest) with (String "-" (ds +:+ rest)).
    cbn [Re.signed_digits]. rewrite (span_all _ _ _ Hds Hrest).
    by destruct ds.
  - rewrite app_nil_l_str. destruct ds as [|c r]; [done|].
    pose proof (span_all _ _ rest Hds Hrest) as Hspan. revert Hspan.
    cbn [Py.forallb_str] in Hds. apply andb_prop in Hds as [Hc _].
    rewrite app_cons_str. unfold Re.signed_digits.
    destruct c as [[] [] [] [] [] [] [] []];
      first [ by vm_compute in Hc | by intros -> ].
Qed.

Lemma lstrip_str (n : Z) (rest : string) :
  Py.lstrip (Py.str n +:+ rest) = Py.str n +:+ rest.
Proof.
  destruct (str_shape n) as (ds & -> & Hds & Hne & _).
  destruct (n <? 0); [done|]. rewrite app_nil_l_str.
  destruct ds as [|c r]; [done|].
  cbn [Py.forallb_str] in Hds. apply andb_prop in Hds as [Hc _].
  rewrite app_cons_str. cbn [Py.lstrip].
  apply isdecimal_not_space in Hc. by destruct (Py.isspace c).
Qed.

(** The interval pattern recognises the text written for two bounds and
    returns their decimal texts. *)
Lemma match_interval_text (lo hi : Z) :
  Re.match_interval (interval_text lo hi) = Some (Py.str lo, Py.str hi).
Proof.
  unfold interval_text.
  change ("(" +:+ Py.str lo +:+ " " +:+ Py.str hi +:+ ")")
    with (String "(" (Py.str lo +:+ String " " (Py.str hi +:+ ")"))).
  cbn [Re.match_interval]. rewrite lstrip_str, signed_digits_str by done.
  change (Py.isspace " ") with true. cbn iota. cbn [Py.lstrip].
  change (Py.isspace " ") with true. cbn iota.
  rewrite lstrip_str, signed_digits_str by done.
  reflexivity.
Qed.

(** ** The editor of a field *)

Lemma filter_bool_find {A} (p : A → bool) (l : list A) :
  match List.find p l with
  | Some x => ∃ tl, filter (fun a => p a) l = x :: tl
  | None => filter (fun a => p a) l = []
  end.
Proof.
  induction l as [|a l IH]; [done|].
  cbn [List.find]. rewrite filter_cons.
  destruct (p a) eqn:Hp; case_decide as Hd.
  - by eexists.
  - by destruct Hd.
  - by destruct Hd.
  - exact IH.
Qed.

Lemma find_none_all {A} (p : A → bool) (l : list A) :
  (∀ a, a ∈ l → p a = false) → List.find p l = None.
Proof.
  intros H. destruct (List.find p l) as [a|] eqn:Hf; [|done].
  apply find_some in Hf as [Hin Hp]. apply list_elem_of_In in Hin.
  by rewrite (H a Hin) in Hp.
Qed.

(** X6.  A regular expression has priority: as soon as some constraint has
    type 27 and a non-empty value, the editor validates against the value
    of the first such constraint and shows it as placeholder, whatever
    interval or GS1 constraints come before or after it. *)
Theorem editor_prefers_regex (constraints : list Constraint) (c : Constraint) :
  c ∈ constraints → has_type_and_value 27 c = true →
  ∃ c0 rx,
    List.find (has_type_and_value 27) constraints = Some c0
    ∧ c_value c0 = Some rx ∧ rx ≠ ""
    ∧ _make_editor_for_constraints constraints
      = Ok (MkLineEdit (RegexValidator rx) ("regex: " +:+ rx) "").
Proof.
  intros Hin Hc.
  destruct (List.find (has_type_and_value 27) constraints) as [c0|] eqn:Hfind.
  2:{ apply list_elem_of_In in Hin.
      by rewrite (find_none _ _ Hfind c Hin) in Hc. }
  pose proof (filter_bool_find (has_type_and_value 27) constraints) as Hfil.
  rewrite Hfind in Hfil. destruct Hfil as [tl Hfil].
  apply find_some in Hfind as [_ Hc0].
  unfold has_type_and_value in Hc0. apply andb_prop in Hc0 as [_ Hval].
  destruct (c_value c0) as [rx|] eqn:Hrx; [|done].
  exists c0, rx. split; [done|]. split; [done|]. split.
  { intros ->. done. }
  unfold _make_editor_for_constraints. rewrite Hfil.
  cbn [omap list_omap]. by rewrite Hrx.
Qed.

Lemma editor_prefers_regex_witness :
  ∃ c0 rx,
    List.find (has_type_and_value 27) mixed_constraints = Some c0
    ∧ c_value c0 = Some rx ∧ rx ≠ ""
    ∧ _make_editor_for_constraints mixed_constraints
      = Ok (MkLineEdit (RegexValidator rx) ("regex: " +:+ rx) "").
Proof.
  apply (editor_prefers_regex mixed_constraints
           (MkConstraint (Some 27) (Some "[0-9]+"))).
  - vm_compute. do 4 apply list_elem_of_further. apply list_elem_of_here.
  - reflexivity.
Defined.



(** X8.  Only the first constraint of type 25 with a value is looked at:
    when no regular expression is usable and that first interval text does
    not match the pattern (or there is none), the editor gets no
    validator, even if a later interval constraint is well formed; its
    placeholder tells whether some constraint has type 10. *)
Theorem editor_without_validator (constraints : list Constraint) :
  (∀ c, c ∈ constraints → has_type_and_value 27 c = false) →
  match List.find (has_type_and_value 25) constraints with
  | Some rng => Re.match_interval (default "" (c_value rng)) = None
  | None => True
  end →
  _make_editor_for_constraints constraints
  = Ok (MkLineEdit NoValidator
          (if existsb (fun c => bool_decide (c_type c = Some 10)) constraints
           then "vereist (GS1/IFA)" else "value") "").
Proof.
  intros Hno27 Hrng.
  pose proof (filter_bool_find (has_type_and_value 27) constraints) as H27.
  rewrite (find_none_all _ _ Hno27) in H27.
  pose proof (filter_bool_find (has_type_and_value 25) constraints) as H25.
  unfold _make_editor_for_constraints. rewrite H27. cbn [omap list_omap].
  destruct (List.find (has_type_and_value 25) constraints) as [rng|].
  - destruct H25 as [tl ->]. rewrite Hrng. by destruct (existsb _ _).
  - rewrite H25. by destruct (existsb _ _).
Qed.

Lemma editor_without_validator_witness :
  _make_editor_for_constraints two_intervals
  = Ok (MkLineEdit NoValidator "vereist (GS1/IFA)" "").
Proof.
  apply (editor_without_validator two_intervals).
  - intros c Hc. vm_compute in Hc.
    apply elem_of_cons in Hc as [-> | Hc]; [done|].
    apply elem_of_cons in Hc as [-> | Hc]; [done|].
    apply elem_of_cons in Hc as [-> | Hc]; [done|].
    by apply elem_of_nil in Hc.
  - reflexivity.
Defined.

(** ** Tags and namespaces *)

Lemma split_once_lacks_none (c : ascii) (s : string) :
  lacks c s = true → Py.split_once c s = (s, None).
Proof.
  induction s as [|a s IH]; [done|].
  cbn [lacks Py.forallb_str Py.split_once]. intros [Ha Hs]%andb_prop.
  fold (lacks c s) in Hs. rewrite (IH Hs).
  by destruct (Ascii.eqb a c).
Qed.

Lemma split_once_some (c : ascii) (s h t : string) :
  Py.split_once c s = (h, Some t) →
  s = h +:+ String c t ∧ lacks c h = true.
Proof.
  revert h. induction s as [|a s IH]; intros h; [done|].
  cbn [Py.split_once]. destruct (Ascii.eqb_spec a c) as [-> | Hne].
  - by intros [= <- <-].
  - destruct (Py.split_once c s) as [h' t'] eqn:Hs. intros [= <- ->].
    destruct (IH h' eq_refl) as [-> Hl]. split; [done|].
    cbn [lacks Py.forallb_str]. fold (lacks c h'). rewrite Hl.
    by destruct (Ascii.eqb_spec a c).
Qed.

(** X9.  [strip_ns] returns the tag itself when it does not start with an
    opening brace, and otherwise what follows the first closing brace; it
    raises, with an IndexError, exactly for a tag that starts with an
    opening brace and has no closing one. *)
Theorem strip_ns_cases (tag : string) :
  match strip_ns tag with
  | Raise e =>
      e = IndexError ∧ Py.startswith "{" tag = true ∧ lacks "}" tag = true
  | Ok local =>
      (Py.startswith "{" tag = false ∧ local = tag)
      ∨ ∃ uri, tag = "{" +:+ uri +:+ "}" +:+ local ∧ lacks "}" uri = true
  end.
Proof.
  unfold strip_ns. destruct (Py.startswith "{" tag) eqn:Hstart; [|by left].
  destruct tag as [|c tag]; [done|]. cbn [Py.startswith] in Hstart.
  destruct (Ascii.eqb_spec "{" c) as [<- | ?]; [|done].
  destruct (Py.split_once "}" (String "{" tag)) as [h [t|]] eqn:Hsplit.
  - right. apply split_once_some in Hsplit as [Htag Hl].
    destruct h as [|c h]; [done|]. rewrite app_cons_str in Htag.
    injection Htag as <- ->. exists h. split; [done|].
    cbn [lacks Py.forallb_str] in Hl. by apply andb_prop in Hl as [_ Hl].
  - split; [done|]. split; [done|].
    destruct (lacks "}" (String "{" tag)) eqn:Hl; [done|].
    cbn [Py.split_once] in Hsplit. change (Ascii.eqb "{" "}") with false in Hsplit.
    cbn iota in Hsplit.
    destruct (Py.split_once "}" tag) as [h' t'] eqn:Hs'.
    injection Hsplit as <- ->.
    cbn [lacks Py.forallb_str] in Hl. fold (lacks "}" tag) in Hl.
    change (Ascii.eqb "{" "}") with false in Hl. cbn [negb andb] in Hl.
    clear -Hs' Hl. exfalso. revert h' Hs'.
    induction tag as [|a tag IH]; intros h' Hs'; [done|].
    cbn [lacks Py.forallb_str] in Hl. fold (lacks "}" tag) in Hl.
    cbn [Py.split_once] in Hs'. destruct (Ascii.eqb a "}"); [done|].
    cbn [negb andb] in Hl.
    destruct (Py.split_once "}" tag) as [h'' t''] eqn:Hs''.
    injection Hs' as <- ->. by apply (IH Hl h'').
Qed.

Section QualifiedTags.
Variable fromstring : string → Res Element.

(** X10.  For a root whose tag is a namespace in braces followed by a
    local name, [parse_tnt_meta] returns that namespace and [strip_ns]
    that local name: both cut the tag at the first closing brace, and the
    namespace attribute of the root is not consulted. *)
Theorem qualified_tag_namespace
    (xml_text uri local : string) (attrib : gmap string string)
    (text : option string) (children : list Element) :
  lacks "}" uri = true →
  fromstring xml_text
  = Ok (Elem ("{" +:+ uri +:+ "}" +:+ local) attrib text children) →
  strip_ns ("{" +:+ uri +:+ "}" +:+ local) = Ok local
  ∧ ∃ v d root, parse_tnt_meta fromstring xml_text = Ok (uri, v, d, root).
Proof.
  intros Hl Hparse. split.
  - unfold strip_ns.
    change ("{" +:+ uri +:+ "}" +:+ local)
      with (String "{" (uri +:+ String "}" local)).
    cbn [Py.startswith Py.split_once].
    change (Ascii.eqb "{" "{") with true. change (Ascii.eqb "{" "}") with false.
    cbn iota. by rewrite (split_once_lacks "}" uri local Hl).
  - unfold parse_tnt_meta. rewrite Hparse. cbn [res_bind el_tag].
    change ("{" +:+ uri +:+ "}" +:+ local)
      with (String "{" (uri +:+ String "}" local)).
    cbn [Py.startswith]. change (Ascii.eqb "{" "{") with true. cbn iota.
    rewrite (split_once_lacks "}" uri local Hl). cbn [fst].
    by eexists _, _, _.
Qed.
End QualifiedTags.

Lemma qualified_tag_namespace_witness :
  strip_ns ("{" +:+ "http://www.wipotec.com" +:+ "}" +:+ "tnt") = Ok "tnt"
  ∧ ∃ v d root,
      parse_tnt_meta
        (parser_of (Elem ("{" +:+ "http://www.wipotec.com" +:+ "}" +:+ "tnt")
                      {["version" := "1.15"]} None []))
        "<tnt/>"
      = Ok ("http://www.wipotec.com", v, d, root).
Proof.
  apply (qualified_tag_namespace
           (parser_of (Elem ("{" +:+ "http://www.wipotec.com" +:+ "}" +:+ "tnt")
                         {["version" := "1.15"]} None []))
           "<tnt/>" "http://www.wipotec.com" "tnt" {["version" := "1.15"]}
           None []).
  - reflexivity.
  - reflexivity.
Defined.

(** ** A level id that aborts the extraction *)

Lemma foldM_raises {A S} (step : S → A → Res S) (l : list A) (a : A) :
  a ∈ l → (∀ s, ∃ e, step s a = Raise e) →
  ∀ s, ∃ e, foldM step s l = Raise e.
Proof.
  intros Hin Hstep. induction l as [|b l IH]; [by apply elem_of_nil in Hin|].
  intros s. cbn [foldM]. apply elem_of_cons in Hin as [<- | Hin].
  - destruct (Hstep s) as [e ->]. by exists e.
  - destruct (step s b) as [s'|e]; [apply (IH Hin) | by exists e].
Qed.

Section AbortedExtraction.
Variable fromstring : string → Res Element.

(** X11.  The extraction gives up as a whole on one bad level id: when
    reading the id of any aggregation-level marker of the response raises
    (an id text that [isdigit()] accepts and [int()] rejects), the level
    pass is left through the [except] before any row is appended, and
    [parse_article_fields] returns no field at all, also for the fields
    that lie outside the marker. *)
Theorem bad_level_id_empties_fields
    (xml_text : string) (root response marker : Element) (e : Exn) :
  fromstring xml_text = Ok root →
  find_first (local_is "response") (iter root) = Ok (Some response) →
  marker ∈ iter response →
  local_is "aggregation-level" marker = Ok true →
  level_id (el_children marker) = Raise e →
  parse_article_fields fromstring xml_text = [].
Proof.
  intros Hparse Hfind Hin Hagg Hid.
  unfold parse_article_fields, fields_of_tree. rewrite Hparse, Hfind.
  unfold iter in Hin. apply list_elem_of_fmap in Hin as ([p m] & -> & Hin).
  cbn [snd] in Hagg, Hid.
  destruct (foldM_raises level_step (iter_at [] response) (p, m) Hin) with (s := (∅ : gmap Path Z))
    as [e' He'].
  - intros s. exists e. unfold level_step. cbn [fst snd].
    by rewrite Hagg, Hid.
  - unfold build_level_map. by rewrite He'.
Qed.
End AbortedExtraction.

Lemma bad_level_id_empties_fields_witness :
  parse_article_fields (parser_of superscript_response) "<tnt/>" = [].
Proof.
  apply (bad_level_id_empties_fields (parser_of superscript_response) "<tnt/>"
           superscript_response
           (node "response"
              [ node "field" [ leaf "name" "qty"; leaf "display-name" "Quantity" ];
                node "aggregation-level" [ leaf "id" (String "178" "") ] ])
           (node "aggregation-level" [ leaf "id" (String "178" "") ])
           ValueError).
  - reflexivity.
  - vm_compute. reflexivity.
  - vm_compute. do 4 apply list_elem_of_further. apply list_elem_of_here.
  - vm_compute. reflexivity.
  - vm_compute. reflexivity.
Defined.

(** ** Escaping loses nothing *)

Lemma unescape_escape_chars (s : string) :
  xml_unescape (escape_chars s) = s.
Proof.
  unfold xml_unescape. induction s as [|c s IH]; [done|].
  cbn [escape_chars]. set (rest := escape_chars s) in *.
  rewrite <- IH. clearbody rest. clear IH.
  destruct c as [[] [] [] [] [] [] [] []]; reflexivity.
Qed.

(** X12.  [xml_escape] loses no information: the escaped text read back
    entity by entity is the original text, so two different texts never
    have the same escaping. *)
Theorem xml_escape_injective (s1 s2 : string) :
  xml_escape s1 = xml_escape s2 → s1 = s2.
Proof.
  rewrite !xml_escape_charwise. intros Heq.
  by rewrite <- (unescape_escape_chars s1), Heq, unescape_escape_chars.
Qed.

Lemma xml_escape_injective_witness :
  xml_unescape (xml_escape "a<b & c") = "a<b & c"
  ∧ ("a<b & c" : string) = "a<b & c".
Proof.
  split; [by vm_compute|].
  apply (xml_escape_injective "a<b & c" "a<b & c"). reflexivity.
Defined.

(** ** The serial-number block of an order *)

Lemma find_positive_sorted (l : list Z) (x : Z) :
  StronglySorted Z.lt l → List.find (fun lvl => 0 <? lvl) l = Some x →
  0 < x ∧ x ∈ l ∧ Forall (fun y => y ≤ 0 ∨ x ≤ y) l.
Proof.
  induction 1 as [|a l Hs IH Ha]; [done|].
  cbn [List.find]. destruct (Z.ltb_spec 0 a) as [Hpos | Hnon].
  - intros [= ->]. split; [done|]. split; [apply elem_of_cons; by left|].
    constructor; [right; lia|].
    eapply Forall_impl; [exact Ha|]. intros y Hy. cbn beta in Hy. right. lia.
  - intros Hfind. destruct (IH Hfind) as (Hx & Hin & Hall).
    split; [done|]. split; [apply elem_of_cons; by right|].
    constructor; [by left | done].
Qed.

Lemma find_positive_none (l : list Z) :
  List.find (fun lvl => 0 <? lvl) l = None → Forall (fun y => y ≤ 0) l.
Proof.
  induction l as [|a l IH]; [constructor|].
  cbn [List.find]. destruct (Z.ltb_spec 0 a); [done|].
  intros Hf. constructor; [done | by apply IH].
Qed.

Lemma order_levels_sorted (tree : list TopItem) :
  StronglySorted Z.lt (build_order_data_xml_from_tree tree).2.
Proof.
  unfold build_order_data_xml_from_tree.
  destruct (foldl order_top_step (∅, ∅) tree) as [all_levels filled].
  cbn [snd]. apply sorted_levels_spec.
Qed.

Section SnsTarget.
Variable zlib_compress : list ascii → list ascii.

(** X13.  The serial-number block goes to the lowest positive level of
    the order: given the levels returned with the order-data fragment, the
    block is empty when the option is off, and otherwise it is the [sns]
    element of the payload for the least level above 0, or for level 0
    when the order has no level above 0; its length attribute is the
    length the payload generator reports. *)
Theorem sns_block_targets_lowest_positive_level
    (tree : list TopItem) :
  let levels := (build_order_data_xml_from_tree tree).2 in
  build_sns_block_if_checked zlib_compress false levels = ""
  ∧ ∃ target,
      build_sns_block_if_checked zlib_compress true levels
      = sns_element (build_sns_payload_for_level zlib_compress target)
      ∧ Forall (fun lvl => lvl ≤ 0 ∨ target ≤ lvl) levels
      ∧ (0 < target ∧ target ∈ levels
         ∨ target = 0 ∧ Forall (fun lvl => lvl ≤ 0) levels).
Proof.
  cbn zeta. split; [done|].
  pose proof (order_levels_sorted tree) as Hsorted.
  set (levels := (build_order_data_xml_from_tree tree).2) in *.
  unfold build_sns_block_if_checked. cbn [negb].
  destruct (List.find (fun lvl => 0 <? lvl) levels) as [x|] eqn:Hfind.
  - exists x. cbn [default from_option id].
    destruct (find_positive_sorted _ _ Hsorted Hfind) as (Hx & Hin & Hall).
    split; [|split; [done | by left]].
    unfold sns_element, id.
    by destruct (build_sns_payload_for_level zlib_compress x).
  - exists 0. cbn [default from_option].
    pose proof (find_positive_none _ Hfind) as Hall.
    split; [|split; [|by right]].
    + unfold sns_element.
      by destruct (build_sns_payload_for_level zlib_compress 0).
    + eapply Forall_impl; [exact Hall|]. intros y Hy. by left.
Qed.
End SnsTarget.

(** ** The order handlers *)

Section OrderHandlerFacts.
Context {W : Type} (clock : W → string * W)
        (exchange : string → W → Res string * W)
        (fromstring : string → Res Element)
        (zlib_compress : list ascii → list ascii).

(** With a candidate to try, the first request sent is the one built for
    the first candidate. *)
Lemma negotiate_sends_first (xsi_type ver : string) (rest : list string)
    (body_builder : string → string) (t : Tool W) :
  let run := negotiate_and_send clock exchange fromstring xsi_type
               (ver :: rest) body_builder t in
  protocol_context run.2 = protocol_context t
  ∧ ∃ more, sent run.2 = sent t ++ body_builder ver :: more
            ∧ (length more ≤ 1 + 2 * length rest)%nat.
Proof.
  cbn zeta. unfold negotiate_and_send. cbn [negotiate_loop]. unfold bind.
  destruct (send_inner _ _ _ (body_builder ver) t) as [[r1|e1] t1] eqn:H1;
    destruct (send_inner_effect _ _ _ _ _ _ _ H1) as [Hc1 Hs1]; cbn beta iota.
  2:{ cbn [snd]. split; [done|]. exists []. split; [done|]. cbn [length]. lia. }
  assert (Hrest : ∀ lr,
    let run := negotiate_loop clock exchange fromstring body_builder rest
                 ([] ++ [ver]) lr t1 in
    protocol_context run.2 = protocol_context t
    ∧ ∃ more, sent run.2 = sent t ++ body_builder ver :: more
              ∧ (length more ≤ 1 + 2 * length rest)%nat).
  { intros lr. cbn zeta.
    destruct (negotiate_loop_effect clock exchange fromstring body_builder rest
                ([] ++ [ver]) lr t1) as [Hc (new & Hs & Hl)].
    split; [by rewrite Hc|]. exists new.
    rewrite Hs, Hs1, <- app_assoc. split; [done|]. lia. }
  assert (Hstop : protocol_context t1 = protocol_context t
    ∧ ∃ more, sent t1 = sent t ++ body_builder ver :: more
              ∧ (length more ≤ 1 + 2 * length rest)%nat).
  { split; [done|]. exists []. split; [done|]. cbn [length]. lia. }
  destruct (Py.contains "version-error" r1); [|exact Hstop].
  destruct (Re.search_concerning r1) as [g|]; [|apply Hrest].
  destruct (Py.truthy (Py.strip g) && _); [|apply Hrest].
  destruct (send_inner _ _ _ (body_builder (Py.strip g)) t1)
    as [[r2|e2] t2] eqn:H2;
    destruct (send_inner_effect _ _ _ _ _ _ _ H2) as [Hc2 Hs2]; cbn beta iota.
  2:{ cbn [snd]. split; [by rewrite Hc2|].
      exists [body_builder (Py.strip g)].
      rewrite Hs2, Hs1, <- app_assoc. split; [done|]. cbn [length]. lia. }
  destruct (Py.contains "version-error" r2).
  - destruct (negotiate_loop_effect clock exchange fromstring body_builder rest
                ([] ++ [ver]) r2 t2) as [Hc (new & Hs & Hl)].
    split; [by rewrite Hc, Hc2|].
    exists (body_builder (Py.strip g) :: new).
    rewrite Hs, Hs2, Hs1, <- !app_assoc. split; [done|]. cbn [length]. lia.
  - cbn [snd ret]. split; [by rewrite Hc2|].
    exists [body_builder (Py.strip g)].
    rewrite Hs2, Hs1, <- app_assoc. split; [done|]. cbn [length]. lia.
Qed.

Lemma send_order_outcome (xsi_type ver : string) (rest : list string)
    (builder : string → string → string → string → string → string)
    (failure_line art : string) (ui : OrderUI) (t : Tool W) :
  article_or_none ui = Some art →
  (length rest ≤ 3)%nat →
  let order_name := Py.or_else (Py.strip (edOrderName ui)) "TestOrder001" in
  let data := build_order_data_xml_from_tree (fieldsView ui) in
  let body :=
    builder order_name art data.1
      (build_sns_block_if_checked zlib_compress (chkIncludeSN ui) data.2) in
  order_outcome
    (send_order clock exchange fromstring zlib_compress xsi_type (ver :: rest)
       builder failure_line ui t)
    (negotiate_and_send clock exchange fromstring xsi_type (ver :: rest) body t)
    (body ver) order_name failure_line ui t.
Proof.
  intros Hart Hlen. cbn zeta. unfold order_outcome, send_order. rewrite Hart.
  destruct (build_order_data_xml_from_tree (fieldsView ui)) as [xml levels].
  cbn [fst snd]. unfold try_except, bind.
  match goal with |- context [negotiate_and_send _ _ _ _ _ ?b t] =>
    pose proof (negotiate_sends_first xsi_type ver rest b t) as Hfirst end.
  cbn zeta in Hfirst.
  destruct (negotiate_and_send _ _ _ _ _ _ t) as [[resp|e] t'];
    cbn [fst snd] in Hfirst |- *; destruct Hfirst as [Hc (more & Hs & Hl)].
  - eexists _, t', more. split; [reflexivity|]. repeat split; try done. lia.
  - eexists ui, _, more. split; [reflexivity|]. repeat split; try done. lia.
Qed.

(** X14.  Creating or importing an order never raises and never changes
    the protocol context.  Without a current article nothing is sent and
    nothing changes.  With one, the first request sent is the request of
    version 2.0 built from the order name (TestOrder001 when the field is
    blank), the article, the order data of the tree and the serial-number
    block, and at most seven more follow; the name of the order is
    remembered exactly when the response that ends the negotiation holds
    the ok marker and is cleared when it does not; when the transport
    raises, the handler logs its failure line and the name remembered
    before stays as it was. *)
Theorem order_name_remembered_only_on_ok (ui : OrderUI) (t : Tool W) :
  match article_or_none ui with
  | None =>
      on_send_create_order clock exchange fromstring zlib_compress ui t
      = (Ok ui, t)
      ∧ on_send_import_order clock exchange fromstring zlib_compress ui t
        = (Ok ui, t)
  | Some art =>
      let order_name := Py.or_else (Py.strip (edOrderName ui)) "TestOrder001" in
      let data := build_order_data_xml_from_tree (fieldsView ui) in
      let sns_xml :=
        build_sns_block_if_checked zlib_compress (chkIncludeSN ui) data.2 in
      let create := create_order_builder order_name art data.1 sns_xml in
      let import := import_order_builder order_name art data.1 sns_xml in
      order_outcome
        (on_send_create_order clock exchange fromstring zlib_compress ui t)
        (negotiate_and_send clock exchange fromstring "create-order-request"
           ["2.0"; "1.2"; "1.1"; "1.0"] create t)
        (create "2.0") order_name "# Create order failed: " ui t
      ∧ order_outcome
          (on_send_import_order clock exchange fromstring zlib_compress ui t)
          (negotiate_and_send clock exchange fromstring "import-order-request"
             ["2.0"; "1.2"; "1.1"; "1.0"] import t)
          (import "2.0") order_name "# Import order failed: " ui t
  end.
Proof.
  destruct (article_or_none ui) as [art|] eqn:Hart.
  - cbn zeta. split.
    + by apply (send_order_outcome "create-order-request" "2.0"
                  ["1.2"; "1.1"; "1.0"] create_order_builder).
    + by apply (send_order_outcome "import-order-request" "2.0"
                  ["1.2"; "1.1"; "1.0"] import_order_builder).
  - unfold on_send_create_order, on_send_import_order, send_order.
    by rewrite Hart.
Qed.

(** X15.  Starting an order: the typed name has priority over the name
    remembered from the last created order; when both are blank nothing is
    sent; otherwise the handler never raises, leaves the protocol context
    alone, and the first request it sends is the start request of version
    2.0 for that name. *)
Theorem start_order_needs_a_name (ui : OrderUI) (t : Tool W) :
  (if Py.truthy (Py.strip (edOrderName ui))
   then start_order_name ui = Py.strip (edOrderName ui)
   else start_order_name ui = default "" (last_created_order ui))
  ∧ if Py.truthy (start_order_name ui)
    then ∃ t' more,
           on_start_order clock exchange fromstring ui t = (Ok tt, t')
           ∧ protocol_context t' = protocol_context t
           ∧ sent t' = sent t
                       ++ start_order_builder (start_order_name ui) "2.0" :: more
           ∧ (length more ≤ 5)%nat
    else on_start_order clock exchange fromstring ui t = (Ok tt, t).
Proof.
  split.
  - unfold start_order_name. destruct (Py.truthy (Py.strip (edOrderName ui)));
      [done|]. destruct (last_created_order ui) as [r|]; [|done].
    by rewrite or_else_empty.
  - unfold on_start_order. destruct (Py.truthy (start_order_name ui)); [|done].
    cbn [negb]. unfold on_start_order_named, try_except, bind,
      start_order_candidates.
    pose proof (negotiate_sends_first "start-order-request" "2.0" ["1.1"; "1.0"]
                  (start_order_builder (start_order_name ui)) t) as Hfirst.
    cbn zeta in Hfirst.
    destruct (negotiate_and_send _ _ _ _ _ _ t) as [[resp|e] t'];
      cbn [snd] in Hfirst; destruct Hfirst as [Hc (more & Hs & Hl)].
    + exists t', more. cbn [length] in Hl. by repeat split; try lia.
    + eexists _, more. split; [reflexivity|]. cbn [length] in Hl.
      by repeat split; try lia.
Qed.

(** X16.  A manual request is sent once, as typed: when the stripped text
    of the editor starts with the request tag it is handed to
    [send_inner] verbatim (no escaping, no negotiation, no retry), and
    otherwise nothing is sent; the handler never raises and never changes
    the protocol context. *)
Theorem manual_request_sent_once (ui : OrderUI) (t : Tool W) :
  ∃ t',
    on_send_manual clock exchange fromstring ui t = (Ok tt, t')
    ∧ protocol_context t' = protocol_context t
    ∧ sent t' = (if Py.startswith "<request" (Py.strip (edXML ui))
                 then sent t ++ [Py.strip (edXML ui)] else sent t).
Proof.
  unfold on_send_manual.
  destruct (Py.startswith "<request" (Py.strip (edXML ui))); [|by exists t].
  cbn [negb]. unfold try_except, bind.
  destruct (send_inner clock exchange fromstring (Py.strip (edXML ui)) t)
    as [[resp|e] t'] eqn:Hrun;
    destruct (send_inner_effect _ _ _ _ _ _ _ Hrun) as [Hc Hs].
  - by exists t'.
  - eexists. split; [reflexivity|]. by split.
Qed.
End OrderHandlerFacts.

(** ** The receive loop *)

Lemma join_empty_cons (p : string) (l : list string) :
  Py.join "" (p :: l) = p +:+ Py.join "" l.
Proof. destruct l; [by rewrite app_nil_r_str | done]. Qed.

Lemma recv_loop_reads (events : list RecvEvent) :
  ∀ acc r rest,
    recv_loop events acc = (Ok r, rest) →
    ∃ chunks,
      r = acc +:+ Py.join "" chunks
      ∧ Forall (fun b => b ≠ "") chunks
      ∧ (events = (Received <$> chunks) ++ rest
         ∧ (chunks ≠ [] ∧ Py.contains "</tnt>" r = true ∨ rest = [])
         ∨ ∃ stop, events = (Received <$> chunks) ++ stop :: rest
                   ∧ (stop = TimedOut ∨ stop = Received ""))
      ∧ ∀ k, (0 < k < length chunks)%nat →
             Py.contains "</tnt>" (acc +:+ Py.join "" (take k chunks)) = false.
Proof.
  induction events as [|ev events IH]; intros acc r rest.
  - intros [= <- <-]. exists []. rewrite app_nil_r_str.
    split; [done|]. split; [constructor|]. split; [left; by split; [|right]|].
    intros k Hk. cbn [length] in Hk. lia.
  - cbn [recv_loop]. destruct ev as [b| |e]; [| |done].
    + destruct b as [|c b].
      * intros [= <- <-]. exists []. rewrite app_nil_r_str.
        split; [done|]. split; [constructor|]. split.
        { right. exists (Received ""). split; [done | by right]. }
        intros k Hk. cbn [length] in Hk. lia.
      * cbn [Py.truthy negb].
        destruct (Py.contains "</tnt>" (acc +:+ String c b)) eqn:Hmark.
        -- intros [= <- <-]. exists [String c b].
           split; [done|]. split; [by repeat constructor|]. split.
           { left. split; [done|]. left. by split. }
           intros k Hk. cbn [length] in Hk. lia.
        -- intros Hrun. destruct (IH _ _ _ Hrun) as (chunks & -> & Hne & Hev & Hmin).
           exists (String c b :: chunks).
           split; [by rewrite join_empty_cons, app_assoc_str|].
           split; [by constructor|]. split.
           { destruct Hev as [[-> Hend] | (stop & -> & Hstop)].
             - left. split; [done|]. destruct Hend as [[_ Hc] | ->].
               + left. by split.
               + by right.
             - right. by exists stop. }
           intros k Hk. cbn [length] in Hk. destruct k as [|k]; [lia|].
           cbn [take]. rewrite join_empty_cons, <- app_assoc_str.
           destruct k as [|k].
           ++ rewrite take_0. cbn [Py.join]. by rewrite app_nil_r_str.
           ++ apply Hmin. lia.
    + intros [= <- <-]. exists []. rewrite app_nil_r_str.
      split; [done|]. split; [constructor|]. split.
      { right. exists TimedOut. split; [done | by left]. }
      intros k Hk. cbn [length] in Hk. lia.
Qed.

(** X17.  The receive loop returns the bytes of the chunks it has read,
    joined in order, and reads no further than needed: it stops at the
    first chunk after which the bytes gathered contain the end tag (also
    when the tag is split over two chunks), at a timeout, or when the peer
    closes; a timeout or a close gives the bytes gathered so far and no
    error, and what the socket had still to deliver is left unread. *)
Theorem recv_loop_stops_at_end_tag
    (events rest : list RecvEvent) (r : string) :
  recv_loop events "" = (Ok r, rest) →
  ∃ chunks,
    r = Py.join "" chunks
    ∧ Forall (fun b => b ≠ "") chunks
    ∧ (events = (Received <$> chunks) ++ rest
       ∧ (chunks ≠ [] ∧ Py.contains "</tnt>" r = true ∨ rest = [])
       ∨ ∃ stop, events = (Received <$> chunks) ++ stop :: rest
                 ∧ (stop = TimedOut ∨ stop = Received ""))
    ∧ ∀ k, (k < length chunks)%nat →
           Py.contains "</tnt>" (Py.join "" (take k chunks)) = false.
Proof.
  intros Hrun. destruct (recv_loop_reads _ _ _ _ Hrun) as (chunks & -> & Hne & Hev & Hmin).
  exists chunks. rewrite app_nil_l_str. split; [done|]. split; [done|].
  split; [by rewrite app_nil_l_str in Hev|].
  intros [|k] Hk; [by rewrite take_0|].
  pose proof (Hmin (S k)) as Hm. rewrite app_nil_l_str in Hm. apply Hm. lia.
Qed.

Lemma recv_loop_stops_at_end_tag_witness :
  ∃ chunks,
    "<tnt>a</tnt>" = Py.join "" chunks
    ∧ Forall (fun b => b ≠ "") chunks
    ∧ ([Received "<tnt>a</t"; Received "nt>"; Received "<tnt>next"]
       = (Received <$> chunks) ++ [Received "<tnt>next"]
       ∧ (chunks ≠ [] ∧ Py.contains "</tnt>" "<tnt>a</tnt>" = true
          ∨ [Received "<tnt>next"] = [])
       ∨ ∃ stop, [Received "<tnt>a</t"; Received "nt>"; Received "<tnt>next"]
                 = (Received <$> chunks) ++ stop :: [Received "<tnt>next"]
                 ∧ (stop = TimedOut ∨ stop = Received ""))
    ∧ ∀ k, (k < length chunks)%nat →
           Py.contains "</tnt>" (Py.join "" (take k chunks)) = false.
Proof.
  apply (recv_loop_stops_at_end_tag
           [Received "<tnt>a</t"; Received "nt>"; Received "<tnt>next"]
           [Received "<tnt>next"] "<tnt>a</tnt>").
  reflexivity.
Defined.

(** ** From field records to the order data *)

Lemma parsed_row_facts (f : Row) :
  parsed_row f →
  ∃ w p,
    value_int (row_get "level" (VInt 0) f) = Ok (level_of f)
    ∧ qt_text (row_get "name" (VStr "") f) = Ok (name_of f)
    ∧ qt_text (row_get "display" (VStr "") f) = Ok (display_of f)
    ∧ row_get "writable" (VBool false) f = VBool w
    ∧ row_get "writable" VNone f = VBool w
    ∧ row_get "preset" VNone f = VOptStr p
    ∧ row_get "preset" (VStr "") f = VOptStr p
    ∧ editor_for_field f = Ok plain_editor.
Proof.
  intros (lvl & n & dn & w & p & ->). exists w, p.
  unfold row_get, level_of, name_of, display_of, editor_for_field,
    constraints_arg.
  repeat (rewrite ?lookup_insert_eq; rewrite ?lookup_insert_ne by done).
  rewrite ?lookup_empty. done.
Qed.

Lemma parse_article_fields_parsed (fromstring : string → Res Element)
    (xml_text : string) :
  Forall parsed_row (parse_article_fields fromstring xml_text).
Proof.
  apply Forall_forall. intros f Hf. unfold parse_article_fields in Hf.
  destruct (fromstring xml_text) as [root|e]; [|by apply elem_of_nil in Hf].
  apply fields_of_tree_row in Hf as (m & pn & Hrow).
  destruct (field_step_row _ _ _ Hrow) as (n & dn & w & p & ->).
  by exists (default 1 (m !! pn.1)), n, dn, w, p.
Qed.

Lemma required_row_writable (f : Row) :
  parsed_row f → is_required f = true →
  make_child (level_of f) f = (Ok tt, required_child (level_of f) f)
  ∧ ∀ lvl, make_child lvl f = (Ok tt, required_child lvl f).
Proof.
  intros Hp Hreq.
  destruct (parsed_row_facts f Hp)
    as (w & p & _ & Hn & Hd & Hw & Hw' & Hps & _ & Hed).
  unfold is_required in Hreq. rewrite Hw' in Hreq.
  apply andb_prop in Hreq as [Hwt _]. cbn [value_truthy] in Hwt. subst w.
  assert (H : ∀ lvl, make_child lvl f = (Ok tt, required_child lvl f)).
  { intros lvl. unfold make_child. rewrite Hn, Hd, Hw. cbn [value_truthy].
    by rewrite Hed. }
  by split.
Qed.

Lemma add_children_required (lvl : Z) (fs : list Row) (kids : list ChildItem) :
  Forall parsed_row fs → Forall (fun f => is_required f = true) fs →
  add_children lvl fs kids = (Ok tt, kids ++ (required_child lvl <$> fs)).
Proof.
  revert kids. induction fs as [|f fs IH]; intros kids Hp Hr.
  - by rewrite app_nil_r.
  - apply Forall_cons in Hp as [Hpf Hp]. apply Forall_cons in Hr as [Hrf Hr].
    cbn [add_children]. destruct (required_row_writable f Hpf Hrf) as [_ ->].
    rewrite (IH _ Hp Hr). cbn [fmap list_fmap]. by rewrite <- app_assoc.
Qed.

(** Grouping appends each record to the list of its level. *)
Lemma foldM_group_step (fs : list Row) (m0 : gmap Z (list Row)) :
  Forall parsed_row fs →
  ∃ m, foldM group_step m0 fs = Ok m
       ∧ (∀ l, default [] (m !! l)
               = default [] (m0 !! l) ++ filter (fun f => level_of f = l) fs)
       ∧ dom m = dom m0 ∪ list_to_set (level_of <$> fs).
Proof.
  revert m0. induction fs as [|f fs IH]; intros m0 Hp.
  - exists m0. split; [done|]. split; [intros l; by rewrite app_nil_r|].
    cbn. set_solver.
  - apply Forall_cons in Hp as [Hpf Hp].
    destruct (parsed_row_facts f Hpf) as (w & p & Hl & _).
    cbn [foldM]. unfold group_step at 1. rewrite Hl. cbn [res_bind].
    destruct (IH (<[level_of f := default [] (m0 !! level_of f) ++ [f]]> m0) Hp)
      as (m & Hm & Hlook & Hdom).
    exists m. split; [done|]. split.
    + intros l. rewrite Hlook, filter_cons.
      destruct (decide (level_of f = l)) as [<- | Hne].
      * rewrite lookup_insert_eq. cbn [default from_option id]. unfold id.
        by rewrite <- app_assoc.
      * by rewrite lookup_insert_ne.
    + rewrite Hdom, dom_insert_L. cbn [fmap list_fmap list_to_set]. set_solver.
Qed.

Lemma add_levels_required (m : gmap Z (list Row)) (req : list Row)
    (lvls : list Z) (tree : list TopItem) :
  Forall parsed_row req → Forall (fun f => is_required f = true) req →
  (∀ l, default [] (m !! l) = filter (fun f => level_of f = l) req) →
  add_levels m lvls tree = (Ok tt, tree ++ (required_top req <$> lvls)).
Proof.
  intros Hp Hr Hm. revert tree. induction lvls as [|l lvls IH]; intros tree.
  - by rewrite app_nil_r.
  - cbn [add_levels]. rewrite Hm.
    rewrite add_children_required.
    + rewrite IH. cbn [fmap list_fmap]. by rewrite <- app_assoc.
    + apply Forall_forall. intros f Hf%list_elem_of_filter.
      destruct Hf as [_ Hf]. by apply (proj1 (Forall_forall _ _) Hp).
    + apply Forall_forall. intros f Hf%list_elem_of_filter.
      destruct Hf as [_ Hf]. by apply (proj1 (Forall_forall _ _) Hr).
Qed.

Lemma populate_required (fields : list Row) :
  Forall parsed_row fields →
  populate_fields_tree true fields
  = (Ok tt,
     required_top (filter (fun f => is_required f) fields)
       <$> levels_of (filter (fun f => is_required f) fields)).
Proof.
  intros Hp. unfold populate_fields_tree.
  set (req := filter (fun f => is_required f) fields).
  assert (Hpreq : Forall parsed_row req).
  { apply Forall_forall. intros f [_ Hf]%list_elem_of_filter.
    by apply (proj1 (Forall_forall _ _) Hp). }
  assert (Hrreq : Forall (fun f => is_required f = true) req).
  { apply Forall_forall. intros f [Hf _]%list_elem_of_filter.
    by apply Is_true_true. }
  destruct (foldM_group_step req ∅ Hpreq) as (m & -> & Hlook & Hdom).
  rewrite (add_levels_required m req _ [] Hpreq Hrreq).
  - cbn [app]. unfold levels_of. rewrite Hdom, dom_empty_L.
    by rewrite (left_id_L ∅ (∪)).
  - intros l. by rewrite Hlook, lookup_empty.
Qed.

Lemma catalog_levels_required (req : list Row) (lvls : list Z) :
  catalog_levels (required_top req <$> lvls) = lvls.
Proof.
  induction lvls as [|l lvls IH]; [done|].
  unfold catalog_levels in *. cbn [fmap list_fmap omap list_omap].
  unfold top_level at 1. cbn [ti_level required_top].
  by rewrite int_str, IH.
Qed.

Lemma filled_at_required (req : list Row) (lvls : list Z) (l : Z) :
  filled_at (required_top req <$> lvls) l = [].
Proof.
  induction lvls as [|l0 lvls IH]; [done|].
  unfold filled_at in *. cbn [fmap list_fmap concat]. rewrite IH, app_nil_r.
  destruct (bool_decide _); [|done].
  cbn [ti_children required_top].
  induction (filter (fun f => level_of f = l0) req) as [|f fs IHf]; [done|].
  cbn [fmap list_fmap omap list_omap]. rewrite IHf.
  unfold item_pair, entered_value. cbn [ci_widget required_child].
  change (Py.strip (le_text plain_editor)) with "". cbn [String.eqb negb].
  by rewrite andb_false_r.
Qed.

Lemma list_to_set_sorted_levels (s : gset Z) :
  list_to_set (sorted_levels s) = s.
Proof.
  apply set_eq. intros x. rewrite elem_of_list_to_set.
  apply sorted_levels_spec.
Qed.

(** X18.  From the parsed fields to the order data.  With the
    required-only filter on, [populate_fields_tree] shows the fields of a
    response without raising: one top-level row per level that has a
    writable field without preset, in ascending order, and under it one
    writable row with an empty editor per such field, in document order.
    The order data built from that tree before the operator types
    anything has exactly one block per such level, each without elements
    (the level texts written by the one method read back in the other),
    and the single level 0 when no field is required. *)
Theorem required_fields_give_empty_blocks
    (fromstring : string → Res Element) (xml_text : string) :
  let req := filter (fun f => is_required f)
               (parse_article_fields fromstring xml_text) in
  let tree := required_top req <$> levels_of req in
  let levels := if req is [] then [0] else levels_of req in
  populate_fields_tree true (parse_article_fields fromstring xml_text)
  = (Ok tt, tree)
  ∧ build_order_data_xml_from_tree tree
    = (Py.join nl
         (["<order-data>"]
          ++ concat ((fun lvl => level_block [] lvl) <$> levels)
          ++ ["</order-data>"]),
       levels).
Proof.
  cbn zeta.
  set (req := filter (fun f => is_required f)
               (parse_article_fields fromstring xml_text)).
  split.
  { apply populate_required. apply parse_article_fields_parsed. }
  unfold build_order_data_xml_from_tree.
  destruct (foldl_order_top_step (required_top req <$> levels_of req) ∅ ∅)
    as [Hlev Hfill].
  destruct (foldl order_top_step (∅, ∅) _) as [all_levels filled].
  cbn [fst snd] in Hlev, Hfill.
  rewrite catalog_levels_required in Hlev.
  rewrite (right_id_L ∅ (∪)) in Hlev.
  assert (Hall : all_levels = list_to_set (level_of <$> req)).
  { rewrite Hlev. apply list_to_set_sorted_levels. }
  assert (Hblock : ∀ L : list Z,
            level_lines filled <$> L = (fun lvl => level_block [] lvl) <$> L).
  { intros L. apply list_fmap_ext. intros _ lvl _.
    rewrite level_lines_block, Hfill, lookup_empty, filled_at_required. done. }
  rewrite Hblock.
  destruct req as [|f req'] eqn:Hreq.
  - rewrite Hall. cbn [fmap list_fmap list_to_set].
    rewrite bool_decide_eq_true_2 by done.
    unfold sorted_levels. by rewrite elements_singleton.
  - rewrite Hall.
    rewrite bool_decide_eq_false_2
      by (cbn [fmap list_fmap list_to_set]; set_solver).
    reflexivity.
Qed.

(** ** Stripped texts *)

Lemma rstrip_idem (s : string) : Py.rstrip (Py.rstrip s) = Py.rstrip s.
Proof.
  induction s as [|c s IH]; [done|].
  cbn [Py.rstrip]. destruct (Py.rstrip s) as [|c' r] eqn:Hr.
  - destruct (Py.isspace c) eqn:Hc; [done|]. cbn [Py.rstrip]. by rewrite Hc.
  - cbn [Py.rstrip]. cbn [Py.rstrip] in IH. by rewrite IH.
Qed.

Lemma lstrip_rstrip (s : string) :
  (if s is String c _ then Py.isspace c = false else True) →
  Py.lstrip (Py.rstrip s) = Py.rstrip s.
Proof.
  destruct s as [|c s]; [done|]. intros Hc. cbn [Py.rstrip].
  destruct (Py.rstrip s); rewrite ?Hc; cbn [Py.lstrip]; by rewrite Hc.
Qed.

Lemma lstrip_head (s : string) :
  if Py.lstrip s is String c _ then Py.isspace c = false else True.
Proof.
  induction s as [|c s IH]; [done|].
  cbn [Py.lstrip]. by destruct (Py.isspace c) eqn:Hc.
Qed.

(** [strip] is idempotent. *)
Lemma strip_stripped (s : string) : stripped (Py.strip s).
Proof.
  unfold stripped, Py.strip.
  rewrite (lstrip_rstrip (Py.lstrip s) (lstrip_head s)).
  apply rstrip_idem.
Qed.

Lemma or_else_stripped (s dflt : string) :
  stripped dflt → dflt ≠ "" →
  stripped (Py.or_else (Py.strip s) dflt) ∧ Py.or_else (Py.strip s) dflt ≠ "".
Proof.
  intros Hd Hne. unfold Py.or_else.
  destruct (Py.strip s) eqn:Hs; cbn [Py.truthy]; [done|].
  split; [|done]. rewrite <- Hs. apply strip_stripped.
Qed.

Lemma xml_escape_nonempty (s : string) : s ≠ "" → xml_escape s ≠ "".
Proof.
  rewrite xml_escape_charwise. destruct s as [|c s]; [done|]. intros _.
  cbn [escape_chars]. unfold escape_char.
  repeat (destruct (Ascii.eqb c _); [done|]). done.
Qed.

(** X19.  The values the envelope is built from are never blank: the
    interface version, the namespace and the agent are stripped and not
    empty whatever the fields of the form hold (a blank field gives the
    default), a dbVersion is either absent or stripped and not empty, and
    the escaped texts written into the envelope are not empty either. *)
Theorem envelope_values_never_blank {W : Type} (t : Tool W) :
  (stripped (iface_ver t) ∧ iface_ver t ≠ "" ∧ xml_escape (iface_ver t) ≠ "")
  ∧ (stripped (current_ns t) ∧ current_ns t ≠ ""
     ∧ xml_escape (current_ns t) ≠ "")
  ∧ (stripped (agent t) ∧ agent t ≠ "" ∧ xml_escape (agent t) ≠ "")
  ∧ match db_ver t with
    | Some v => stripped v ∧ v ≠ "" ∧ xml_escape v ≠ ""
    | None => Py.strip (edDB t) = ""
    end.
Proof.
  unfold iface_ver, current_ns, agent, db_ver.
  destruct (or_else_stripped (edIface t) "1.15") as [? ?]; [done..|].
  destruct (or_else_stripped (edNS t) "http://www.wipotec.com") as [? ?];
    [done..|].
  destruct (or_else_stripped (edAgent t) "MW") as [? ?]; [done..|].
  repeat split; try done; try by apply xml_escape_nonempty.
  destruct (Py.strip (edDB t)) eqn:Hdb; cbn [Py.truthy]; [done|].
  rewrite <- Hdb. split; [apply strip_stripped|].
  split; [by rewrite Hdb | apply xml_escape_nonempty; by rewrite Hdb].
Qed.

(** ** Texts extracted from a response *)

Lemma scan_child_stripped (d d' : Direct) (ch : Element) :
  direct_stripped d → scan_child d ch = Ok d' → direct_stripped d'.
Proof.
  intros (Hn & Hd & Hw & Hp). unfold scan_child.
  destruct (strip_ns (el_tag ch)) as [t|]; [|done]. cbn [res_bind].
  pose proof (strip_stripped (text_or_empty ch)) as Hs.
  repeat (destruct (String.eqb t _); [by intros [= <-]|]).
  destruct (_ || _); by intros [= <-].
Qed.

Lemma scan_children_stripped (cs : list Element) (d d' : Direct) :
  direct_stripped d → foldM scan_child d cs = Ok d' → direct_stripped d'.
Proof.
  revert d. induction cs as [|ch cs IH]; intros d Hd.
  - by intros [= <-].
  - cbn [foldM]. intros (d1 & H1 & Hrest)%res_bind_ok.
    eapply IH; [|exact Hrest]. by eapply scan_child_stripped.
Qed.

Section ExtractedTexts.
Variable fromstring : string → Res Element.

(** X20.  Every text taken from a response is stripped: the names
    returned by [parse_article_names] have no whitespace at either end and
    are not empty, and the name and the display name of every record
    returned by [parse_article_fields] have no whitespace at either end. *)
Theorem extracted_texts_are_stripped (xml_text : string) :
  Forall (fun n => stripped n ∧ n ≠ "")
    (parse_article_names fromstring xml_text)
  ∧ Forall (fun row : Row =>
              ∃ n dn, row !! "name" = Some (VStr n) ∧ stripped n
                      ∧ row !! "display" = Some (VStr dn) ∧ stripped dn)
      (parse_article_fields fromstring xml_text).
Proof.
  split.
  - apply Forall_forall. intros n Hn. unfold parse_article_names in Hn.
    destruct (fromstring xml_text) as [root|e]; [|by apply elem_of_nil in Hn].
    apply collect_elem in Hn as (el & _ & Hstep). unfold article_step in Hstep.
    destruct (local_is "article" el) as [[|]|]; cbn [res_bind] in Hstep;
      [|done..].
    destruct (find_first _ _) as [[nm|]|]; cbn [res_bind] in Hstep; [|done..].
    destruct (Py.strip (text_or_empty nm)) eqn:Ht; cbn [Py.truthy] in Hstep;
      [done|]. injection Hstep as <-. split; [|done].
    rewrite <- Ht. apply strip_stripped.
  - apply Forall_forall. intros row Hrow. unfold parse_article_fields in Hrow.
    destruct (fromstring xml_text) as [root|e]; [|by apply elem_of_nil in Hrow].
    apply fields_of_tree_row in Hrow as (m & pn & Hstep).
    unfold field_step in Hstep.
    destruct (foldM scan_child no_direct (el_children pn.2)) as [d|] eqn:Hscan;
      [|done]. cbn [res_bind] in Hstep.
    assert (Hd : direct_stripped d).
    { eapply scan_children_stripped; [|exact Hscan]. by repeat split. }
    destruct Hd as (Hn & Hdn & _).
    destruct (name_text d) as [n|]; [|done].
    destruct (disp_text d) as [dn|]; [|done].
    injection Hstep as <-. exists n, dn.
    rewrite lookup_insert_ne, lookup_insert_eq by done.
    rewrite !lookup_insert_ne, lookup_insert_eq by done. done.
Qed.
End ExtractedTexts.

(** ** A server that accepts the first request *)

Section AcceptingServer.
Context {W : Type} (clock : W → string * W)
        (exchange : string → W → Res string * W)
        (fromstring : string → Res Element).
Hypothesis no_version_error :
  ∀ env w resp, (exchange env w).1 = Ok resp →
                Py.contains "version-error" resp = false.

Lemma accepted_negotiation (xsi_type ver : string) (rest : list string)
    (body_builder : string → string) (t : Tool W) :
  negotiate_and_send clock exchange fromstring xsi_type (ver :: rest)
    body_builder t
  = send_inner clock exchange fromstring (body_builder ver) t.
Proof.
  unfold negotiate_and_send. cbn [negotiate_loop]. unfold bind.
  destruct (send_inner clock exchange fromstring (body_builder ver) t)
    as [[resp|e] t1] eqn:Hrun; [|done].
  rewrite send_inner_run in Hrun.
  destruct (clock (world t)) as [ts1 w1]. destruct (clock w1) as [ts2 w2].
  cbn zeta in Hrun.
  pose proof (no_version_error (envelope t ts1 (body_builder ver)) w2) as Hacc.
  destruct (exchange _ w2) as [[resp'|e] w3]; cbn [fst] in Hacc; [|done].
  destruct (clock w3) as [ts3 w4]. destruct (clock w4) as [ts4 w5].
  injection Hrun as <- <-. by rewrite (Hacc resp' eq_refl).
Qed.

(** X21.  With a server that never answers with a version-error, the
    first candidate is the only one tried: negotiation over a non-empty
    candidate list is one call of [send_inner] with the request of the
    first candidate, and [on_get_articles] returns normally after the one
    request of version 2.0, with the article list replaced by the names
    read from the answer (or kept, with the failure line logged, when the
    exchange failed). *)
Theorem accepted_first_candidate_only
    (xsi_type ver : string) (rest : list string)
    (body_builder : string → string) (t : Tool W) :
  let neg := negotiate_and_send clock exchange fromstring xsi_type
               (ver :: rest) body_builder t in
  let get := on_get_articles clock exchange fromstring t in
  let '(ts1, w1) := clock (world t) in
  let '(ts2, w2) := clock w1 in
  (neg.1 = (exchange (envelope t ts1 (body_builder ver)) w2).1
   ∧ sent neg.2 = sent t ++ [body_builder ver])
  ∧ get.1 = Ok tt
  ∧ sent get.2 = sent t ++ [get_articles_builder "2.0"]
  ∧ match (exchange (envelope t ts1 (get_articles_builder "2.0")) w2).1 with
    | Ok resp => listArticles get.2 = parse_article_names fromstring resp
    | Raise _ => listArticles get.2 = listArticles t
                 ∧ last (edRaw get.2) = Some "# Get-article-list failed: "
    end.
Proof.
  cbn zeta. unfold on_get_articles, try_except, bind, get_articles_candidates.
  rewrite !accepted_negotiation, !send_inner_run.
  destruct (clock (world t)) as [ts1 w1]. destruct (clock w1) as [ts2 w2].
  cbn zeta. split.
  - destruct (exchange _ w2) as [[resp|e] w3].
    + destruct (clock w3) as [ts3 w4]. by destruct (clock w4) as [ts4 w5].
    + done.
  - destruct (exchange _ w2) as [[resp|e] w3].
    + destruct (clock w3) as [ts3 w4]. by destruct (clock w4) as [ts4 w5].
    + cbn [fst snd sent edRaw listArticles append_raw modify set_edRaw].
      repeat split. by rewrite last_snoc.
Qed.
End AcceptingServer.

Lemma accepted_first_candidate_only_witness :
  let neg := negotiate_and_send fixed_clock server_ok rejecting_parser
               "get-article-list-request" ("2.0" :: ["1.1"; "1.0"])
               get_articles_builder tool0 in
  neg.1 = Ok ("<tnt><response>" +:+ ok_marker +:+ "</response></tnt>")
  ∧ sent neg.2 = [get_articles_builder "2.0"].
Proof.
  assert (Hacc : ∀ env w resp, (server_ok env w).1 = Ok resp →
                               Py.contains "version-error" resp = false).
  { intros env w resp [= <-]. by vm_compute. }
  pose proof (accepted_first_candidate_only fixed_clock server_ok
                rejecting_parser Hacc "get-article-list-request" "2.0"
                ["1.1"; "1.0"] get_articles_builder tool0) as H.
  cbn zeta in H. destruct (fixed_clock (world tool0)) as [ts1 w1] eqn:H1.
  destruct (fixed_clock w1) as [ts2 w2] eqn:H2.
  destruct H as [[Hres Hsent] _]. split; [exact Hres | exact Hsent].
Defined.

(** ** The query-version handler *)

Section QueryVersion.
Context {W : Type} (clock : W → string * W)
        (exchange : string → W → Res string * W)
        (fromstring : string → Res Element).

(** X22.  [on_query_version] does not catch a transport error: when the
    negotiation raises, the handler raises the same error and leaves the
    tool as the negotiation left it.  When the negotiation returns a
    response that does not parse, the handler returns normally and changes
    nothing more.  When the response parses, each of the interface
    version, the dbVersion and the namespace of the form takes the value
    read from the root when that value is not empty and keeps the text it
    had before the request when it is; the agent, the article list and the
    requests sent are those of the negotiation. *)
Theorem query_version_adopts_response (t : Tool W) :
  let neg := negotiate_and_send clock exchange fromstring
               "query-version-request" query_version_candidates
               query_version_builder t in
  let run := on_query_version clock exchange fromstring t in
  match neg.1 with
  | Raise e => run = (Raise e, neg.2)
  | Ok resp =>
      run.1 = Ok tt
      ∧ match parse_tnt_meta fromstring resp with
        | Raise _ => run.2 = neg.2
        | Ok (ns, tnt_version, dbv, _) =>
            edIface run.2 = adopt tnt_version (edIface t)
            ∧ edDB run.2 = adopt dbv (edDB t)
            ∧ edNS run.2 = adopt ns (edNS t)
            ∧ edAgent run.2 = edAgent t
            ∧ listArticles run.2 = listArticles t
            ∧ sent run.2 = sent neg.2
            ∧ edRaw run.2 = edRaw neg.2
        end
  end.
Proof.
  cbn zeta. unfold on_query_version, bind, negotiate_and_send.
  destruct (negotiate_loop_effect clock exchange fromstring
              query_version_builder query_version_candidates [] "" t)
    as [Hc _]. cbn zeta in Hc.
  destruct (negotiate_loop _ _ _ _ _ _ _ t) as [[resp|e] t1]; [|done].
  cbn [fst snd] in Hc |- *. split.
  - destruct (parse_tnt_meta fromstring resp) as [[[[ns v] dbv] root]|e];
      [|done].
    unfold modify, ret. by repeat destruct (Py.truthy _).
  - injection Hc as Hag Hif Hdb Hns Har.
    destruct (parse_tnt_meta fromstring resp) as [[[[ns v] dbv] root]|e];
      [|done].
    unfold modify, ret, adopt. destruct t1.
    cbn [edAgent edIface edDB edNS listArticles] in *. subst.
    by destruct (Py.truthy v), (Py.truthy dbv), (Py.truthy ns).
Qed.
End QueryVersion.
